(** * Content analyzer: media sampling and analysis orchestration

    A shallow embedding of [ContentAnalyzer] (safety.ipynb): the frame
    sampler [extract_frames], the two analysis branches [analyze_video] and
    [analyze_audio], the orchestrator [analyze_content] and the report store
    [save_results], with the properties of the specification that are about
    them.

    Python integers are [Z]; a Python [str] is the list of its code points;
    bytes are integers in [0, 255].  The interpreter's control flow
    (exceptions, [try]/[except], [with]) is a state-and-exception monad over
    an explicit [World]; what the collaborators (OpenCV, librosa, the
    inference service, the operating system) answer is an [Env] of oracles
    that every theorem quantifies over.

    The constructor and the Streamlit script [main] come after the
    analyzer: a run of the script is a function of what the widgets answer,
    over the world, the session state and the elements drawn.

    What librosa computes is an oracle of the environment; the acoustic
    features as the specification describes them are given apart, on the
    reals. *)

From Stdlib Require Import Rbase Rfunctions R_sqrt Lra.
From Stdlib Require Import ZArith List String Ascii Lia Sorted.
From stdpp Require Import base gmap strings list.

Local Open Scope string_scope.
Local Open Scope list_scope.
Local Open Scope Z_scope.

(** ** Exceptions and results *)

(** An exception derived from Python's [Exception], the ones an
    [except Exception] clause catches: its class name and the text [str(e)]
    gives.  Interrupts ([KeyboardInterrupt], [SystemExit]) are outside the
    model. *)
Inductive exn : Type :=
| Exn (kind : string) (msg : string).

Definition exn_str (e : exn) : string :=
  match e with Exn _ m => m end.

Inductive result (A : Type) : Type :=
| Ok (a : A)
| Raise (e : exn).
Arguments Ok {A} a.
Arguments Raise {A} e.

Definition rbind {A B} (r : result A) (k : A -> result B) : result B :=
  match r with
  | Ok a => k a
  | Raise e => Raise e
  end.

(** ** Python integer helpers *)

(** [a // b] on integers: floor division, [ZeroDivisionError] on [b = 0]. *)
Definition py_floordiv (a b : Z) : result Z :=
  if b =? 0
  then Raise (Exn "ZeroDivisionError" "integer division or modulo by zero")
  else Ok (a / b).

(** [range(start, stop, step)] for a positive [step]. *)
Definition py_range (start stop step : Z) : list Z :=
  map (fun k : nat => start + Z.of_nat k * step)
      (seq 0 (Z.to_nat ((stop - start + step - 1) / step))).

(** ** Video sources *)

Record pixel : Type := Pixel { ch0 : Z; ch1 : Z; ch2 : Z }.

(** A decoded frame, as OpenCV hands it out: rows of pixels in B, G, R
    order. *)
Definition frame : Type := list (list pixel).

(** A PIL image: rows of pixels in R, G, B order. *)
Inductive image : Type :=
| Image (rows : list (list pixel)).

(** What [cap.set(CAP_PROP_POS_FRAMES, i); cap.read()] does at an index:
    [(True, frame)], [(False, None)], or an exception out of OpenCV. *)
Inductive read_outcome : Type :=
| Decoded (f : frame)
| NoFrame
| ReadRaises (e : exn).

Record VideoSource : Type := {
  vs_count : Z;                   (* int(cap.get(CAP_PROP_FRAME_COUNT)) *)
  vs_read : Z -> read_outcome
}.

(** A capture that could not be opened: no frames, every read fails. *)
Definition unopened_source : VideoSource :=
  {| vs_count := 0; vs_read := fun _ => NoFrame |}.

Definition is_decoded (o : read_outcome) : bool :=
  match o with Decoded _ => true | _ => false end.

(** The body of the [for] loop of [extract_frames], over the indices still
    to visit and the frames collected so far. *)
Fixpoint sample_loop (read : Z -> read_outcome) (max_frames : Z)
    (idxs : list Z) (frames : list frame) : result (list frame) :=
  match idxs with
  | [] => Ok frames
  | i :: rest =>
      match read i with
      | ReadRaises e => Raise e
      | o =>
          let frames' :=
            match o with Decoded f => frames ++ [f] | _ => frames end in
          if Z.of_nat (length frames') >=? max_frames
          then Ok frames'
          else sample_loop read max_frames rest frames'
      end
  end.

(** [extract_frames] between [cv2.VideoCapture(...)] and [cap.release()]. *)
Definition sample_frames (vs : VideoSource) (max_frames : Z)
    : result (list frame) :=
  let total_frames := vs_count vs in
  rbind (py_floordiv total_frames max_frames) (fun q =>
  let interval := Z.max 1 q in
  sample_loop (vs_read vs) max_frames (py_range 0 total_frames interval) []).

(** ** Text *)

(** A Python [str]: its code points. *)
Definition pystr : Type := list Z.

(** The [str] of an ASCII literal of the program. *)
Definition s2p (s : string) : pystr :=
  map (fun a : ascii => Z.of_nat (nat_of_ascii a)) (list_ascii_of_string s).

Fixpoint uint_codes (u : Decimal.uint) : pystr :=
  match u with
  | Decimal.Nil => []
  | Decimal.D0 u => 48 :: uint_codes u
  | Decimal.D1 u => 49 :: uint_codes u
  | Decimal.D2 u => 50 :: uint_codes u
  | Decimal.D3 u => 51 :: uint_codes u
  | Decimal.D4 u => 52 :: uint_codes u
  | Decimal.D5 u => 53 :: uint_codes u
  | Decimal.D6 u => 54 :: uint_codes u
  | Decimal.D7 u => 55 :: uint_codes u
  | Decimal.D8 u => 56 :: uint_codes u
  | Decimal.D9 u => 57 :: uint_codes u
  end.

(** [str(n)] for [n >= 0]. *)
Definition str_of_nonneg (n : Z) : pystr :=
  uint_codes (N.to_uint (Z.to_N n)).

(** [s.rjust(width, '0')] *)
Definition zfill (width : nat) (s : pystr) : pystr :=
  replicate (width - length s) 48 ++ s.

(** ** Floats *)

(** A binary floating-point value: [(-1)^neg * m * 2^e], an infinity or a
    NaN.  Only the sign, the exact value and the special cases matter to
    what the program does with its floats (it prints them). *)
Inductive pyfloat : Type :=
| FFinite (neg : bool) (m : N) (e : Z)
| FInf (neg : bool)
| FNan.

(** [num / den] rounded to the nearest integer, ties to even
    ([0 <= num], [0 < den]). *)
Definition round_half_even (num den : Z) : Z :=
  let q := num / den in
  let r := num mod den in
  if 2 * r <? den then q
  else if den <? 2 * r then q + 1
  else if Z.even q then q else q + 1.

(** [n / d * 2^(-k)] as a fraction of integers. *)
Definition scaled_num (n k : Z) : Z := n * 2 ^ Z.max 0 (- k).
Definition scaled_den (d k : Z) : Z := d * 2 ^ Z.max 0 k.

(** [a / b] on Python integers: the quotient correctly rounded to binary64
    (53 bits, exponents down to [-1074]); [ZeroDivisionError] for [b = 0]
    and [OverflowError] past the largest double. *)
Definition int_truediv (a b : Z) : result pyfloat :=
  if b =? 0 then Raise (Exn "ZeroDivisionError" "division by zero")
  else
    let neg := xorb (a <? 0) (b <? 0) in
    let n := Z.abs a in
    let d := Z.abs b in
    if n =? 0 then Ok (FFinite neg 0 0)
    else
      let e0 := Z.log2 n - Z.log2 d in
      let e1 := if scaled_num n e0 <? scaled_den d e0 then e0 - 1 else e0 in
      let e := Z.max (e1 - 52) (-1074) in
      let m := round_half_even (scaled_num n e) (scaled_den d e) in
      if 2 ^ 1024 <=? m * 2 ^ Z.max 0 e
      then Raise (Exn "OverflowError"
                      "integer division result too large for a float")
      else Ok (FFinite neg (Z.to_N m) e).

(** [x * 10^d] rounded to an integer, ties to even, for [x = m * 2^e]. *)
Definition scaled_round (d : nat) (m : N) (e : Z) : Z :=
  round_half_even (scaled_num (Z.of_N m * 10 ^ Z.of_nat d) (- e))
                  (scaled_den 1 (- e)).

(** [format(x, '.<d>f')], for [d >= 1]. *)
Definition format_fixed (d : nat) (x : pyfloat) : pystr :=
  match x with
  | FNan => s2p "nan"
  | FInf false => s2p "inf"
  | FInf true => s2p "-inf"
  | FFinite neg m e =>
      let ds := zfill (S d) (str_of_nonneg (scaled_round d m e)) in
      let k := (length ds - d)%nat in
      (if neg then [45] else []) ++ take k ds ++ [46] ++ drop k ds
  end.

(** The number of characters after the decimal point of a rendered number,
    when it has one. *)
Fixpoint decimals (s : pystr) : option nat :=
  match s with
  | [] => None
  | c :: rest => if c =? 46 then Some (length rest) else decimals rest
  end.

(** ** The inference service, the clock and the report *)

(** One part of a multimodal request. *)
Inductive part : Type :=
| PText (s : pystr)
| PImage (img : image).

Record datetime : Type := {
  dt_year : Z; dt_month : Z; dt_day : Z;
  dt_hour : Z; dt_minute : Z; dt_second : Z; dt_micro : Z
}.

Definition dd (w : nat) (n : Z) : pystr := zfill w (str_of_nonneg n).

(** [dt.isoformat()]: the microseconds appear only when they are not 0. *)
Definition isoformat (t : datetime) : pystr :=
  dd 4 (dt_year t) ++ s2p "-" ++ dd 2 (dt_month t) ++ s2p "-" ++ dd 2 (dt_day t)
  ++ s2p "T" ++ dd 2 (dt_hour t) ++ s2p ":" ++ dd 2 (dt_minute t) ++ s2p ":"
  ++ dd 2 (dt_second t)
  ++ (if dt_micro t =? 0 then [] else s2p "." ++ dd 6 (dt_micro t)).

(** [dt.strftime('%Y%m%d_%H%M%S')] *)
Definition strftime_compact (t : datetime) : pystr :=
  dd 4 (dt_year t) ++ dd 2 (dt_month t) ++ dd 2 (dt_day t) ++ s2p "_"
  ++ dd 2 (dt_hour t) ++ dd 2 (dt_minute t) ++ dd 2 (dt_second t).

(** The [results] dictionary of [analyze_content]; [None] is Python's
    [None]. *)
Record report : Type := {
  timestamp : pystr;
  video_analysis : option pystr;
  audio_analysis : option pystr
}.

(** What [analyze_content] returns: the results dictionary, or the
    dictionary [{"error": str(e)}]. *)
Inductive outcome : Type :=
| Results (r : report)
| ErrorResult (msg : pystr).

(** An uploaded file: what its [read()] gives. *)
Record Upload : Type := { up_read : result (list Z) }.

(** The four acoustic features, in the order of the dictionary
    [extract_audio_features] builds. *)
Record features : Type := {
  duration : pyfloat;
  rms_energy : pyfloat;
  spectral_centroid : pyfloat;
  zero_crossing_rate : pyfloat
}.

(** ** The world outside the interpreter *)

Inductive log_record : Type :=
| LogInfo (msg : pystr)
| LogError (msg : pystr).

Record World : Type := mkWorld {
  w_clock : nat;                      (* readings of [datetime.now()] so far *)
  w_tmp_next : nat;                   (* the next temporary file *)
  w_tmp : gmap nat (pystr * list Z);  (* temporary files on disk: suffix, contents *)
  w_fds : gset nat;                   (* temporary files still open for writing *)
  w_cap_next : nat;                   (* the next capture handle *)
  w_caps : gset nat;                  (* capture handles not yet released *)
  w_out : gmap pystr (list Z);        (* files written by [save_results] *)
  w_calls : list (list part);         (* requests sent to the inference service *)
  w_log : list log_record;            (* what the logger received *)
  w_buf : gmap nat (list Z)           (* bytes written to an open temporary
                                         file that are still in its buffer *)
}.

(** What a buffered [write] did with the bytes pending and given: the first
    [n] of them are in the file; then it returned, keeping the rest in the
    buffer, or it raised. *)
Inductive write_outcome : Type :=
| Written (n : nat)
| WriteRaises (n : nat) (e : exn).

(** What [close] did with the bytes pending: all of them are in the file,
    or only the first [n] and it raised.  The file is closed either way. *)
Inductive close_outcome : Type :=
| Closed
| CloseRaises (n : nat) (e : exn).

(** The collaborators' answers, each a function of what the collaborator is
    given.  Nothing else is assumed about them: any of them may fail, and
    the numbers librosa computes are whatever it computes. *)
Record Env : Type := {
  env_now : nat -> datetime;                   (* the clock, reading by reading *)
  env_mktemp : nat -> option exn;              (* [NamedTemporaryFile(...)] fails? *)
  env_tmp_write : nat -> list Z -> write_outcome;  (* [tmp.write(data)] *)
  env_tmp_close : nat -> list Z -> close_outcome;
                                   (* leaving the [with] block of a temporary
                                      file, given the bytes pending *)
  env_unlink : nat -> option exn;              (* [os.unlink(name)] fails? *)
  env_decode_video : list Z -> VideoSource;    (* OpenCV on a file's contents *)
  env_generate : list part -> result pystr;    (* [send_message(parts).text] *)
  env_load_audio : list Z -> result (list pyfloat * Z);  (* [librosa.load] *)
  env_rms : list pyfloat -> result pyfloat;    (* [float(rms(y=y).mean())] *)
  env_centroid : list pyfloat -> result pyfloat;
                                   (* [float(spectral_centroid(y=y).mean())] *)
  env_zcr : list pyfloat -> result pyfloat;
                                   (* [float(zero_crossing_rate(y).mean())] *)
  env_open_w : pystr -> option exn;            (* [open(path, 'w')] fails? *)
  env_out_write : pystr -> list Z -> list Z -> option (nat * exn);
                                   (* [f.write(chunk)] on the output file,
                                      given the bytes it took so far and the
                                      encoded chunk: it raises, having taken
                                      the first [n] bytes of the chunk? *)
  env_out_close : pystr -> list Z -> close_outcome
                                   (* leaving the [with] block of the output
                                      file, given the bytes it took *)
}.

Definition initial_world : World :=
  mkWorld 0 0 ∅ ∅ 0 ∅ ∅ [] [] ∅.

(** ** The interpreter monad: state and exceptions *)

Definition M (A : Type) : Type := World -> result A * World.

Definition ret {A} (a : A) : M A := fun w => (Ok a, w).

Definition raise {A} (e : exn) : M A := fun w => (Raise e, w).

Definition bind {A B} (m : M A) (k : A -> M B) : M B :=
  fun w =>
    match m w with
    | (Ok a, w') => k a w'
    | (Raise e, w') => (Raise e, w')
    end.

(** [try: m  except Exception as e: handler e] *)
Definition try_except {A} (m : M A) (handler : exn -> M A) : M A :=
  fun w =>
    match m w with
    | (Ok a, w') => (Ok a, w')
    | (Raise e, w') => handler e w'
    end.

Definition lift {A} (r : result A) : M A := fun w => (r, w).

Definition modify (f : World -> World) : M unit := fun w => (Ok tt, f w).

Declare Scope m_scope.
Delimit Scope m_scope with M.
Notation "x <- m ;; k" := (bind m (fun x => k))
  (at level 100, m at next level, right associativity) : m_scope.
Notation "m ;;; k" := (bind m (fun _ => k))
  (at level 100, right associativity) : m_scope.
Local Open Scope m_scope.

(** *** Field updates *)

Definition set_clock (n : nat) (w : World) : World :=
  mkWorld n (w_tmp_next w) (w_tmp w) (w_fds w) (w_cap_next w) (w_caps w)
          (w_out w) (w_calls w) (w_log w) (w_buf w).
Definition set_tmp_next (n : nat) (w : World) : World :=
  mkWorld (w_clock w) n (w_tmp w) (w_fds w) (w_cap_next w) (w_caps w)
          (w_out w) (w_calls w) (w_log w) (w_buf w).
Definition set_tmp (t : gmap nat (pystr * list Z)) (w : World) : World :=
  mkWorld (w_clock w) (w_tmp_next w) t (w_fds w) (w_cap_next w) (w_caps w)
          (w_out w) (w_calls w) (w_log w) (w_buf w).
Definition set_fds (s : gset nat) (w : World) : World :=
  mkWorld (w_clock w) (w_tmp_next w) (w_tmp w) s (w_cap_next w) (w_caps w)
          (w_out w) (w_calls w) (w_log w) (w_buf w).
Definition set_cap_next (n : nat) (w : World) : World :=
  mkWorld (w_clock w) (w_tmp_next w) (w_tmp w) (w_fds w) n (w_caps w)
          (w_out w) (w_calls w) (w_log w) (w_buf w).
Definition set_caps (s : gset nat) (w : World) : World :=
  mkWorld (w_clock w) (w_tmp_next w) (w_tmp w) (w_fds w) (w_cap_next w) s
          (w_out w) (w_calls w) (w_log w) (w_buf w).
Definition set_out (o : gmap pystr (list Z)) (w : World) : World :=
  mkWorld (w_clock w) (w_tmp_next w) (w_tmp w) (w_fds w) (w_cap_next w)
          (w_caps w) o (w_calls w) (w_log w) (w_buf w).
Definition set_calls (c : list (list part)) (w : World) : World :=
  mkWorld (w_clock w) (w_tmp_next w) (w_tmp w) (w_fds w) (w_cap_next w)
          (w_caps w) (w_out w) c (w_log w) (w_buf w).
Definition set_log (l : list log_record) (w : World) : World :=
  mkWorld (w_clock w) (w_tmp_next w) (w_tmp w) (w_fds w) (w_cap_next w)
          (w_caps w) (w_out w) (w_calls w) l (w_buf w).
Definition set_buf (b : gmap nat (list Z)) (w : World) : World :=
  mkWorld (w_clock w) (w_tmp_next w) (w_tmp w) (w_fds w) (w_cap_next w)
          (w_caps w) (w_out w) (w_calls w) (w_log w) b.

(** ** The persistence format *)

(** The values the results dictionary holds: [None] or a [str]. *)
Inductive jvalue : Type :=
| JNull
| JString (s : pystr).

(** A dictionary, in insertion order. *)
Definition jdict : Type := list (pystr * jvalue).

Definition hex_digit (n : Z) : Z := if n <? 10 then 48 + n else 87 + n.

(** ['{0:04x}'.format(n)], for [n] below [0x10000]. *)
Definition hex4_codes (n : Z) : pystr :=
  [hex_digit (n / 4096 mod 16); hex_digit (n / 256 mod 16);
   hex_digit (n / 16 mod 16); hex_digit (n mod 16)].

(** One character of a JSON string under [ensure_ascii=False]: only the
    quote, the backslash and the control characters are escaped. *)
Definition json_escape_char (c : Z) : pystr :=
  if c =? 34 then [92; 34]
  else if c =? 92 then [92; 92]
  else if c =? 8 then [92; 98]
  else if c =? 12 then [92; 102]
  else if c =? 10 then [92; 110]
  else if c =? 13 then [92; 114]
  else if c =? 9 then [92; 116]
  else if (0 <=? c) && (c <? 32)
       then [92; 117; 48; 48; hex_digit (c / 16); hex_digit (c mod 16)]
  else [c].

Definition encode_basestring (s : pystr) : pystr :=
  [34] ++ concat (map json_escape_char s) ++ [34].

Definition json_value (v : jvalue) : pystr :=
  match v with
  | JNull => s2p "null"
  | JString s => encode_basestring s
  end.

(** [indent=2] at nesting depth 1. *)
Definition newline_indent : pystr := [10; 32; 32].
Definition item_separator : pystr := 44 :: newline_indent.
Definition key_separator : pystr := s2p ": ".

Fixpoint json_items (first : bool) (items : jdict) : list pystr :=
  match items with
  | [] => []
  | (k, v) :: rest =>
      (if first then [] else [item_separator])
      ++ [encode_basestring k; key_separator; json_value v]
      ++ json_items false rest
  end.

(** The chunks [json.dump(d, f, ensure_ascii=False, indent=2)] writes, one
    [f.write] each. *)
Definition json_iterencode (d : jdict) : list pystr :=
  match d with
  | [] => [s2p "{}"]
  | _ => [s2p "{"; newline_indent] ++ json_items true d ++ [[10]; s2p "}"]
  end.

Definition json_dumps (d : jdict) : pystr := concat (json_iterencode d).

Definition jopt (o : option pystr) : jvalue :=
  match o with
  | None => JNull
  | Some s => JString s
  end.

Definition report_dict (r : report) : jdict :=
  [ (s2p "timestamp", JString (timestamp r));
    (s2p "video_analysis", jopt (video_analysis r));
    (s2p "audio_analysis", jopt (audio_analysis r)) ].

(** UTF-8, as a file opened with [encoding='utf-8'] encodes what is written
    to it: surrogates and values past U+10FFFF cannot be encoded. *)
Definition utf8_encode_char (c : Z) : option (list Z) :=
  if (0 <=? c) && (c <? 128) then Some [c]
  else if (128 <=? c) && (c <? 2048) then
    Some [192 + c / 64; 128 + c mod 64]
  else if (2048 <=? c) && (c <? 65536) then
    if (55296 <=? c) && (c <? 57344) then None
    else Some [224 + c / 4096; 128 + (c / 64) mod 64; 128 + c mod 64]
  else if (65536 <=? c) && (c <? 1114112) then
    Some [240 + c / 262144; 128 + (c / 4096) mod 64;
          128 + (c / 64) mod 64; 128 + c mod 64]
  else None.

Fixpoint utf8_encode (s : pystr) : option (list Z) :=
  match s with
  | [] => Some []
  | c :: rest =>
      match utf8_encode_char c, utf8_encode rest with
      | Some b, Some bs => Some (b ++ bs)
      | _, _ => None
      end
  end.

Definition is_surrogate (c : Z) : bool := (55296 <=? c) && (c <? 57344).

(** The surrogates at the head of [s]. *)
Fixpoint surrogate_run (s : pystr) : nat :=
  match s with
  | c :: rest => if is_surrogate c then S (surrogate_run rest) else O
  | [] => O
  end.

(** The first character of [s] that UTF-8 cannot encode: its position, the
    character, and the length of the run of surrogates it starts, which is
    the range the encoder reports. *)
Fixpoint first_unencodable (pos : nat) (s : pystr) : option (nat * Z * nat) :=
  match s with
  | [] => None
  | c :: rest =>
      match utf8_encode_char c with
      | None => Some (pos, c, S (surrogate_run rest))
      | Some _ => first_unencodable (S pos) rest
      end
  end.

(** The text of ASCII codes, as a message. *)
Definition string_of_codes (s : pystr) : string :=
  string_of_list_ascii (map (fun c => ascii_of_nat (Z.to_nat c)) s).

(** The exception of a strict UTF-8 encoder on [s], with the text Python
    gives it: one character with its escape, or the range of a run. *)
Definition unicode_encode_error (s : pystr) : exn :=
  Exn "UnicodeEncodeError"
      match first_unencodable 0 s with
      | Some (pos, c, 1%nat) =>
          "'utf-8' codec can't encode character '\u"
          ++ string_of_codes (hex4_codes c) ++ "' in position "
          ++ string_of_codes (str_of_nonneg (Z.of_nat pos))
          ++ ": surrogates not allowed"
      | Some (pos, _, n) =>
          "'utf-8' codec can't encode characters in position "
          ++ string_of_codes (str_of_nonneg (Z.of_nat pos)) ++ "-"
          ++ string_of_codes (str_of_nonneg (Z.of_nat (pos + n - 1)))
          ++ ": surrogates not allowed"
      | None => EmptyString
      end%string.

(** ** The analyzer *)

Definition output_dir : pystr := s2p "analysis_results".

(** [os.path.join(a, b)] for a relative [b]. *)
Definition path_join (a b : pystr) : pystr := a ++ s2p "/" ++ b.

Definition video_prompt : pystr := s2p "
            Analyze these video frames for signs of harassment or concerning behavior.
            Focus on:
            1. Aggressive or threatening movements
            2. Signs of distress or danger
            3. Unsafe situations
            4. Suspicious patterns

            Based on training with Bengali content, provide a detailed assessment.
            ".

Definition audio_prompt_head : pystr := s2p "
            Analyze these audio characteristics for concerning content:
            
            Audio Features:
            - Duration: ".
Definition audio_prompt_energy : pystr := s2p " seconds
            - Energy Level: ".
Definition audio_prompt_spectral : pystr := s2p "
            - Spectral Features: ".
Definition audio_prompt_voice : pystr := s2p "
            - Voice Patterns: ".
Definition audio_prompt_tail : pystr := s2p "
            
            Based on training with Bengali audio content:
            1. Identify any concerning speech patterns
            2. Detect aggressive or threatening tones
            3. Analyze emotional indicators
            4. Note any suspicious audio elements
            ".

(** The f-string of [analyze_audio]. *)
Definition audio_prompt (f : features) : pystr :=
  audio_prompt_head ++ format_fixed 2 (duration f)
  ++ audio_prompt_energy ++ format_fixed 4 (rms_energy f)
  ++ audio_prompt_spectral ++ format_fixed 2 (spectral_centroid f)
  ++ audio_prompt_voice ++ format_fixed 4 (zero_crossing_rate f)
  ++ audio_prompt_tail.

(** [cv2.cvtColor(frame, cv2.COLOR_BGR2RGB)]: OpenCV refuses an empty
    array. *)
Definition cvtColor_BGR2RGB (f : frame) : result frame :=
  match f with
  | [] => Raise (Exn "cv2.error" "(-215:Assertion failed) !_src.empty()")
  | _ => Ok (map (map (fun p => Pixel (ch2 p) (ch1 p) (ch0 p))) f)
  end.

Definition fromarray (rows : frame) : image := Image rows.

(** The list comprehension of [analyze_video]. *)
Fixpoint to_pil_frames (frames : list frame) : result (list image) :=
  match frames with
  | [] => Ok []
  | f :: rest =>
      rbind (cvtColor_BGR2RGB f) (fun rgb =>
      rbind (to_pil_frames rest) (fun imgs =>
      Ok (fromarray rgb :: imgs)))
  end.

(** The video a capture opened on [path] reads: a file OpenCV cannot find
    gives a capture that is not opened. *)
Definition source_at (E : Env) (w : World) (path : nat) : VideoSource :=
  match w_tmp w !! path with
  | Some (_, bytes) => env_decode_video E bytes
  | None => unopened_source
  end.

Section Analyzer.

Context (E : Env).

(** *** Primitive operations on the world *)

Definition log_info (msg : pystr) : M unit :=
  modify (fun w => set_log (w_log w ++ [LogInfo msg]) w).

Definition log_error (msg : pystr) : M unit :=
  modify (fun w => set_log (w_log w ++ [LogError msg]) w).

(** [datetime.now()] *)
Definition now : M datetime :=
  fun w => (Ok (env_now E (w_clock w)), set_clock (S (w_clock w)) w).

(** The bytes pending in the buffer of temporary file [tmp]. *)
Definition pending (tmp : nat) (w : World) : list Z :=
  default [] (w_buf w !! tmp).

(** [n] more bytes of [bytes] reach temporary file [tmp] on disk. *)
Definition to_disk (tmp : nat) (bytes : list Z) (w : World) : World :=
  set_tmp (alter (fun f => (f.1, f.2 ++ bytes)) tmp (w_tmp w)) w.

(** [tmp.close()]: the bytes pending are flushed, all of them or, when the
    flush raises, the first of them; the file is closed either way. *)
Definition tmp_close (tmp : nat) : M unit :=
  fun w =>
    let closed (bytes : list Z) :=
      set_buf (delete tmp (w_buf w))
        (set_fds (w_fds w ∖ {[tmp]}) (to_disk tmp bytes w)) in
    match env_tmp_close E tmp (pending tmp w) with
    | Closed => (Ok tt, closed (pending tmp w))
    | CloseRaises n e => (Raise e, closed (take n (pending tmp w)))
    end.

(** [with tempfile.NamedTemporaryFile(delete=False, suffix=...) as tmp: body]:
    the file is created empty and stays on disk ([delete=False]); leaving
    the block, either way, closes it, and an exception of the close is the
    one that leaves the block.  The result carries the file along, since
    [tmp.name] is used after the block. *)
Definition with_named_tmp {A} (suffix : pystr) (body : nat -> M A)
    : M (nat * A) :=
  fun w =>
    let tmp := w_tmp_next w in
    match env_mktemp E tmp with
    | Some e => (Raise e, w)
    | None =>
        let w1 := set_buf (<[tmp := []]> (w_buf w))
                    (set_fds ({[tmp]} ∪ w_fds w)
                       (set_tmp (<[tmp := (suffix, [])]> (w_tmp w))
                          (set_tmp_next (S tmp) w))) in
        let '(r, w2) := body tmp w1 in
        match tmp_close tmp w2 with
        | (Raise e, w3) => (Raise e, w3)
        | (Ok _, w3) =>
            match r with
            | Ok a => (Ok (tmp, a), w3)
            | Raise e => (Raise e, w3)
            end
        end
    end.

(** [tmp.write(data)] on the buffered file: of the bytes pending and given,
    the first [n] reach the disk, where a reader of the file finds them.
    When the call returns, the others wait in the buffer until the file is
    closed; when it raises, what of [data] did not reach the disk is lost. *)
Definition tmp_write (tmp : nat) (data : list Z) : M unit :=
  fun w =>
    let all := pending tmp w ++ data in
    match env_tmp_write E tmp data with
    | Written n =>
        (Ok tt,
         set_buf (<[tmp := drop n all]> (w_buf w)) (to_disk tmp (take n all) w))
    | WriteRaises n e =>
        (Raise e,
         set_buf (<[tmp := drop n (pending tmp w)]> (w_buf w))
           (to_disk tmp (take n all) w))
    end.

(** [os.unlink(name)] *)
Definition os_unlink (tmp : nat) : M unit :=
  fun w =>
    match env_unlink E tmp with
    | Some e => (Raise e, w)
    | None => (Ok tt, set_tmp (delete tmp (w_tmp w)) w)
    end.

(** [cv2.VideoCapture(path)]: a new handle on the video at [path]. *)
Definition video_capture (path : nat) : M (nat * VideoSource) :=
  fun w =>
    let h := w_cap_next w in
    (Ok (h, source_at E w path),
     set_caps ({[h]} ∪ w_caps w) (set_cap_next (S h) w)).

(** [cap.release()] *)
Definition cap_release (h : nat) : M unit :=
  modify (fun w => set_caps (w_caps w ∖ {[h]}) w).

(** [self.model.start_chat(history=[]).send_message(parts).text] *)
Definition send_message (parts : list part) : M pystr :=
  fun w => (env_generate E parts, set_calls (w_calls w ++ [parts]) w).

(** [librosa.load(path)] *)
Definition librosa_load (path : nat) : M (list pyfloat * Z) :=
  fun w =>
    match w_tmp w !! path with
    | Some (_, bytes) => (env_load_audio E bytes, w)
    | None => (Raise (Exn "FileNotFoundError" "No such file or directory"), w)
    end.

(** The bytes the open output file [path] took so far. *)
Definition taken (path : pystr) (w : World) : list Z :=
  default [] (w_out w !! path).

(** [f.write(chunk)] on a file opened with [encoding='utf-8']: the chunk is
    encoded, which a surrogate makes fail, and handed to the buffered file,
    which may have to write and fail. *)
Definition file_write (path : pystr) (chunk : pystr) : M unit :=
  fun w =>
    match utf8_encode chunk with
    | None => (Raise (unicode_encode_error chunk), w)
    | Some bytes =>
        match env_out_write E path (taken path w) bytes with
        | None =>
            (Ok tt, set_out (<[path := taken path w ++ bytes]> (w_out w)) w)
        | Some (n, e) =>
            (Raise e,
             set_out (<[path := taken path w ++ take n bytes]> (w_out w)) w)
        end
    end.

Fixpoint write_chunks (path : pystr) (chunks : list pystr) : M unit :=
  match chunks with
  | [] => ret tt
  | c :: rest => file_write path c ;;; write_chunks path rest
  end.

(** [with open(path, 'w', encoding='utf-8') as f: body]: the file is
    created, or truncated, when it is opened.  Leaving the block, either
    way, closes it: what the file took is flushed, all of it or, when the
    flush raises, the first of it, and an exception of the close is the one
    that leaves the block. *)
Definition with_open_w {A} (path : pystr) (body : M A) : M A :=
  fun w =>
    match env_open_w E path with
    | Some e => (Raise e, w)
    | None =>
        let '(r, w1) := body (set_out (<[path := []]> (w_out w)) w) in
        match env_out_close E path (taken path w1) with
        | Closed => (r, w1)
        | CloseRaises n e =>
            (Raise e,
             set_out (<[path := take n (taken path w1)]> (w_out w1)) w1)
        end
    end.

(** *** The methods of [ContentAnalyzer] *)

Definition extract_frames (video_path : nat) (max_frames : Z)
    : M (list frame) :=
  cap <- video_capture video_path ;;
  frames <- lift (sample_frames cap.2 max_frames) ;;
  cap_release cap.1 ;;;
  ret frames.

Definition extract_audio_features (audio_path : nat) : M features :=
  ysr <- librosa_load audio_path ;;
  let y := ysr.1 in
  let sr := ysr.2 in
  d <- lift (int_truediv (Z.of_nat (length y)) sr) ;;
  r <- lift (env_rms E y) ;;
  c <- lift (env_centroid E y) ;;
  z <- lift (env_zcr E y) ;;
  ret {| duration := d; rms_energy := r;
         spectral_centroid := c; zero_crossing_rate := z |}.

Definition analyze_video (video_path : nat) : M (option pystr) :=
  try_except
    (frames <- extract_frames video_path 10 ;;
     pil_frames <- lift (to_pil_frames frames) ;;
     text <- send_message (PText video_prompt :: map PImage (take 10 pil_frames)) ;;
     ret (Some text))
    (fun e =>
       log_error (s2p "Error in video analysis: " ++ s2p (exn_str e)) ;;;
       ret None).

Definition analyze_audio (audio_path : nat) : M (option pystr) :=
  try_except
    (f <- extract_audio_features audio_path ;;
     text <- send_message [PText (audio_prompt f)] ;;
     ret (Some text))
    (fun e =>
       log_error (s2p "Error in audio analysis: " ++ s2p (exn_str e)) ;;;
       ret None).

Definition save_results (results : report) : M pystr :=
  t <- now ;;
  let output_file :=
    path_join output_dir
      (s2p "analysis_" ++ strftime_compact t ++ s2p ".json") in
  with_open_w output_file
    (write_chunks output_file (json_iterencode (report_dict results))) ;;;
  log_info (s2p "Results saved to " ++ output_file) ;;;
  ret output_file.

Definition set_video_analysis (v : option pystr) (r : report) : report :=
  {| timestamp := timestamp r; video_analysis := v;
     audio_analysis := audio_analysis r |}.

Definition set_audio_analysis (a : option pystr) (r : report) : report :=
  {| timestamp := timestamp r; video_analysis := video_analysis r;
     audio_analysis := a |}.

(** The video branch of [analyze_content]. *)
Definition video_branch (video_file : option Upload) (results : report)
    : M report :=
  match video_file with
  | None => ret results
  | Some vf =>
      log_info (s2p "Analyzing video...") ;;;
      tr <- with_named_tmp (s2p ".mp4") (fun tmp_video =>
              data <- lift (up_read vf) ;;
              tmp_write tmp_video data ;;;
              video_analysis <- analyze_video tmp_video ;;
              ret (set_video_analysis video_analysis results)) ;;
      os_unlink tr.1 ;;;
      ret tr.2
  end.

(** The audio branch of [analyze_content]. *)
Definition audio_branch (audio_file : option Upload) (results : report)
    : M report :=
  match audio_file with
  | None => ret results
  | Some af =>
      log_info (s2p "Analyzing audio...") ;;;
      tr <- with_named_tmp (s2p ".wav") (fun tmp_audio =>
              data <- lift (up_read af) ;;
              tmp_write tmp_audio data ;;;
              audio_analysis <- analyze_audio tmp_audio ;;
              ret (set_audio_analysis audio_analysis results)) ;;
      os_unlink tr.1 ;;;
      ret tr.2
  end.

(** [analyze_content] up to the comment [# Save results]: the results
    dictionary after both branches. *)
Definition run_branches (video_file audio_file : option Upload)
    : M report :=
  t <- now ;;
  let results := {| timestamp := isoformat t; video_analysis := None;
                    audio_analysis := None |} in
  results <- video_branch video_file results ;;
  results <- audio_branch audio_file results ;;
  ret results.

Definition analyze_content (video_file audio_file : option Upload)
    : M outcome :=
  try_except
    (results <- run_branches video_file audio_file ;;
     save_results results ;;;
     ret (Results results))
    (fun e =>
       log_error (s2p "Error in analysis: " ++ s2p (exn_str e)) ;;;
       ret (ErrorResult (s2p (exn_str e)))).

End Analyzer.

(** ** Reading a persisted report back

    The program only writes reports; reading one back is what any consumer
    of the persisted files does: decode the bytes as UTF-8 and parse the
    JSON object.  The parser covers the objects [save_results] can write,
    whose values are strings or [null]. *)

Definition is_cont (b : Z) : bool := (128 <=? b) && (b <? 192).

Definition ocons {A} (x : A) (o : option (list A)) : option (list A) :=
  match o with
  | Some l => Some (x :: l)
  | None => None
  end.

(** Strict UTF-8: no overlong form, no surrogate, nothing past U+10FFFF. *)
Fixpoint utf8_decode (bs : list Z) : option pystr :=
  match bs with
  | [] => Some []
  | b0 :: r0 =>
      if (0 <=? b0) && (b0 <? 128) then ocons b0 (utf8_decode r0)
      else if (194 <=? b0) && (b0 <? 224) then
        match r0 with
        | b1 :: r1 =>
            if is_cont b1
            then ocons ((b0 - 192) * 64 + (b1 - 128)) (utf8_decode r1)
            else None
        | _ => None
        end
      else if (224 <=? b0) && (b0 <? 240) then
        match r0 with
        | b1 :: b2 :: r2 =>
            let c := (b0 - 224) * 4096 + (b1 - 128) * 64 + (b2 - 128) in
            if is_cont b1 && is_cont b2 && (2048 <=? c)
               && negb ((55296 <=? c) && (c <? 57344))
            then ocons c (utf8_decode r2)
            else None
        | _ => None
        end
      else if (240 <=? b0) && (b0 <? 245) then
        match r0 with
        | b1 :: b2 :: b3 :: r3 =>
            let c := (b0 - 240) * 262144 + (b1 - 128) * 4096
                     + (b2 - 128) * 64 + (b3 - 128) in
            if is_cont b1 && is_cont b2 && is_cont b3
               && (65536 <=? c) && (c <? 1114112)
            then ocons c (utf8_decode r3)
            else None
        | _ => None
        end
      else None
  end.

Definition is_ws (c : Z) : bool :=
  (c =? 32) || (c =? 9) || (c =? 10) || (c =? 13).

Fixpoint skip_ws (s : pystr) : pystr :=
  match s with
  | c :: r => if is_ws c then skip_ws r else s
  | [] => []
  end.

Definition hex_value (c : Z) : option Z :=
  if (48 <=? c) && (c <=? 57) then Some (c - 48)
  else if (97 <=? c) && (c <=? 102) then Some (c - 87)
  else if (65 <=? c) && (c <=? 70) then Some (c - 55)
  else None.

Definition hex4 (a b c d : Z) : option Z :=
  match hex_value a, hex_value b, hex_value c, hex_value d with
  | Some x, Some y, Some z, Some t => Some (((x * 16 + y) * 16 + z) * 16 + t)
  | _, _, _, _ => None
  end.

(** The character a one-letter escape stands for. *)
Definition unescape (e : Z) : option Z :=
  if e =? 34 then Some 34
  else if e =? 92 then Some 92
  else if e =? 47 then Some 47
  else if e =? 98 then Some 8
  else if e =? 102 then Some 12
  else if e =? 110 then Some 10
  else if e =? 114 then Some 13
  else if e =? 116 then Some 9
  else None.

Definition push (c : Z) (o : option (pystr * pystr)) : option (pystr * pystr) :=
  match o with
  | Some (s, rest) => Some (c :: s, rest)
  | None => None
  end.

Definition is_high_surrogate (u : Z) : bool := (55296 <=? u) && (u <=? 56319).
Definition is_low_surrogate (u : Z) : bool := (56320 <=? u) && (u <=? 57343).

(** A JSON string, from just after its opening quote: the string and what
    follows its closing quote.  A raw control character is refused; a
    [\uXXXX] high surrogate followed by a [\uXXXX] low surrogate is one
    character. *)
Fixpoint scan_string (s : pystr) : option (pystr * pystr) :=
  match s with
  | [] => None
  | c :: r =>
      if c =? 34 then Some ([], r)
      else if c =? 92 then
        match r with
        | [] => None
        | e :: r1 =>
            if e =? 117 then
              match r1 with
              | h1 :: h2 :: h3 :: h4 :: r2 =>
                  match hex4 h1 h2 h3 h4 with
                  | None => None
                  | Some u =>
                      if is_high_surrogate u then
                        match r2 with
                        | a :: b :: r2' =>
                            if (a =? 92) && (b =? 117) then
                              match r2' with
                              | g1 :: g2 :: g3 :: g4 :: r3 =>
                                  match hex4 g1 g2 g3 g4 with
                                  | Some u2 =>
                                      if is_low_surrogate u2
                                      then push (65536 + (u - 55296) * 1024
                                                 + (u2 - 56320))
                                                (scan_string r3)
                                      else push u (scan_string r2)
                                  | None => None
                                  end
                              | _ => None
                              end
                            else push u (scan_string r2)
                        | _ => push u (scan_string r2)
                        end
                      else push u (scan_string r2)
                  end
              | _ => None
              end
            else
              match unescape e with
              | Some x => push x (scan_string r1)
              | None => None
              end
        end
      else if (0 <=? c) && (c <? 32) then None
      else push c (scan_string r)
  end.

(** A value of the covered objects: a string or [null]. *)
Definition parse_value (s : pystr) : option (jvalue * pystr) :=
  match s with
  | 34 :: r =>
      match scan_string r with
      | Some (v, rest) => Some (JString v, rest)
      | None => None
      end
  | 110 :: 117 :: 108 :: 108 :: rest => Some (JNull, rest)
  | _ => None
  end.

(** The members of an object, from the opening quote of a key up to the
    closing brace.  Every member consumes input, so the length of the input
    is fuel enough. *)
Fixpoint parse_members (fuel : nat) (s : pystr) : option (jdict * pystr) :=
  match fuel with
  | O => None
  | S fuel' =>
      match s with
      | 34 :: s1 =>
          match scan_string s1 with
          | None => None
          | Some (k, s2) =>
              match skip_ws s2 with
              | 58 :: s3 =>
                  match parse_value (skip_ws s3) with
                  | None => None
                  | Some (v, s4) =>
                      match skip_ws s4 with
                      | 44 :: s5 =>
                          match parse_members fuel' (skip_ws s5) with
                          | Some (items, s6) => Some ((k, v) :: items, s6)
                          | None => None
                          end
                      | 125 :: s5 => Some ([(k, v)], s5)
                      | _ => None
                      end
                  end
              | _ => None
              end
          end
      | _ => None
      end
  end.

(** [json.loads], on the covered objects. *)
Definition json_loads (s : pystr) : option jdict :=
  match skip_ws s with
  | 123 :: s1 =>
      match skip_ws s1 with
      | 125 :: s2 =>
          match skip_ws s2 with [] => Some [] | _ => None end
      | s1' =>
          match parse_members (length s1') s1' with
          | Some (items, rest) =>
              match skip_ws rest with [] => Some items | _ => None end
          | None => None
          end
      end
  | _ => None
  end.

Fixpoint pystr_eqb (a b : pystr) : bool :=
  match a, b with
  | [], [] => true
  | x :: a', y :: b' => (x =? y) && pystr_eqb a' b'
  | _, _ => false
  end.

(** [d[key]] *)
Fixpoint dict_get (key : pystr) (d : jdict) : option jvalue :=
  match d with
  | [] => None
  | (k, v) :: rest => if pystr_eqb k key then Some v else dict_get key rest
  end.

Definition jvalue_opt (v : jvalue) : option pystr :=
  match v with
  | JNull => None
  | JString s => Some s
  end.

(** The report a parsed object stands for: its three fields, the timestamp
    a string. *)
Definition report_of_dict (d : jdict) : option report :=
  match dict_get (s2p "timestamp") d,
        dict_get (s2p "video_analysis") d,
        dict_get (s2p "audio_analysis") d with
  | Some (JString t), Some v, Some a =>
      Some {| timestamp := t; video_analysis := jvalue_opt v;
              audio_analysis := jvalue_opt a |}
  | _, _, _ => None
  end.

(** Reading a persisted file back. *)
Definition load_report (bytes : list Z) : option report :=
  match utf8_decode bytes with
  | Some text =>
      match json_loads text with
      | Some d => report_of_dict d
      | None => None
      end
  | None => None
  end.

(** ** Reading the audio prompt *)

(** [s] without its prefix [lit], when it starts with it. *)
Fixpoint skip_literal (lit s : pystr) : option pystr :=
  match lit, s with
  | [], _ => Some s
  | a :: lit', b :: s' => if a =? b then skip_literal lit' s' else None
  | _ :: _, [] => None
  end.

Definition is_delim (c : Z) : bool := (c =? 32) || (c =? 10).

(** The characters up to the next space or newline, and the rest. *)
Fixpoint take_token (s : pystr) : pystr * pystr :=
  match s with
  | [] => ([], [])
  | c :: rest =>
      if is_delim c then ([], s)
      else (c :: (take_token rest).1, (take_token rest).2)
  end.

(** The four numbers of an audio prompt, as rendered: what stands at
    "Duration", "Energy Level", "Spectral Features" and "Voice Patterns". *)
Definition parse_audio_prompt (p : pystr)
    : option (pystr * pystr * pystr * pystr) :=
  match skip_literal audio_prompt_head p with
  | None => None
  | Some s1 =>
      match skip_literal audio_prompt_energy (take_token s1).2 with
      | None => None
      | Some s2 =>
          match skip_literal audio_prompt_spectral (take_token s2).2 with
          | None => None
          | Some s3 =>
              match skip_literal audio_prompt_voice (take_token s3).2 with
              | None => None
              | Some s4 =>
                  match skip_literal audio_prompt_tail (take_token s4).2 with
                  | Some [] =>
                      Some ((take_token s1).1, (take_token s2).1,
                            (take_token s3).1, (take_token s4).1)
                  | _ => None
                  end
              end
          end
      end
  end.

Definition is_finite (x : pyfloat) : bool :=
  match x with
  | FFinite _ _ _ => true
  | _ => false
  end.

Definition is_digit (c : Z) : bool := (48 <=? c) && (c <=? 57).

(** ** The download format *)

(** One character of a JSON string under [ensure_ascii=True], the default
    of [json.dumps]: everything outside [' '..'~'] is escaped, a character
    past U+FFFF as a surrogate pair. *)
Definition json_escape_char_ascii (c : Z) : pystr :=
  if c =? 34 then [92; 34]
  else if c =? 92 then [92; 92]
  else if c =? 8 then [92; 98]
  else if c =? 12 then [92; 102]
  else if c =? 10 then [92; 110]
  else if c =? 13 then [92; 114]
  else if c =? 9 then [92; 116]
  else if (32 <=? c) && (c <=? 126) then [c]
  else if c <? 65536 then [92; 117] ++ hex4_codes c
  else
    let n := c - 65536 in
    let s1 := Z.lor 55296 (Z.land (Z.shiftr n 10) 1023) in
    let s2 := Z.lor 56320 (Z.land n 1023) in
    [92; 117] ++ hex4_codes s1 ++ [92; 117] ++ hex4_codes s2.

(** The encoder of [json], for a given way of escaping a character. *)
Definition encode_string_with (esc : Z -> pystr) (s : pystr) : pystr :=
  [34] ++ concat (map esc s) ++ [34].

Definition json_value_with (esc : Z -> pystr) (v : jvalue) : pystr :=
  match v with
  | JNull => s2p "null"
  | JString s => encode_string_with esc s
  end.

Fixpoint json_items_with (esc : Z -> pystr) (first : bool) (items : jdict)
    : list pystr :=
  match items with
  | [] => []
  | (k, v) :: rest =>
      (if first then [] else [item_separator])
      ++ [encode_string_with esc k; key_separator; json_value_with esc v]
      ++ json_items_with esc false rest
  end.

Definition json_iterencode_with (esc : Z -> pystr) (d : jdict) : list pystr :=
  match d with
  | [] => [s2p "{}"]
  | _ =>
      [s2p "{"; newline_indent] ++ json_items_with esc true d
      ++ [[10]; s2p "}"]
  end.

(** [json.dumps(d, indent=2)] *)
Definition json_dumps_ascii (d : jdict) : pystr :=
  concat (json_iterencode_with json_escape_char_ascii d).

(** ** The constructor *)

(** What the constructor asks of its platform: the client library and the
    file system. *)
Record Platform : Type := {
  pf_genai : pystr -> option exn;
                 (* [genai.configure(api_key=...)], [genai.GenerativeModel(...)] fail? *)
  pf_makedirs : pystr -> option exn
                 (* [os.makedirs(path, exist_ok=True)] fails? *)
}.

Definition check (o : option exn) : M unit :=
  fun w =>
    match o with
    | Some e => (Raise e, w)
    | None => (Ok tt, w)
    end.

(** [ContentAnalyzer(api_key)]: the client is configured, then the output
    directory is created when it is missing. *)
Definition __init__ (P : Platform) (api_key : pystr) : M unit :=
  (check (pf_genai P api_key) ;;;
   check (pf_makedirs P output_dir))%M.

(** ** The Streamlit page *)

(** Where an element is drawn: the page, its sidebar, or one of the two
    columns. *)
Inductive place : Type := Page | Sidebar | Column1 | Column2.

Inductive element : Type :=
| StPageConfig (page_title page_icon layout : pystr)
| StTitle (body : pystr)
| StHeader (body : pystr)
| StSubheader (body : pystr)
| StWrite (body : pystr)
| StMarkdown (body : pystr)
| StText (body : pystr)
| StTextInput (label : pystr)
| StFileUploader (label : pystr) (types : list pystr)
| StButton (label : pystr) (disabled : bool)
| StSuccess (body : pystr)
| StError (body : pystr)
| StWarning (body : pystr)
| StDownloadButton (label data file_name mime : pystr).

(** What [st.session_state] holds under a key: [None], or a dictionary
    returned by [analyze_content]. *)
Inductive svalue : Type :=
| SNone
| SDict (d : outcome).

(** What the widgets answer in one run of the script: the key typed, the
    files uploaded, and whether the button reports a press. *)
Record Widgets : Type := {
  wg_api_key : pystr;
  wg_video : option Upload;
  wg_audio : option Upload;
  wg_pressed : bool
}.

(** The state a run of the script works on: the world of the analyzer, the
    session state, which Streamlit keeps from one run to the next, and the
    elements drawn so far. *)
Record App : Type := mkApp {
  app_world : World;
  app_session : gmap string svalue;
  app_page : list (place * element)
}.

Definition UI (A : Type) : Type := App -> result A * App.

Definition ui_ret {A} (a : A) : UI A := fun s => (Ok a, s).

Definition ui_bind {A B} (m : UI A) (k : A -> UI B) : UI B :=
  fun s =>
    match m s with
    | (Ok a, s') => k a s'
    | (Raise e, s') => (Raise e, s')
    end.

Declare Scope ui_scope.
Delimit Scope ui_scope with UI.
Notation "x <- m ;; k" := (ui_bind m (fun x => k))
  (at level 100, m at next level, right associativity) : ui_scope.
Notation "m ;;; k" := (ui_bind m (fun _ => k))
  (at level 100, right associativity) : ui_scope.

(** A method of the analyzer, run on the world of the application. *)
Definition in_world {A} (m : M A) : UI A :=
  fun s =>
    let '(r, w) := m (app_world s) in
    (r, mkApp w (app_session s) (app_page s)).

Definition draw (p : place) (e : element) : UI unit :=
  fun s => (Ok tt, mkApp (app_world s) (app_session s) (app_page s ++ [(p, e)])).

(** [key in st.session_state] *)
Definition session_contains (key : string) : UI bool :=
  fun s =>
    (Ok match app_session s !! key with
        | Some _ => true
        | None => false
        end, s).

(** [st.session_state.key = v] *)
Definition session_set (key : string) (v : svalue) : UI unit :=
  fun s =>
    (Ok tt, mkApp (app_world s) (<[key := v]> (app_session s)) (app_page s)).

(** [st.session_state.key] *)
Definition session_get (key : string) : UI svalue :=
  fun s =>
    match app_session s !! key with
    | Some v => (Ok v, s)
    | None =>
        (Raise (Exn "AttributeError"
                    ("st.session_state has no attribute " ++ key)), s)
    end.

(** The widgets draw themselves and answer their value. *)
Definition st_text_input (p : place) (label value : pystr) : UI pystr :=
  (draw p (StTextInput label) ;;; ui_ret value)%UI.

Definition st_file_uploader (p : place) (label : pystr) (types : list pystr)
    (value : option Upload) : UI (option Upload) :=
  (draw p (StFileUploader label types) ;;; ui_ret value)%UI.

Definition st_button (p : place) (label : pystr) (disabled pressed : bool)
    : UI bool :=
  (draw p (StButton label disabled) ;;; ui_ret pressed)%UI.

(** Truth values of Python: a string is true when it is not empty, an
    uploaded file is true, [None] is false. *)
Definition str_truthy (s : pystr) : bool :=
  match s with
  | [] => false
  | _ => true
  end.

Definition file_truthy (f : option Upload) : bool :=
  match f with
  | Some _ => true
  | None => false
  end.

(** [disabled=not api_key or (not video_file and not audio_file)] *)
Definition button_disabled (api_key : pystr)
    (video_file audio_file : option Upload) : bool :=
  negb (str_truthy api_key)
  || (negb (file_truthy video_file) && negb (file_truthy audio_file)).

Definition features_text : pystr := s2p "
        ### Features
        - Video content analysis
        - Audio characteristics analysis
        - Automatic result saving
        - Download results
        ".

(** The block [with st.sidebar:]; it answers the key typed. *)
Definition sidebar (wg : Widgets) : UI pystr :=
  (draw Sidebar (StHeader (s2p "Configuration")) ;;;
   api_key <- st_text_input Sidebar (s2p "Enter Gemini API Key")
                (wg_api_key wg) ;;
   draw Sidebar (StMarkdown (s2p "---")) ;;;
   draw Sidebar (StMarkdown features_text) ;;;
   ui_ret api_key)%UI.

(** The body of [if st.button(...):]. *)
Definition on_press (P : Platform) (E : Env) (api_key : pystr)
    (video_file audio_file : option Upload) : UI unit :=
  (if str_truthy api_key then
     (* with st.spinner("Analyzing content..."): the spinner is gone when
        the block is left *)
     in_world (__init__ P api_key) ;;;
     d <- in_world (analyze_content E video_file audio_file) ;;
     session_set "results" (SDict d) ;;;
     results <- session_get "results" ;;
     match results with
     | SDict (Results _) => draw Column1 (StSuccess (s2p "Analysis complete!"))
     | SDict (ErrorResult msg) =>
         draw Column1 (StError (s2p "Analysis failed: " ++ msg))
     | SNone =>
         fun s =>
           (Raise (Exn "TypeError"
                       "argument of type 'NoneType' is not iterable"), s)
     end
   else draw Column1 (StWarning (s2p "Please enter your Gemini API key")))%UI.

(** The block [with col1:]. *)
Definition column1 (P : Platform) (E : Env) (wg : Widgets) (api_key : pystr)
    : UI unit :=
  (draw Column1 (StSubheader (s2p "Upload Files")) ;;;
   video_file <- st_file_uploader Column1 (s2p "Upload Video")
                   [s2p "mp4"; s2p "avi"; s2p "mov"] (wg_video wg) ;;
   audio_file <- st_file_uploader Column1 (s2p "Upload Audio")
                   [s2p "wav"; s2p "mp3"] (wg_audio wg) ;;
   pressed <- st_button Column1 (s2p "Analyze Content")
                (button_disabled api_key video_file audio_file)
                (wg_pressed wg) ;;
   if pressed then on_press P E api_key video_file audio_file
   else ui_ret tt)%UI.

(** One analysis of the results column: shown when the text is neither
    [None] nor empty. *)
Definition show_analysis (heading : pystr) (analysis : option pystr)
    : UI unit :=
  match analysis with
  | Some text =>
      if str_truthy text then
        (draw Column2 (StMarkdown heading) ;;;
         draw Column2 (StMarkdown (s2p "---")) ;;;
         draw Column2 (StWrite text))%UI
      else ui_ret tt
  | None => ui_ret tt
  end.

(** The block [with col2:]. *)
Definition column2 (E : Env) : UI unit :=
  (draw Column2 (StSubheader (s2p "Analysis Results")) ;;;
   results <- session_get "results" ;;
   match results with
   | SDict (Results r) =>
       draw Column2
         (StText ([128338] ++ s2p " Analysis completed at: " ++ timestamp r)) ;;;
       show_analysis (s2p "### " ++ [127909] ++ s2p " Video Analysis")
         (video_analysis r) ;;;
       show_analysis (s2p "### " ++ [128266] ++ s2p " Audio Analysis")
         (audio_analysis r) ;;;
       t <- in_world (now E) ;;
       draw Column2
         (StDownloadButton (s2p "Download Results (JSON)")
            (json_dumps_ascii (report_dict r))
            (s2p "analysis_" ++ strftime_compact t ++ s2p ".json")
            (s2p "application/json"))
   | _ => ui_ret tt
   end)%UI.

(** [if key not in st.session_state: st.session_state.key = None] *)
Definition session_default (key : string) : UI unit :=
  (known <- session_contains key ;;
   if known then ui_ret tt else session_set key SNone)%UI.

(** One run of the script. *)
Definition main (P : Platform) (E : Env) (wg : Widgets) : UI unit :=
  (draw Page (StPageConfig (s2p "Content Analysis System") [128202]
                (s2p "wide")) ;;;
   draw Page (StTitle (s2p "Content Analysis System")) ;;;
   draw Page
     (StWrite
        (s2p "Upload video or audio files to analyze for concerning content")) ;;;
   session_default "results" ;;;
   session_default "results_file" ;;;
   api_key <- sidebar wg ;;
   column1 P E wg api_key ;;;
   column2 E)%UI.

(** ** Specification-side definitions *)

(** The stride between two visited frames. *)
Definition sampling_interval (total_frames max_frames : Z) : Z :=
  Z.max 1 (total_frames / max_frames).

(** The indices at which the sampler keeps a frame: the first [max_frames]
    of the visited indices that decode. *)
Definition kept_indices (vs : VideoSource) (max_frames : Z) : list Z :=
  take (Z.to_nat max_frames)
       (List.filter (fun i => is_decoded (vs_read vs i))
          (py_range 0 (vs_count vs)
             (sampling_interval (vs_count vs) max_frames))).

Definition never_raises (vs : VideoSource) : Prop :=
  forall i e, vs_read vs i <> ReadRaises e.

(** The world once a capture has been opened on it, and once that capture
    has been released again. *)
Definition capture_opened (w : World) : World :=
  set_caps ({[w_cap_next w]} ∪ w_caps w) (set_cap_next (S (w_cap_next w)) w).

Definition capture_released (w : World) : World :=
  set_caps (w_caps (capture_opened w) ∖ {[w_cap_next w]}) (capture_opened w).

(** The steps [analyze_video] runs on the video of a file with contents
    [bytes]: one of them raises [e]. *)
Definition video_steps_raise (E : Env) (bytes : list Z) (e : exn) : Prop :=
  sample_frames (env_decode_video E bytes) 10 = Raise e
  \/ (exists frames,
        sample_frames (env_decode_video E bytes) 10 = Ok frames
        /\ to_pil_frames frames = Raise e)
  \/ (exists frames imgs,
        sample_frames (env_decode_video E bytes) 10 = Ok frames
        /\ to_pil_frames frames = Ok imgs
        /\ env_generate E (PText video_prompt :: map PImage (take 10 imgs))
           = Raise e).

(** The steps [analyze_audio] runs on the audio of a file with contents
    [bytes] all succeed, and the inference service answers [text]. *)
Definition audio_steps_ok (E : Env) (bytes : list Z) (text : pystr) : Prop :=
  exists y sr d r c z,
    env_load_audio E bytes = Ok (y, sr)
    /\ int_truediv (Z.of_nat (length y)) sr = Ok d
    /\ env_rms E y = Ok r
    /\ env_centroid E y = Ok c
    /\ env_zcr E y = Ok z
    /\ env_generate E
         [PText (audio_prompt {| duration := d; rms_energy := r;
                                 spectral_centroid := c;
                                 zero_crossing_rate := z |})] = Ok text.

(** Temporary files can always be created, written, closed and removed. *)
Definition temp_files_ok (E : Env) : Prop :=
  (forall t, env_mktemp E t = None)
  /\ (forall t data, exists n, env_tmp_write E t data = Written n)
  /\ (forall t bytes, env_tmp_close E t bytes = Closed)
  /\ (forall t, env_unlink E t = None).

(** The output file can always be opened, written and closed. *)
Definition output_ok (E : Env) : Prop :=
  (forall path, env_open_w E path = None)
  /\ (forall path acc bytes, env_out_write E path acc bytes = None)
  /\ (forall path acc, env_out_close E path acc = Closed).

(** What a reader finds in the fresh temporary file [t] once [data] has
    been written to it, as long as the file is open: the bytes that went
    past the buffer. *)
Definition seen (E : Env) (t : nat) (data : list Z) : list Z :=
  match env_tmp_write E t data with
  | Written n => take n data
  | WriteRaises n _ => take n data
  end.

(** The name [save_results] gives the output file at clock reading [t]. *)
Definition output_file_at (t : datetime) : pystr :=
  path_join output_dir (s2p "analysis_" ++ strftime_compact t ++ s2p ".json").

(** What the output file [path] has taken after a sequence of
    [f.write(chunk)], from the bytes [acc] on, and the exception that
    stopped the sequence, if any: the first chunk that cannot be encoded,
    or the first write that fails. *)
Fixpoint written (E : Env) (path : pystr) (acc : list Z)
    (chunks : list pystr) : list Z * option exn :=
  match chunks with
  | [] => (acc, None)
  | c :: rest =>
      match utf8_encode c with
      | None => (acc, Some (unicode_encode_error c))
      | Some b =>
          match env_out_write E path acc b with
          | Some (n, e) => (acc ++ take n b, Some e)
          | None => written E path (acc ++ b) rest
          end
      end
  end.

(** A character UTF-8 can encode. *)
Definition encodable_char (c : Z) : Prop := utf8_encode_char c <> None.

Definition encodable (s : pystr) : Prop := Forall encodable_char s.

(** A field of the report that UTF-8 can encode. *)
Definition encodable_opt (o : option pystr) : Prop :=
  match o with
  | Some s => encodable s
  | None => True
  end.

(** The world once the next temporary file has been created, and once a
    write of [data] to the fresh temporary file [t] has returned with the
    first [n] bytes on disk. *)
Definition tmp_created (suffix : pystr) (w : World) : World :=
  set_buf (<[w_tmp_next w := []]> (w_buf w))
    (set_fds ({[w_tmp_next w]} ∪ w_fds w)
       (set_tmp (<[w_tmp_next w := (suffix, [])]> (w_tmp w))
          (set_tmp_next (S (w_tmp_next w)) w))).

Definition tmp_written (t : nat) (n : nat) (data : list Z) (w : World)
    : World :=
  set_buf (<[t := drop n data]> (w_buf w)) (to_disk t (take n data) w).

(** The world once a write of [data] to the fresh temporary file [t] has
    raised with the first [n] bytes on disk. *)
Definition tmp_truncated (t : nat) (n : nat) (data : list Z) (w : World)
    : World :=
  set_buf (<[t := []]> (w_buf w)) (to_disk t (take n data) w).

(** The world in which a branch analyzes its freshly written temporary
    file. *)
Definition branch_ready (msg suffix : pystr) (n : nat) (data : list Z)
    (w : World) : World :=
  tmp_written (w_tmp_next w) n data
    (tmp_created suffix (set_log (w_log w ++ [LogInfo msg]) w)).

(** The world once temporary file [t] has been closed, [bytes] flushed, and
    once it has been closed, all bytes pending flushed, and removed. *)
Definition tmp_closed (t : nat) (bytes : list Z) (w : World) : World :=
  set_buf (delete t (w_buf w))
    (set_fds (w_fds w ∖ {[t]}) (to_disk t bytes w)).

Definition tmp_removed (t : nat) (w : World) : World :=
  set_tmp (delete t (w_tmp (tmp_closed t (pending t w) w)))
    (tmp_closed t (pending t w) w).

(** Filling temporary file [t] from the upload raises [e]: reading the
    upload does, or writing what was read. *)
Definition filling_raises (E : Env) (t : nat) (up : Upload) (e : exn) : Prop :=
  up_read up = Raise e
  \/ exists data n,
       up_read up = Ok data /\ env_tmp_write E t data = WriteRaises n e.

(** Materializing the upload in temporary file [t] raises [e]: creating
    the file; filling it, when closing it then does not raise; closing it,
    after filling it raised or after it was written; or removing it. *)
Inductive materializing_raises (E : Env) (t : nat) (up : Upload)
    : exn -> Prop :=
| create_raises e :
    env_mktemp E t = Some e ->
    materializing_raises E t up e
| fill_raises e :
    env_mktemp E t = None ->
    filling_raises E t up e ->
    env_tmp_close E t [] = Closed ->
    materializing_raises E t up e
| close_raises_after_fill e0 k e :
    env_mktemp E t = None ->
    filling_raises E t up e0 ->
    env_tmp_close E t [] = CloseRaises k e ->
    materializing_raises E t up e
| close_raises data n k e :
    env_mktemp E t = None ->
    up_read up = Ok data ->
    env_tmp_write E t data = Written n ->
    env_tmp_close E t (drop n data) = CloseRaises k e ->
    materializing_raises E t up e
| unlink_raises data n e :
    env_mktemp E t = None ->
    up_read up = Ok data ->
    env_tmp_write E t data = Written n ->
    env_tmp_close E t (drop n data) = Closed ->
    env_unlink E t = Some e ->
    materializing_raises E t up e.

(** The exception that saving [chunks] to [path] ends with, if any: that of
    the open, else that of the close, else that of the first chunk that
    cannot be encoded or written. *)
Definition save_failure (E : Env) (path : pystr) (chunks : list pystr)
    : option exn :=
  match env_open_w E path with
  | Some e => Some e
  | None =>
      match env_out_close E path (written E path [] chunks).1 with
      | CloseRaises _ e => Some e
      | Closed => (written E path [] chunks).2
      end
  end.

(** Two worlds hold the same temporary files, buffers, open files and
    capture handles. *)
Definition same_resources (w w' : World) : Prop :=
  w_tmp w' = w_tmp w
  /\ w_fds w' = w_fds w
  /\ w_caps w' = w_caps w
  /\ w_tmp_next w' = w_tmp_next w
  /\ w_cap_next w' = w_cap_next w
  /\ w_buf w' = w_buf w.

(** What the answer [v] of a branch tells about what the branch did between
    [w] and [w']: a text is the service's answer to the one request sent,
    and nothing was logged; [None] comes with one error record, carrying the
    text of the exception caught, which is either the service's or that of
    a step before any request. *)
Definition branch_result (E : Env) (label : pystr) (w w' : World)
    (v : option pystr) : Prop :=
  match v with
  | Some text =>
      w_log w' = w_log w
      /\ exists request,
           w_calls w' = w_calls w ++ [request]
           /\ env_generate E request = Ok text
  | None =>
      exists e,
        w_log w' = w_log w ++ [LogError (label ++ s2p (exn_str e))]
        /\ (w_calls w' = w_calls w
            \/ exists request,
                 w_calls w' = w_calls w ++ [request]
                 /\ env_generate E request = Raise e)
  end.

(** The two kinds of request the analyzer makes. *)
Definition is_video_request (request : list part) : Prop :=
  exists imgs,
    request = PText video_prompt :: map PImage imgs /\ (length imgs <= 10)%nat.

Definition is_audio_request (request : list part) : Prop :=
  exists f, request = [PText (audio_prompt f)].

(** Between [w] and [w'] at most [n] requests were sent, all of kind [P]. *)
Definition sends (P : list part -> Prop) (n : nat) (w w' : World) : Prop :=
  exists new,
    w_calls w' = w_calls w ++ new /\ (length new <= n)%nat /\ Forall P new.

(** [1] for an input that is supplied, [0] for one that is absent. *)
Definition supplied (input : option Upload) : nat :=
  match input with
  | Some _ => 1
  | None => 0
  end.

(** Two clock readings within the same second. *)
Definition same_second (t1 t2 : datetime) : Prop :=
  dt_year t1 = dt_year t2 /\ dt_month t1 = dt_month t2
  /\ dt_day t1 = dt_day t2 /\ dt_hour t1 = dt_hour t2
  /\ dt_minute t1 = dt_minute t2 /\ dt_second t1 = dt_second t2.

(** A report whose strings UTF-8 can encode. *)
Definition report_encodable (r : report) : Prop :=
  encodable (timestamp r)
  /\ encodable_opt (video_analysis r)
  /\ encodable_opt (audio_analysis r).

(** A dictionary whose strings UTF-8 can encode: code points of Unicode,
    no surrogate among them. *)
Definition encodable_dict (d : jdict) : Prop :=
  Forall (fun kv : pystr * jvalue =>
            encodable kv.1 /\ encodable_opt (jvalue_opt kv.2)) d.

(** Printable ASCII, or the newline of the indentation. *)
Definition plain_ascii (c : Z) : Prop := c = 10 \/ 32 <= c <= 126.

(** ** What a run of the script draws *)

(** The session state once a key has its default. *)
Definition with_default (key : string) (s : gmap string svalue)
    : gmap string svalue :=
  match s !! key with
  | Some _ => s
  | None => <[key := SNone]> s
  end.

Definition session_init (s : gmap string svalue) : gmap string svalue :=
  with_default "results_file" (with_default "results" s).

(** The elements every run draws first, up to the button. *)
Definition static_elements (wg : Widgets) : list (place * element) :=
  [ (Page, StPageConfig (s2p "Content Analysis System") [128202] (s2p "wide"));
    (Page, StTitle (s2p "Content Analysis System"));
    (Page,
     StWrite
       (s2p "Upload video or audio files to analyze for concerning content"));
    (Sidebar, StHeader (s2p "Configuration"));
    (Sidebar, StTextInput (s2p "Enter Gemini API Key"));
    (Sidebar, StMarkdown (s2p "---"));
    (Sidebar, StMarkdown features_text);
    (Column1, StSubheader (s2p "Upload Files"));
    (Column1, StFileUploader (s2p "Upload Video")
                [s2p "mp4"; s2p "avi"; s2p "mov"]);
    (Column1, StFileUploader (s2p "Upload Audio") [s2p "wav"; s2p "mp3"]);
    (Column1, StButton (s2p "Analyze Content")
                (button_disabled (wg_api_key wg) (wg_video wg) (wg_audio wg))) ].

Definition results_heading : place * element :=
  (Column2, StSubheader (s2p "Analysis Results")).

(** What the results column shows of one analysis. *)
Definition analysis_elements (heading : pystr) (analysis : option pystr)
    : list (place * element) :=
  match analysis with
  | Some text =>
      if str_truthy text
      then [ (Column2, StMarkdown heading);
             (Column2, StMarkdown (s2p "---"));
             (Column2, StWrite text) ]
      else []
  | None => []
  end.

(** What the results column shows of a report, the clock reading [t]. *)
Definition report_elements (r : report) (t : datetime)
    : list (place * element) :=
  [ (Column2,
     StText ([128338] ++ s2p " Analysis completed at: " ++ timestamp r)) ]
  ++ analysis_elements (s2p "### " ++ [127909] ++ s2p " Video Analysis")
       (video_analysis r)
  ++ analysis_elements (s2p "### " ++ [128266] ++ s2p " Audio Analysis")
       (audio_analysis r)
  ++ [ (Column2,
        StDownloadButton (s2p "Download Results (JSON)")
          (json_dumps_ascii (report_dict r))
          (s2p "analysis_" ++ strftime_compact t ++ s2p ".json")
          (s2p "application/json")) ].

(** The report the session holds, if it holds one. *)
Definition session_report (s : gmap string svalue) : option report :=
  match s !! "results" with
  | Some (SDict (Results r)) => Some r
  | _ => None
  end.

(** The session holds no report that UTF-8 cannot encode. *)
Definition session_encodable (s : gmap string svalue) : Prop :=
  forall r, session_report s = Some r -> report_encodable r.

Definition is_warning (e : place * element) : Prop :=
  exists body, e.2 = StWarning body.

Definition is_download (e : place * element) (data : pystr) : Prop :=
  exists label file_name mime,
    e.2 = StDownloadButton label data file_name mime.

(** What the first column shows of an outcome. *)
Definition outcome_element (d : outcome) : place * element :=
  match d with
  | Results _ => (Column1, StSuccess (s2p "Analysis complete!"))
  | ErrorResult msg => (Column1, StError (s2p "Analysis failed: " ++ msg))
  end.


(** ** Scenarios *)

Definition frame_of (i : Z) : frame := [[Pixel i i i]].

(** A clip of 100 frames that all decode. *)
Definition clip100 : VideoSource :=
  {| vs_count := 100; vs_read := fun i => Decoded (frame_of i) |}.

(** A clip of 100 frames on which reading frame 20 raises. *)
Definition clip_read_raises : VideoSource :=
  {| vs_count := 100;
     vs_read := fun i =>
       if i =? 20 then ReadRaises (Exn "cv2.error" "read failed")
       else Decoded (frame_of i) |}.

Definition fzero : pyfloat := FFinite false 0 0.

(** Three seconds of silence at 22050 Hz. *)
Definition silence3s : list pyfloat := repeat fzero (Z.to_nat 66150).

(** 3.0, as [66150 / 22050] gives it. *)
Definition three_seconds : pyfloat := FFinite false 6755399441055744 (-51).

(** The features of three seconds of silence. *)
Definition silent_features : features :=
  {| duration := three_seconds; rms_energy := fzero;
     spectral_centroid := fzero; zero_crossing_rate := fzero |}.

Definition a_moment : datetime :=
  {| dt_year := 2024; dt_month := 5; dt_day := 7;
     dt_hour := 9; dt_minute := 3; dt_second := 1; dt_micro := 120 |}.

(** The verdict the scenarios' inference service gives: Bengali for "safe"
    (U+09A8 U+09BF U+09B0 U+09BE U+09AA U+09A6). *)
Definition nirapad : pystr := [2472; 2495; 2480; 2494; 2474; 2470].

(** A report with a Bengali verdict. *)
Definition bengali_report : report :=
  {| timestamp := s2p "2024-05-07T09:03:01.000120";
     video_analysis := Some nirapad;
     audio_analysis := None |}.

(** Every collaborator succeeds. *)
Definition calm_env : Env :=
  {| env_now := fun _ => a_moment;
     env_mktemp := fun _ => None;
     env_tmp_write := fun _ data => Written (length data);
     env_tmp_close := fun _ _ => Closed;
     env_unlink := fun _ => None;
     env_decode_video := fun _ => clip100;
     env_generate := fun _ => Ok nirapad;
     env_load_audio := fun _ => Ok (silence3s, 22050);
     env_rms := fun _ => Ok fzero;
     env_centroid := fun _ => Ok fzero;
     env_zcr := fun _ => Ok fzero;
     env_open_w := fun _ => None;
     env_out_write := fun _ _ _ => None;
     env_out_close := fun _ _ => Closed |}.

(** The disk is full: writing a temporary file raises. *)
Definition disk_full_env : Env :=
  {| env_now := env_now calm_env;
     env_mktemp := env_mktemp calm_env;
     env_tmp_write := fun _ _ =>
       WriteRaises 0 (Exn "OSError" "[Errno 28] No space left on device");
     env_tmp_close := env_tmp_close calm_env;
     env_unlink := env_unlink calm_env;
     env_decode_video := env_decode_video calm_env;
     env_generate := env_generate calm_env;
     env_load_audio := env_load_audio calm_env;
     env_rms := env_rms calm_env;
     env_centroid := env_centroid calm_env;
     env_zcr := env_zcr calm_env;
     env_open_w := env_open_w calm_env;
     env_out_write := env_out_write calm_env;
     env_out_close := env_out_close calm_env |}.

(** Only the first temporary file, the video's, cannot be written. *)
Definition video_write_fails_env : Env :=
  {| env_now := env_now calm_env;
     env_mktemp := env_mktemp calm_env;
     env_tmp_write := fun t data =>
       match t with
       | O => WriteRaises 0 (Exn "OSError" "[Errno 28] No space left on device")
       | S _ => Written (length data)
       end;
     env_tmp_close := env_tmp_close calm_env;
     env_unlink := env_unlink calm_env;
     env_decode_video := env_decode_video calm_env;
     env_generate := env_generate calm_env;
     env_load_audio := env_load_audio calm_env;
     env_rms := env_rms calm_env;
     env_centroid := env_centroid calm_env;
     env_zcr := env_zcr calm_env;
     env_open_w := env_open_w calm_env;
     env_out_write := env_out_write calm_env;
     env_out_close := env_out_close calm_env |}.

(** The output directory cannot be written. *)
Definition readonly_env : Env :=
  {| env_now := env_now calm_env;
     env_mktemp := env_mktemp calm_env;
     env_tmp_write := env_tmp_write calm_env;
     env_tmp_close := env_tmp_close calm_env;
     env_unlink := env_unlink calm_env;
     env_decode_video := env_decode_video calm_env;
     env_generate := env_generate calm_env;
     env_load_audio := env_load_audio calm_env;
     env_rms := env_rms calm_env;
     env_centroid := env_centroid calm_env;
     env_zcr := env_zcr calm_env;
     env_open_w := fun _ =>
       Some (Exn "PermissionError" "[Errno 13] Permission denied");
     env_out_write := env_out_write calm_env;
     env_out_close := env_out_close calm_env |}.

(** The video decodes to a clip whose frame 20 cannot be read without an
    exception. *)
Definition read_raises_env : Env :=
  {| env_now := env_now calm_env;
     env_mktemp := env_mktemp calm_env;
     env_tmp_write := env_tmp_write calm_env;
     env_tmp_close := env_tmp_close calm_env;
     env_unlink := env_unlink calm_env;
     env_decode_video := fun _ => clip_read_raises;
     env_generate := env_generate calm_env;
     env_load_audio := env_load_audio calm_env;
     env_rms := env_rms calm_env;
     env_centroid := env_centroid calm_env;
     env_zcr := env_zcr calm_env;
     env_open_w := env_open_w calm_env;
     env_out_write := env_out_write calm_env;
     env_out_close := env_out_close calm_env |}.

(** An upload smaller than the buffer: [write] keeps all of it in the
    buffer, and OpenCV, given a file that is still empty, opens nothing. *)
Definition buffered_env : Env :=
  {| env_now := env_now calm_env;
     env_mktemp := env_mktemp calm_env;
     env_tmp_write := fun _ _ => Written 0;
     env_tmp_close := env_tmp_close calm_env;
     env_unlink := env_unlink calm_env;
     env_decode_video := fun bytes =>
       match bytes with
       | [] => unopened_source
       | _ => clip100
       end;
     env_generate := env_generate calm_env;
     env_load_audio := env_load_audio calm_env;
     env_rms := env_rms calm_env;
     env_centroid := env_centroid calm_env;
     env_zcr := env_zcr calm_env;
     env_open_w := env_open_w calm_env;
     env_out_write := env_out_write calm_env;
     env_out_close := env_out_close calm_env |}.

(** The upload stays in the buffer and closing the file raises: the disk
    is full. *)
Definition close_fails_env : Env :=
  {| env_now := env_now calm_env;
     env_mktemp := env_mktemp calm_env;
     env_tmp_write := fun _ _ => Written 0;
     env_tmp_close := fun _ _ =>
       CloseRaises 0 (Exn "OSError" "[Errno 28] No space left on device");
     env_unlink := env_unlink calm_env;
     env_decode_video := env_decode_video calm_env;
     env_generate := env_generate calm_env;
     env_load_audio := env_load_audio calm_env;
     env_rms := env_rms calm_env;
     env_centroid := env_centroid calm_env;
     env_zcr := env_zcr calm_env;
     env_open_w := env_open_w calm_env;
     env_out_write := env_out_write calm_env;
     env_out_close := env_out_close calm_env |}.

(** The output file opens, and closing it raises: the disk is full. *)
Definition save_close_fails_env : Env :=
  {| env_now := env_now calm_env;
     env_mktemp := env_mktemp calm_env;
     env_tmp_write := env_tmp_write calm_env;
     env_tmp_close := env_tmp_close calm_env;
     env_unlink := env_unlink calm_env;
     env_decode_video := env_decode_video calm_env;
     env_generate := env_generate calm_env;
     env_load_audio := env_load_audio calm_env;
     env_rms := env_rms calm_env;
     env_centroid := env_centroid calm_env;
     env_zcr := env_zcr calm_env;
     env_open_w := env_open_w calm_env;
     env_out_write := env_out_write calm_env;
     env_out_close := fun _ _ =>
       CloseRaises 0 (Exn "OSError" "[Errno 28] No space left on device") |}.

(** The bytes are not a video: the capture does not open. *)
Definition corrupt_video_env : Env :=
  {| env_now := env_now calm_env;
     env_mktemp := env_mktemp calm_env;
     env_tmp_write := env_tmp_write calm_env;
     env_tmp_close := env_tmp_close calm_env;
     env_unlink := env_unlink calm_env;
     env_decode_video := fun _ => unopened_source;
     env_generate := env_generate calm_env;
     env_load_audio := env_load_audio calm_env;
     env_rms := env_rms calm_env;
     env_centroid := env_centroid calm_env;
     env_zcr := env_zcr calm_env;
     env_open_w := env_open_w calm_env;
     env_out_write := env_out_write calm_env;
     env_out_close := env_out_close calm_env |}.

(** The inference service refuses any request that carries an image. *)
Definition no_images_env : Env :=
  {| env_now := env_now calm_env;
     env_mktemp := env_mktemp calm_env;
     env_tmp_write := env_tmp_write calm_env;
     env_tmp_close := env_tmp_close calm_env;
     env_unlink := env_unlink calm_env;
     env_decode_video := env_decode_video calm_env;
     env_generate := fun parts =>
       match parts with
       | [PText _] => Ok nirapad
       | _ => Raise (Exn "InternalServerError" "500 internal error")
       end;
     env_load_audio := env_load_audio calm_env;
     env_rms := env_rms calm_env;
     env_centroid := env_centroid calm_env;
     env_zcr := env_zcr calm_env;
     env_open_w := env_open_w calm_env;
     env_out_write := env_out_write calm_env;
     env_out_close := env_out_close calm_env |}.

Definition upload (data : list Z) : Upload := {| up_read := Ok data |}.

Definition some_video : Upload := upload [0; 0; 0; 24; 102; 116; 121; 112].
Definition some_audio : Upload := upload [82; 73; 70; 70].

(** A world in which temporary file 0 holds a video. *)
Definition world_with_clip : World :=
  set_tmp_next 1 (set_tmp {[ 0%nat := (s2p ".mp4", [0; 0; 0; 24]) ]} initial_world).

(** A world in which temporary file 0 holds an audio clip. *)
Definition world_with_audio : World :=
  set_tmp_next 1 (set_tmp {[ 0%nat := (s2p ".wav", [82; 73; 70; 70]) ]} initial_world).

(** A platform on which the constructor succeeds, and one on which the
    output directory cannot be created. *)
Definition ready_platform : Platform :=
  {| pf_genai := fun _ => None; pf_makedirs := fun _ => None |}.

Definition readonly_platform : Platform :=
  {| pf_genai := fun _ => None;
     pf_makedirs := fun _ =>
       Some (Exn "PermissionError" "[Errno 13] Permission denied") |}.

(** The first run of a session. *)
Definition initial_app : App := mkApp initial_world ∅ [].

(** A key typed, both files uploaded, the button pressed. *)
Definition pressed_widgets : Widgets :=
  {| wg_api_key := s2p "key"; wg_video := Some some_video;
     wg_audio := Some some_audio; wg_pressed := true |}.

(** Nothing typed, nothing uploaded, nothing pressed. *)
Definition idle_widgets : Widgets :=
  {| wg_api_key := []; wg_video := None; wg_audio := None;
     wg_pressed := false |}.

(** Only the second temporary file, the audio's, cannot be written. *)
Definition audio_write_fails_env : Env :=
  {| env_now := env_now calm_env;
     env_mktemp := env_mktemp calm_env;
     env_tmp_write := fun t data =>
       match t with
       | O => Written (length data)
       | S _ => WriteRaises 0 (Exn "OSError" "[Errno 28] No space left on device")
       end;
     env_tmp_close := env_tmp_close calm_env;
     env_unlink := env_unlink calm_env;
     env_decode_video := env_decode_video calm_env;
     env_generate := env_generate calm_env;
     env_load_audio := env_load_audio calm_env;
     env_rms := env_rms calm_env;
     env_centroid := env_centroid calm_env;
     env_zcr := env_zcr calm_env;
     env_open_w := env_open_w calm_env;
     env_out_write := env_out_write calm_env;
     env_out_close := env_out_close calm_env |}.

(** ** The acoustic features, as the specification describes them *)


(** Modelled from the spec: the sliding analysis window of librosa, not in
    the sources.  Window [k] starts at sample [k * hop] and takes
    [frame_length] samples, fewer at the end of the waveform; the sizes are
    the implementation's choice. *)
Definition frames (frame_length hop : nat) (y : list R) : list (list R) :=
  let count :=
    match y with
    | [] => 0%nat
    | _ => S ((length y - 1) / hop)
    end in
  map (fun k => take frame_length (drop (k * hop) y)) (seq 0 count).









(** * Properties *)

(** ** The frame sampler *)

Lemma py_range_spec start stop step i :
  0 < step ->
  In i (py_range start stop step) ->
  exists k : nat, i = start + Z.of_nat k * step /\ start <= i < stop.
Proof.
  intros Hstep Hin. unfold py_range in Hin.
  apply in_map_iff in Hin as (k & <- & Hk).
  apply in_seq in Hk. exists k. split; [reflexivity|].
  assert (Hlt : Z.of_nat k < (stop - start + step - 1) / step) by lia.
  assert (Hk' : Z.of_nat k + 1 <= (stop - start + step - 1) / step) by lia.
  assert (Hm : (Z.of_nat k + 1) * step <= stop - start + step - 1).
  { etransitivity; [apply Z.mul_le_mono_nonneg_r; [lia|exact Hk']|].
    rewrite Z.mul_comm. apply Z.mul_div_le. lia. }
  nia.
Qed.

Lemma py_range_sorted start stop step :
  0 < step -> StronglySorted Z.lt (py_range start stop step).
Proof.
  intros Hstep. unfold py_range.
  generalize (Z.to_nat ((stop - start + step - 1) / step)) as n.
  generalize 0%nat as a. intros a n. revert a.
  induction n as [|n IH]; intros a; simpl; constructor.
  - apply IH.
  - apply List.Forall_forall. intros x Hx.
    apply in_map_iff in Hx as (k & <- & Hk). apply in_seq in Hk. nia.
Qed.

Lemma sorted_filter (p : Z -> bool) l :
  StronglySorted Z.lt l -> StronglySorted Z.lt (List.filter p l).
Proof.
  induction 1 as [|x l Hs IH Hall]; simpl; [constructor|].
  destruct (p x); [|exact IH].
  constructor; [exact IH|].
  rewrite List.Forall_forall in Hall |- *. intros y Hy.
  apply Hall. apply filter_In in Hy. tauto.
Qed.

Lemma sorted_take n (l : list Z) :
  StronglySorted Z.lt l -> StronglySorted Z.lt (take n l).
Proof.
  intros Hs. revert n. induction Hs as [|x l Hs IH Hall]; intros [|n]; simpl;
    try constructor.
  - apply IH.
  - rewrite Forall_forall in Hall |- *. intros y Hy. apply Hall.
    eapply subseteq_take; eassumption.
Qed.

(** The loop, once it has fewer than [max_frames] frames, appends the
    frames of the first decodable indices it still needs. *)
Lemma sample_loop_kept read max_frames idxs frames :
  1 <= max_frames ->
  (forall i e, read i <> ReadRaises e) ->
  Z.of_nat (length frames) < max_frames ->
  exists fs,
    sample_loop read max_frames idxs frames = Ok (frames ++ fs) /\
    Forall2 (fun i f => read i = Decoded f)
      (take (Z.to_nat max_frames - length frames)
         (List.filter (fun i => is_decoded (read i)) idxs)) fs.
Proof.
  intros Hc Hnr. revert frames.
  induction idxs as [|i rest IH]; intros frames Hlen; simpl.
  - exists []. rewrite app_nil_r, take_nil. split; [reflexivity|constructor].
  - destruct (read i) as [f| |e] eqn:Hr; simpl.
    + rewrite length_app. simpl.
      destruct (Z.of_nat (length frames + 1) >=? max_frames) eqn:Hge;
        rewrite Z.geb_leb in Hge;
        [apply Z.leb_le in Hge | apply Z.leb_gt in Hge].
      * exists [f]. split; [reflexivity|].
        replace (Z.to_nat max_frames - length frames)%nat with 1%nat by lia.
        simpl. rewrite take_0. constructor; [exact Hr|constructor].
      * destruct (IH (frames ++ [f])) as (fs & Hrun & Hfs).
        { rewrite length_app. simpl. lia. }
        exists (f :: fs). split.
        { rewrite Hrun. rewrite <- app_assoc. reflexivity. }
        rewrite length_app in Hfs. simpl in Hfs.
        replace (Z.to_nat max_frames - length frames)%nat
          with (S (Z.to_nat max_frames - (length frames + 1)))%nat by lia.
        simpl. constructor; [exact Hr|exact Hfs].
    + destruct (Z.of_nat (length frames) >=? max_frames) eqn:Hge;
        rewrite Z.geb_leb in Hge; [apply Z.leb_le in Hge; lia|].
      apply IH. exact Hlen.
    + exfalso. exact (Hnr i e Hr).
Qed.

Lemma sample_frames_kept vs max_frames :
  1 <= max_frames ->
  never_raises vs ->
  exists frames,
    sample_frames vs max_frames = Ok frames /\
    Forall2 (fun i f => vs_read vs i = Decoded f)
      (kept_indices vs max_frames) frames.
Proof.
  intros Hc Hnr. unfold sample_frames, py_floordiv.
  destruct (max_frames =? 0) eqn:H0; [lia|]. simpl.
  destruct (sample_loop_kept (vs_read vs) max_frames
              (py_range 0 (vs_count vs)
                 (Z.max 1 (vs_count vs / max_frames))) [] Hc Hnr)
    as (fs & Hrun & Hfs); [simpl; lia|].
  exists fs. split; [exact Hrun|].
  simpl in Hfs. rewrite Nat.sub_0_r in Hfs. exact Hfs.
Qed.

Lemma extract_frames_run E path max_frames w :
  extract_frames E path max_frames w =
  match sample_frames (source_at E w path) max_frames with
  | Ok frames => (Ok frames, capture_released w)
  | Raise e => (Raise e, capture_opened w)
  end.
Proof.
  unfold extract_frames, bind, video_capture, lift, cap_release, modify, ret.
  simpl. fold (capture_opened w).
  destruct (sample_frames (source_at E w path) max_frames); reflexivity.
Qed.

Lemma filter_all_true {A} (p : A -> bool) l :
  (forall x, p x = true) -> List.filter p l = l.
Proof.
  intros Hp. induction l as [|x l IH]; simpl; [reflexivity|].
  rewrite Hp, IH. reflexivity.
Qed.

Lemma kept_indices_multiples vs max_frames :
  Forall (fun i => exists k : nat,
            i = Z.of_nat k * sampling_interval (vs_count vs) max_frames
            /\ 0 <= i < vs_count vs)
         (kept_indices vs max_frames).
Proof.
  apply List.Forall_forall. intros i Hi. unfold kept_indices in Hi.
  apply list_elem_of_In in Hi. apply subseteq_take in Hi.
  apply list_elem_of_In in Hi. apply filter_In in Hi as [Hi _].
  apply py_range_spec in Hi; [|unfold sampling_interval; lia].
  destruct Hi as (k & -> & Hk). exists k. split; [lia|lia].
Qed.

Lemma kept_indices_sorted vs max_frames :
  StronglySorted Z.lt (kept_indices vs max_frames).
Proof.
  apply sorted_take, sorted_filter, py_range_sorted.
  unfold sampling_interval. lia.
Qed.

(** C1. For a video whose capture reports [T] frames and whose reads never
    raise, and a cap [C >= 1], [extract_frames] returns the frames decoded
    at the first [C] decodable indices among [0, interval, 2*interval, ...]
    below [T], where [interval = max(1, T // C)]: at most [C] frames, each
    index a multiple of the interval, strictly increasing, in the order
    visited, an index that fails to decode being skipped.  With [T = 100],
    [C = 10] and every frame decodable the indices are
    [0, 10, 20, ..., 90]. *)
Theorem extract_frames_sampling (E : Env) (w : World) (path : nat) (C : Z) :
  1 <= C ->
  never_raises (source_at E w path) ->
  exists frames idxs w',
    extract_frames E path C w = (Ok frames, w') /\
    Forall2 (fun i f => vs_read (source_at E w path) i = Decoded f)
            idxs frames /\
    (length frames <= Z.to_nat C)%nat /\
    idxs = take (Z.to_nat C)
             (List.filter
                (fun i => is_decoded (vs_read (source_at E w path) i))
                (py_range 0 (vs_count (source_at E w path))
                   (Z.max 1 (vs_count (source_at E w path) / C)))) /\
    Forall (fun i => exists k : nat,
              i = Z.of_nat k * Z.max 1 (vs_count (source_at E w path) / C)
              /\ 0 <= i < vs_count (source_at E w path)) idxs /\
    StronglySorted Z.lt idxs /\
    (vs_count (source_at E w path) = 100 -> C = 10 ->
     (forall i, is_decoded (vs_read (source_at E w path) i) = true) ->
     idxs = [0; 10; 20; 30; 40; 50; 60; 70; 80; 90]).
Proof.
  intros Hc Hnr.
  destruct (sample_frames_kept (source_at E w path) C Hc Hnr)
    as (frames & Hrun & Hkept).
  exists frames, (kept_indices (source_at E w path) C), (capture_released w).
  split; [rewrite extract_frames_run, Hrun; reflexivity|].
  split; [exact Hkept|].
  split.
  { apply Forall2_length in Hkept. rewrite <- Hkept.
    unfold kept_indices. rewrite length_take. lia. }
  split; [reflexivity|].
  split; [apply kept_indices_multiples|].
  split; [apply kept_indices_sorted|].
  intros HT HC Hall. unfold kept_indices, sampling_interval.
  rewrite (filter_all_true _ _ Hall), HT, HC. reflexivity.
Qed.

(** On the clip of 100 frames that all decode, with the default cap. *)
Lemma extract_frames_sampling_witness :
  exists frames w',
    extract_frames calm_env 0 10 world_with_clip = (Ok frames, w')
    /\ length frames = 10%nat.
Proof.
  destruct (extract_frames_sampling calm_env world_with_clip 0%nat 10)
    as (frames & idxs & w' & Hrun & Hfr & _ & _ & _ & _ & Hidx).
  - lia.
  - intros i e. vm_compute. discriminate.
  - exists frames, w'. split; [exact Hrun|].
    apply Forall2_length in Hfr. rewrite <- Hfr.
    rewrite Hidx; [reflexivity| reflexivity | reflexivity | intros i; reflexivity].
Defined.

(** ** The branches and the orchestrator *)

(** Unfolds the monad's combinators. *)
Ltac run_m :=
  unfold bind, ret, raise, lift, modify, try_except, log_info, log_error in *.

Lemma try_except_total {A} (m : M A) (handler : exn -> M A) w :
  (forall e w1, exists a w2, handler e w1 = (Ok a, w2)) ->
  exists a w', try_except m handler w = (Ok a, w').
Proof.
  intros Hh. unfold try_except.
  destruct (m w) as [[a|e] w1]; [eauto|apply Hh].
Qed.

(** [analyze_video] once the frames are known. *)
Lemma analyze_video_run E path w :
  analyze_video E path w =
  match sample_frames (source_at E w path) 10 with
  | Raise e =>
      (Ok None,
       set_log (w_log w ++ [LogError (s2p "Error in video analysis: "
                                      ++ s2p (exn_str e))])
               (capture_opened w))
  | Ok frames =>
      match to_pil_frames frames with
      | Raise e =>
          (Ok None,
           set_log (w_log w ++ [LogError (s2p "Error in video analysis: "
                                          ++ s2p (exn_str e))])
                   (capture_released w))
      | Ok imgs =>
          let request := PText video_prompt :: map PImage (take 10 imgs) in
          let w1 := set_calls (w_calls w ++ [request]) (capture_released w) in
          match env_generate E request with
          | Ok text => (Ok (Some text), w1)
          | Raise e =>
              (Ok None,
               set_log (w_log w ++ [LogError (s2p "Error in video analysis: "
                                              ++ s2p (exn_str e))]) w1)
          end
      end
  end.
Proof.
  unfold analyze_video, try_except, bind at 1.
  rewrite extract_frames_run.
  destruct (sample_frames (source_at E w path) 10) as [frames|e].
  - unfold bind at 1, lift.
    destruct (to_pil_frames frames) as [imgs|e].
    + unfold bind, send_message, ret. simpl.
      destruct (env_generate E _); reflexivity.
    + reflexivity.
  - reflexivity.
Qed.

Lemma sample_loop_no_frames read max_frames idxs :
  1 <= max_frames ->
  (forall i, read i = NoFrame) ->
  sample_loop read max_frames idxs [] = Ok [].
Proof.
  intros Hc Hr. induction idxs as [|i rest IH]; simpl; [reflexivity|].
  rewrite Hr. simpl length. change (Z.of_nat 0) with 0.
  destruct (0 >=? max_frames) eqn:Hge; [|exact IH].
  rewrite Z.geb_leb in Hge. apply Z.leb_le in Hge. lia.
Qed.

Lemma py_range_empty start stop step :
  0 < step -> stop <= start -> py_range start stop step = [].
Proof.
  intros Hs Hle. unfold py_range.
  replace (Z.to_nat ((stop - start + step - 1) / step)) with 0%nat;
    [reflexivity|].
  assert ((stop - start + step - 1) / step <= 0); [|lia].
  apply Z.lt_succ_r. apply Z.div_lt_upper_bound; lia.
Qed.

Lemma sample_frames_nothing vs :
  vs_count vs <= 0 \/ (forall i, vs_read vs i = NoFrame) ->
  sample_frames vs 10 = Ok [].
Proof.
  intros [Hc|Hr]; unfold sample_frames, py_floordiv; simpl.
  - rewrite py_range_empty; [reflexivity|lia|lia].
  - apply sample_loop_no_frames; [lia|exact Hr].
Qed.

(** C3. [analyze_content] never raises: it always returns a value, and when
    saving the results raises, after both branches have run, that value is
    the error dictionary carrying the exception's text, not the results. *)
Theorem analyze_content_never_raises (E : Env)
    (video_file audio_file : option Upload) (w : World) :
  (exists out w', analyze_content E video_file audio_file w = (Ok out, w'))
  /\ (forall r w1 e w2,
        run_branches E video_file audio_file w = (Ok r, w1) ->
        save_results E r w1 = (Raise e, w2) ->
        exists w',
          analyze_content E video_file audio_file w
          = (Ok (ErrorResult (s2p (exn_str e))), w')).
Proof.
  split.
  - apply try_except_total. intros e w1. run_m. eauto.
  - intros r w1 e w2 Hbr Hsave.
    unfold analyze_content, try_except, bind at 1. rewrite Hbr.
    unfold bind at 1. rewrite Hsave. run_m. eauto.
Qed.

(** With an output directory that cannot be written. *)
Lemma analyze_content_never_raises_witness :
  exists w',
    analyze_content readonly_env (Some some_video) (Some some_audio)
      initial_world
    = (Ok (ErrorResult (s2p "[Errno 13] Permission denied")), w').
Proof.
  eapply (proj2 (analyze_content_never_raises readonly_env (Some some_video)
                   (Some some_audio) initial_world))
    with (e := Exn "PermissionError" "[Errno 13] Permission denied").
  - vm_compute. reflexivity.
  - vm_compute. reflexivity.
Defined.

(** C2, as stated, fails: when writing the video's temporary file raises,
    the exception is not caught at the video branch; the invocation ends
    with the error dictionary, the audio branch never runs and no request
    reaches the inference service. *)
Lemma video_write_failure_aborts :
  (analyze_content video_write_fails_env (Some some_video) (Some some_audio)
     initial_world).1
  = Ok (ErrorResult (s2p "[Errno 28] No space left on device"))
  /\ w_calls (analyze_content video_write_fails_env (Some some_video)
                (Some some_audio) initial_world).2 = []
  /\ ~ (exists r,
          (analyze_content video_write_fails_env (Some some_video)
             (Some some_audio) initial_world).1 = Ok (Results r)
          /\ video_analysis r = None
          /\ audio_analysis r <> None).
Proof.
  split; [vm_compute; reflexivity|].
  split; [vm_compute; reflexivity|].
  intros (r & Hr & _). vm_compute in Hr. discriminate.
Qed.

(** C5, as stated, fails: with both inputs absent and an output directory
    that cannot be written, the orchestrator returns the error dictionary,
    not a report. *)
Lemma both_absent_unwritable :
  (analyze_content readonly_env None None initial_world).1
  = Ok (ErrorResult (s2p "[Errno 13] Permission denied"))
  /\ ~ (exists r,
          (analyze_content readonly_env None None initial_world).1
          = Ok (Results r)).
Proof.
  split; [vm_compute; reflexivity|].
  intros (r & Hr). vm_compute in Hr. discriminate.
Qed.

(** C9. The code at two failing inputs.  When writing the video's temporary
    file raises, the invocation ends with that file still on disk; when a
    read raises while frames are sampled, the invocation ends with the
    capture handle never released. *)
Theorem resources_survive_exceptions :
  (exists msg w',
     analyze_content disk_full_env (Some some_video) None initial_world
     = (Ok (ErrorResult msg), w')
     /\ w_tmp w' !! 0%nat = Some (s2p ".mp4", []))
  /\ (exists r w',
        analyze_content read_raises_env (Some some_video) None initial_world
        = (Ok (Results r), w')
        /\ video_analysis r = None
        /\ elements (w_caps w') = [0%nat]).
Proof.
  split.
  - eexists _, _. split; [vm_compute; reflexivity|]. vm_compute. reflexivity.
  - eexists _, _. split; [vm_compute; reflexivity|].
    split; vm_compute; reflexivity.
Qed.

(** ** UTF-8 *)

(** Decides the comparisons left in the goal, by arithmetic. *)
Ltac decide_tests :=
  repeat match goal with
         | |- context [?a <=? ?b] =>
             destruct (Z.leb_spec a b); try lia
         | |- context [?a <? ?b] =>
             destruct (Z.ltb_spec a b); try lia
         | |- context [?a =? ?b] =>
             destruct (Z.eqb_spec a b); try lia
         end.

Lemma utf8_decode_char c bytes rest :
  utf8_encode_char c = Some bytes ->
  utf8_decode (bytes ++ rest) = ocons c (utf8_decode rest).
Proof.
  unfold utf8_encode_char.
  destruct ((0 <=? c) && (c <? 128)) eqn:H1.
  { intros [= <-]. simpl. rewrite H1. reflexivity. }
  destruct ((128 <=? c) && (c <? 2048)) eqn:H2.
  { intros [= <-]. apply andb_prop in H2 as [Ha Hb].
    apply Z.leb_le in Ha. apply Z.ltb_lt in Hb.
    pose proof (Z.div_mod c 64 ltac:(lia)) as Hdm.
    pose proof (Z.mod_pos_bound c 64 ltac:(lia)) as Hm.
    cbn [app utf8_decode]. unfold is_cont.
    set (r0 := c mod 64) in *. set (q1 := c / 64) in *. clearbody r0 q1.
    decide_tests. cbn [andb]. f_equal. lia. }
  destruct ((2048 <=? c) && (c <? 65536)) eqn:H3.
  { destruct ((55296 <=? c) && (c <? 57344)) eqn:Hs; [discriminate|].
    intros [= <-]. apply andb_prop in H3 as [Ha Hb].
    apply Z.leb_le in Ha. apply Z.ltb_lt in Hb.
    assert (Hq2 : c / 4096 = (c / 64) / 64).
    { rewrite Z.div_div by lia. reflexivity. }
    pose proof (Z.div_mod c 64 ltac:(lia)) as Hdm.
    pose proof (Z.mod_pos_bound c 64 ltac:(lia)) as Hm.
    pose proof (Z.div_mod (c / 64) 64 ltac:(lia)) as Hdm'.
    pose proof (Z.mod_pos_bound (c / 64) 64 ltac:(lia)) as Hm'.
    rewrite Hq2. clear Hq2.
    cbn [app utf8_decode]. unfold is_cont.
    set (r0 := c mod 64) in *. set (q1 := c / 64) in *.
    set (r1 := q1 mod 64) in *. set (q2 := q1 / 64) in *.
    clearbody r1 q2. clearbody r0 q1.
    replace ((224 + q2 - 224) * 4096 + (128 + r1 - 128) * 64
             + (128 + r0 - 128)) with c by lia.
    rewrite Hs.
    decide_tests. reflexivity. }
  destruct ((65536 <=? c) && (c <? 1114112)) eqn:H4; [|discriminate].
  intros [= <-]. apply andb_prop in H4 as [Ha Hb].
  apply Z.leb_le in Ha. apply Z.ltb_lt in Hb.
  assert (Hq2 : c / 4096 = (c / 64) / 64).
  { rewrite Z.div_div by lia. reflexivity. }
  assert (Hq3 : c / 262144 = (c / 64) / 64 / 64).
  { rewrite !Z.div_div by lia. reflexivity. }
  pose proof (Z.div_mod c 64 ltac:(lia)) as Hdm.
  pose proof (Z.mod_pos_bound c 64 ltac:(lia)) as Hm.
  pose proof (Z.div_mod (c / 64) 64 ltac:(lia)) as Hdm'.
  pose proof (Z.mod_pos_bound (c / 64) 64 ltac:(lia)) as Hm'.
  pose proof (Z.div_mod (c / 64 / 64) 64 ltac:(lia)) as Hdm''.
  pose proof (Z.mod_pos_bound (c / 64 / 64) 64 ltac:(lia)) as Hm''.
  rewrite Hq2, Hq3. clear Hq2 Hq3.
  cbn [app utf8_decode]. unfold is_cont.
  set (r0 := c mod 64) in *. set (q1 := c / 64) in *.
  set (r1 := q1 mod 64) in *. set (q2 := q1 / 64) in *.
  set (r2 := q2 mod 64) in *. set (q3 := q2 / 64) in *.
  clearbody r2 q3. clearbody r1 q2. clearbody r0 q1.
  replace ((240 + q3 - 240) * 262144 + (128 + r2 - 128) * 4096
           + (128 + r1 - 128) * 64 + (128 + r0 - 128)) with c by lia.
  decide_tests. reflexivity.
Qed.

Lemma utf8_encode_app a b :
  utf8_encode (a ++ b) =
  match utf8_encode a, utf8_encode b with
  | Some x, Some y => Some (x ++ y)
  | _, _ => None
  end.
Proof.
  induction a as [|c a IH]; simpl.
  - destruct (utf8_encode b); reflexivity.
  - rewrite IH. destruct (utf8_encode_char c); [|reflexivity].
    destruct (utf8_encode a); [|reflexivity].
    destruct (utf8_encode b); [|reflexivity].
    rewrite app_assoc. reflexivity.
Qed.

Lemma utf8_decode_encode s bytes :
  utf8_encode s = Some bytes -> utf8_decode bytes = Some s.
Proof.
  revert bytes. induction s as [|c s IH]; simpl; intros bytes.
  - intros [= <-]. reflexivity.
  - destruct (utf8_encode_char c) as [b|] eqn:Hc; [|discriminate].
    destruct (utf8_encode s) as [bs|]; [|discriminate].
    intros [= <-]. rewrite (utf8_decode_char c b bs Hc), (IH bs eq_refl).
    reflexivity.
Qed.

(** ** JSON strings *)

Lemma scan_control_escape c tail :
  0 <= c < 32 ->
  scan_string ([92; 117; 48; 48; hex_digit (c / 16); hex_digit (c mod 16)]
               ++ tail)
  = push c (scan_string tail).
Proof.
  intros Hc.
  assert (Hcases : exists n : nat, (n < 32)%nat /\ c = Z.of_nat n).
  { exists (Z.to_nat c). lia. }
  destruct Hcases as (n & Hn & ->).
  do 32 (destruct n as [|n]; [reflexivity|]). lia.
Qed.

Lemma scan_escape_char c tail :
  scan_string (json_escape_char c ++ tail) = push c (scan_string tail).
Proof.
  unfold json_escape_char.
  destruct (Z.eqb_spec c 34) as [->|H34]; [reflexivity|].
  destruct (Z.eqb_spec c 92) as [->|H92]; [reflexivity|].
  destruct (Z.eqb_spec c 8) as [->|H8]; [reflexivity|].
  destruct (Z.eqb_spec c 12) as [->|H12]; [reflexivity|].
  destruct (Z.eqb_spec c 10) as [->|H10]; [reflexivity|].
  destruct (Z.eqb_spec c 13) as [->|H13]; [reflexivity|].
  destruct (Z.eqb_spec c 9) as [->|H9]; [reflexivity|].
  destruct ((0 <=? c) && (c <? 32)) eqn:Hctl.
  - apply scan_control_escape. lia.
  - cbn [app scan_string]. rewrite Hctl.
    destruct (Z.eqb_spec c 34); [contradiction|].
    destruct (Z.eqb_spec c 92); [contradiction|]. reflexivity.
Qed.

Lemma scan_string_escaped s rest :
  scan_string (concat (map json_escape_char s) ++ 34 :: rest) = Some (s, rest).
Proof.
  induction s as [|c s IH]; [reflexivity|].
  cbn [map concat]. rewrite <- app_assoc, scan_escape_char, IH. reflexivity.
Qed.

Lemma encode_basestring_cons s rest :
  encode_basestring s ++ rest
  = 34 :: concat (map json_escape_char s) ++ 34 :: rest.
Proof.
  unfold encode_basestring. cbn [app]. rewrite <- app_assoc. reflexivity.
Qed.

Lemma parse_value_dumped v rest :
  parse_value (json_value v ++ rest) = Some (v, rest).
Proof.
  destruct v as [|s]; [reflexivity|].
  cbn [json_value]. rewrite encode_basestring_cons. cbn [parse_value].
  rewrite scan_string_escaped. reflexivity.
Qed.

Lemma skip_ws_value v rest :
  skip_ws (json_value v ++ rest) = json_value v ++ rest.
Proof.
  destruct v as [|s]; reflexivity.
Qed.

(** The text of the members after the first one. *)
Lemma json_items_more k v tl :
  concat (json_items false ((k, v) :: tl))
  = [44; 10; 32; 32] ++ encode_basestring k ++ [58; 32] ++ json_value v
    ++ concat (json_items false tl).
Proof.
  cbn [json_items app concat]. reflexivity.
Qed.

Lemma parse_members_dumped tl k v fuel rest :
  (length tl < fuel)%nat ->
  parse_members fuel
    (encode_basestring k ++ 58 :: 32 :: json_value v
     ++ concat (json_items false tl) ++ 10 :: 125 :: rest)
  = Some ((k, v) :: tl, rest).
Proof.
  revert k v fuel. induction tl as [|[k' v'] tl IH]; intros k v fuel Hfuel;
    (destruct fuel as [|fuel]; [simpl in Hfuel; lia|]);
    rewrite encode_basestring_cons; cbn [parse_members];
    rewrite scan_string_escaped; cbn [app skip_ws is_ws Z.eqb orb Pos.eqb];
    rewrite skip_ws_value, parse_value_dumped.
  - reflexivity.
  - rewrite json_items_more. rewrite <- !app_assoc.
    cbn [app skip_ws is_ws Z.eqb orb Pos.eqb].
    rewrite encode_basestring_cons.
    cbn [skip_ws is_ws Z.eqb orb Pos.eqb].
    rewrite <- encode_basestring_cons.
    rewrite (IH k' v' fuel); [reflexivity|]. simpl in Hfuel. lia.
Qed.

Lemma json_items_length tl :
  (length tl <= length (concat (json_items false tl)))%nat.
Proof.
  induction tl as [|[k v] tl IH]; [simpl; lia|].
  rewrite json_items_more, !length_app. simpl. lia.
Qed.

Lemma json_dumps_members k v tl :
  json_dumps ((k, v) :: tl)
  = [123; 10; 32; 32]
    ++ (encode_basestring k ++ 58 :: 32 :: json_value v
        ++ concat (json_items false tl) ++ 10 :: 125 :: []).
Proof.
  unfold json_dumps, json_iterencode.
  cbn [json_items app concat]. rewrite !concat_app.
  cbn [concat app]. rewrite <- ?app_assoc. reflexivity.
Qed.

(** Parsing what [json.dump] wrote gives the dictionary back. *)
Lemma json_loads_dumps d : json_loads (json_dumps d) = Some d.
Proof.
  destruct d as [|[k v] tl]; [reflexivity|].
  rewrite json_dumps_members. unfold json_loads.
  cbn [app skip_ws is_ws Z.eqb orb Pos.eqb].
  rewrite encode_basestring_cons.
  cbn [skip_ws is_ws Z.eqb orb Pos.eqb].
  rewrite <- encode_basestring_cons.
  rewrite parse_members_dumped; [reflexivity|].
  pose proof (json_items_length tl).
  repeat (rewrite length_app || cbn [length]). lia.
Qed.

Lemma report_of_dict_report r : report_of_dict (report_dict r) = Some r.
Proof.
  destruct r as [t v a]. unfold report_of_dict, report_dict. cbn.
  destruct v, a; reflexivity.
Qed.

(** Reading back the UTF-8 encoding of a dumped report gives the report. *)
Lemma load_report_dumped r bytes :
  utf8_encode (json_dumps (report_dict r)) = Some bytes ->
  load_report bytes = Some r.
Proof.
  intros Henc. unfold load_report.
  rewrite (utf8_decode_encode _ _ Henc), json_loads_dumps.
  apply report_of_dict_report.
Qed.

(** ** Writing the report *)

Lemma set_out_same w : set_out (w_out w) w = w.
Proof. destruct w. reflexivity. Qed.

(** The chunks go to the file one after the other. *)
Lemma write_chunks_run E path chunks acc w :
  w_out w !! path = Some acc ->
  write_chunks E path chunks w =
  (match (written E path acc chunks).2 with
   | None => Ok tt
   | Some e => Raise e
   end,
   set_out (<[path := (written E path acc chunks).1]> (w_out w)) w).
Proof.
  revert acc w. induction chunks as [|c rest IH]; intros acc w Hacc.
  - cbn [write_chunks written fst snd]. unfold ret.
    rewrite (insert_id _ _ _ Hacc), set_out_same. reflexivity.
  - cbn [write_chunks written]. unfold bind, file_write, taken.
    rewrite Hacc. cbn [default from_option id].
    destruct (utf8_encode c) as [b|];
      [|cbn [fst snd]; rewrite (insert_id _ _ _ Hacc), set_out_same;
        reflexivity].
    destruct (env_out_write E path acc b) as [[n e]|]; [reflexivity|].
    rewrite (IH (acc ++ b)) by apply lookup_insert_eq.
    cbn [w_out set_out]. rewrite insert_insert_eq. reflexivity.
Qed.

Lemma encodable_encode s : encodable s -> utf8_encode s <> None.
Proof.
  induction 1 as [|c s Hc Hs IH]; simpl; [discriminate|].
  unfold encodable_char in Hc.
  destruct (utf8_encode_char c); [|contradiction].
  destruct (utf8_encode s); [discriminate|contradiction].
Qed.

(** Writes that ended without an exception took the encoding of the
    chunks, no more and no less. *)
Lemma written_clean E path acc chunks :
  (written E path acc chunks).2 = None ->
  exists bytes,
    utf8_encode (concat chunks) = Some bytes
    /\ (written E path acc chunks).1 = acc ++ bytes.
Proof.
  revert acc. induction chunks as [|c rest IH]; intros acc.
  - intros _. exists []. rewrite app_nil_r. split; reflexivity.
  - cbn [written concat]. rewrite utf8_encode_app.
    destruct (utf8_encode c) as [b|]; [|discriminate].
    destruct (env_out_write E path acc b) as [[n e]|]; [discriminate|].
    intros Hok. destruct (IH (acc ++ b) Hok) as (bytes & -> & ->).
    exists (b ++ bytes). rewrite app_assoc. split; reflexivity.
Qed.

(** Chunks that can be encoded are all taken when no write fails. *)
Lemma written_all E path acc chunks :
  Forall encodable chunks ->
  (forall acc' b, env_out_write E path acc' b = None) ->
  (written E path acc chunks).2 = None.
Proof.
  intros Henc Hwr. revert acc.
  induction Henc as [|c rest Hc Hrest IH]; intros acc; [reflexivity|].
  cbn [written]. apply encodable_encode in Hc.
  destruct (utf8_encode c) as [b|]; [|contradiction].
  rewrite Hwr. apply IH.
Qed.

(** [save_results], step by step. *)
Lemma save_results_run E r w :
  save_results E r w =
  let path := output_file_at (env_now E (w_clock w)) in
  let w1 := set_clock (S (w_clock w)) w in
  match env_open_w E path with
  | Some e => (Raise e, w1)
  | None =>
      let wr := written E path [] (json_iterencode (report_dict r)) in
      match env_out_close E path wr.1 with
      | CloseRaises n e =>
          (Raise e, set_out (<[path := take n wr.1]> (w_out w)) w1)
      | Closed =>
          let w2 := set_out (<[path := wr.1]> (w_out w)) w1 in
          match wr.2 with
          | None =>
              (Ok path,
               set_log (w_log w ++ [LogInfo (s2p "Results saved to " ++ path)])
                 w2)
          | Some e => (Raise e, w2)
          end
      end
  end.
Proof.
  unfold save_results, bind at 1, now.
  fold (output_file_at (env_now E (w_clock w))).
  cbv zeta. unfold bind at 1, with_open_w.
  destruct (env_open_w E _) as [e|]; [reflexivity|].
  rewrite (write_chunks_run E _ _ []) by apply lookup_insert_eq.
  unfold taken. cbn [w_out set_out set_clock].
  rewrite !insert_insert_eq, lookup_insert_eq. cbn [default from_option id].
  destruct (env_out_close E _ _) as [|n e].
  - destruct (written E _ _ _).2; reflexivity.
  - rewrite insert_insert_eq. reflexivity.
Qed.

(** ** What can be encoded *)

Lemma small_encodable c : 0 <= c < 55296 -> encodable_char c.
Proof.
  intros Hc. unfold encodable_char, utf8_encode_char.
  decide_tests; cbn; discriminate.
Qed.

Lemma s2p_encodable str : encodable (s2p str).
Proof.
  unfold encodable, s2p. apply Forall_map, List.Forall_forall. intros a _.
  simpl. apply small_encodable. pose proof (nat_ascii_bounded a). lia.
Qed.

Lemma encodable_app a b : encodable a -> encodable b -> encodable (a ++ b).
Proof. unfold encodable. intros Ha Hb. apply Forall_app. split; assumption. Qed.

Lemma hex_digit_encodable n : 0 <= n < 16 -> encodable_char (hex_digit n).
Proof.
  intros Hn. apply small_encodable. unfold hex_digit.
  destruct (n <? 10); lia.
Qed.

(** Proves a list of small literal characters encodable. *)
Ltac literal_encodable :=
  unfold encodable;
  repeat (apply List.Forall_cons; [apply small_encodable; lia|]);
  apply List.Forall_nil.

Lemma encodable_escape_char c :
  encodable_char c -> encodable (json_escape_char c).
Proof.
  intros Hc. unfold json_escape_char.
  destruct (c =? 34); [literal_encodable|].
  destruct (c =? 92); [literal_encodable|].
  destruct (c =? 8); [literal_encodable|].
  destruct (c =? 12); [literal_encodable|].
  destruct (c =? 10); [literal_encodable|].
  destruct (c =? 13); [literal_encodable|].
  destruct (c =? 9); [literal_encodable|].
  destruct ((0 <=? c) && (c <? 32)) eqn:Hctl.
  - apply andb_prop in Hctl as [Ha Hb].
    apply Z.leb_le in Ha. apply Z.ltb_lt in Hb.
    unfold encodable.
    do 4 (apply List.Forall_cons; [apply small_encodable; lia|]).
    apply List.Forall_cons.
    { apply hex_digit_encodable.
      split; [apply Z.div_pos; lia | apply Z.div_lt_upper_bound; lia]. }
    apply List.Forall_cons; [|apply List.Forall_nil].
    apply hex_digit_encodable. apply Z.mod_pos_bound. lia.
  - apply List.Forall_cons; [exact Hc|apply List.Forall_nil].
Qed.

Lemma encodable_basestring s : encodable s -> encodable (encode_basestring s).
Proof.
  intros Hs. unfold encode_basestring.
  apply encodable_app; [literal_encodable|].
  apply encodable_app; [|literal_encodable].
  induction Hs as [|c s Hc Hs IH]; [constructor|].
  cbn [map concat]. apply encodable_app; [|exact IH].
  apply encodable_escape_char, Hc.
Qed.

Lemma uint_codes_encodable u : encodable (uint_codes u).
Proof.
  induction u; simpl; [apply List.Forall_nil|..];
    (apply List.Forall_cons; [apply small_encodable; lia|assumption]).
Qed.

Lemma dd_encodable w n : encodable (dd w n).
Proof.
  unfold dd, zfill, str_of_nonneg. apply encodable_app.
  - apply Forall_replicate. apply small_encodable. lia.
  - apply uint_codes_encodable.
Qed.

Lemma isoformat_encodable t : encodable (isoformat t).
Proof.
  unfold isoformat.
  repeat (apply encodable_app;
          [first [apply dd_encodable | apply s2p_encodable]|]).
  destruct (dt_micro t =? 0); [constructor|].
  apply encodable_app; [apply s2p_encodable | apply dd_encodable].
Qed.

Lemma json_value_encodable o :
  encodable_opt o -> encodable (json_value (jopt o)).
Proof.
  destruct o as [s|]; simpl.
  - apply encodable_basestring.
  - intros _. apply s2p_encodable.
Qed.

Lemma report_chunks_encodable r :
  encodable (timestamp r) ->
  encodable_opt (video_analysis r) ->
  encodable_opt (audio_analysis r) ->
  Forall encodable (json_iterencode (report_dict r)).
Proof.
  intros Ht Hv Ha. unfold json_iterencode, report_dict.
  cbn [json_items app].
  repeat (apply List.Forall_cons;
          [first [ apply s2p_encodable
                 | apply encodable_basestring, s2p_encodable
                 | apply encodable_basestring, Ht
                 | apply json_value_encodable; assumption
                 | literal_encodable ]|]).
  apply List.Forall_nil.
Qed.

(** ** The persisted report *)

(** C7. Whenever [save_results] succeeds, the file it wrote holds the UTF-8
    encoding of the JSON text of the report, and decoding and parsing that
    file gives back the same report, field for field: timestamp, video
    analysis and audio analysis, non-ASCII text included.  It succeeds
    whenever the file can be opened, written and closed and the report's
    strings can be encoded in UTF-8. *)
Theorem persisted_report_reads_back (E : Env) (r : report) (w : World) :
  (forall path w',
     save_results E r w = (Ok path, w') ->
     exists bytes,
       w_out w' !! path = Some bytes
       /\ utf8_encode (json_dumps (report_dict r)) = Some bytes
       /\ load_report bytes = Some r)
  /\ (env_open_w E (output_file_at (env_now E (w_clock w))) = None ->
      (forall acc b,
         env_out_write E (output_file_at (env_now E (w_clock w))) acc b
         = None) ->
      (forall acc,
         env_out_close E (output_file_at (env_now E (w_clock w))) acc
         = Closed) ->
      encodable (timestamp r) ->
      encodable_opt (video_analysis r) ->
      encodable_opt (audio_analysis r) ->
      exists w',
        save_results E r w
        = (Ok (output_file_at (env_now E (w_clock w))), w')).
Proof.
  split.
  - intros path w'. rewrite save_results_run. cbv zeta.
    destruct (env_open_w E _) as [e|]; [discriminate|].
    destruct (env_out_close E _ _) as [|n e]; [|discriminate].
    pose proof (written_clean E (output_file_at (env_now E (w_clock w))) []
                  (json_iterencode (report_dict r))) as Hclean.
    destruct (written E _ [] (json_iterencode (report_dict r)))
      as [acc [e|]]; cbn [fst snd] in *; [discriminate|].
    destruct (Hclean eq_refl) as (bytes & Henc & ->).
    intros [= <- <-]. exists bytes.
    split; [apply lookup_insert_eq|].
    split; [exact Henc|]. apply load_report_dumped. exact Henc.
  - intros Hopen Hwr Hcl Ht Hv Ha. rewrite save_results_run. cbv zeta.
    rewrite Hopen, Hcl.
    rewrite (written_all _ _ _ _ (report_chunks_encodable r Ht Hv Ha) Hwr).
    eauto.
Qed.

(** A report with a Bengali verdict, saved and read back. *)
Lemma persisted_report_reads_back_witness :
  exists path w' bytes,
    save_results calm_env bengali_report initial_world = (Ok path, w')
    /\ w_out w' !! path = Some bytes
    /\ load_report bytes = Some bengali_report.
Proof.
  assert (Ht : encodable (timestamp bengali_report))
    by apply s2p_encodable.
  assert (Hv : encodable_opt (video_analysis bengali_report))
    by (simpl; unfold nirapad; literal_encodable).
  destruct (proj2 (persisted_report_reads_back calm_env bengali_report
                     initial_world) eq_refl (fun _ _ => eq_refl)
              (fun _ => eq_refl) Ht Hv I) as [w' Hrun].
  destruct (proj1 (persisted_report_reads_back calm_env bengali_report
                     initial_world) _ _ Hrun) as (bytes & Hfile & _ & Hload).
  eexists _, w', bytes. split; [exact Hrun|].
  split; [exact Hfile|exact Hload].
Defined.

(** ** Materializing the inputs *)

Lemma pending_created suffix w :
  pending (w_tmp_next w) (tmp_created suffix w) = [].
Proof.
  unfold pending, tmp_created. cbn -[insert]. rewrite lookup_insert_eq.
  reflexivity.
Qed.

(** Leaving the block of a temporary file. *)
Lemma with_named_tmp_run {A} E suffix (body : nat -> M A) w :
  env_mktemp E (w_tmp_next w) = None ->
  with_named_tmp E suffix body w =
  match body (w_tmp_next w) (tmp_created suffix w) with
  | (r, w2) =>
      match env_tmp_close E (w_tmp_next w) (pending (w_tmp_next w) w2) with
      | Closed =>
          (match r with
           | Ok a => Ok (w_tmp_next w, a)
           | Raise e => Raise e
           end,
           tmp_closed (w_tmp_next w) (pending (w_tmp_next w) w2) w2)
      | CloseRaises k e =>
          (Raise e,
           tmp_closed (w_tmp_next w) (take k (pending (w_tmp_next w) w2)) w2)
      end
  end.
Proof.
  intros Hmk. unfold with_named_tmp. rewrite Hmk.
  fold (tmp_created suffix w).
  destruct (body (w_tmp_next w) (tmp_created suffix w)) as [r w2].
  unfold tmp_close.
  destruct (env_tmp_close E _ _) as [|k e]; [destruct r|]; reflexivity.
Qed.

(** The one write to a fresh temporary file. *)
Lemma tmp_write_fresh E suffix data w :
  tmp_write E (w_tmp_next w) data (tmp_created suffix w) =
  match env_tmp_write E (w_tmp_next w) data with
  | Written n =>
      (Ok tt, tmp_written (w_tmp_next w) n data (tmp_created suffix w))
  | WriteRaises n e =>
      (Raise e, tmp_truncated (w_tmp_next w) n data (tmp_created suffix w))
  end.
Proof.
  unfold tmp_write. rewrite pending_created. cbn [app].
  destruct (env_tmp_write E _ _) as [n|n e]; [reflexivity|].
  rewrite drop_nil. reflexivity.
Qed.

Lemma branch_ready_file msg suffix n data w :
  w_tmp (branch_ready msg suffix n data w) !! w_tmp_next w
  = Some (suffix, take n data).
Proof.
  unfold branch_ready, tmp_written, tmp_created, to_disk.
  cbn -[alter insert take drop].
  rewrite lookup_alter_eq, lookup_insert_eq. reflexivity.
Qed.

Lemma branch_ready_pending msg suffix n data w :
  pending (w_tmp_next w) (branch_ready msg suffix n data w) = drop n data.
Proof.
  unfold pending, branch_ready, tmp_written. cbn -[insert take drop].
  rewrite lookup_insert_eq. reflexivity.
Qed.

Lemma source_at_ready E msg suffix n data w :
  source_at E (branch_ready msg suffix n data w) (w_tmp_next w)
  = env_decode_video E (take n data).
Proof.
  unfold source_at. rewrite branch_ready_file. reflexivity.
Qed.

Lemma seen_written E t data n :
  env_tmp_write E t data = Written n -> seen E t data = take n data.
Proof. unfold seen. intros ->. reflexivity. Qed.

(** [analyze_video] and [analyze_audio] leave the temporary files and
    their buffers alone. *)
Lemma analyze_video_files E path w :
  exists v w',
    analyze_video E path w = (Ok v, w')
    /\ w_tmp w' = w_tmp w /\ w_fds w' = w_fds w
    /\ w_tmp_next w' = w_tmp_next w /\ w_buf w' = w_buf w.
Proof.
  rewrite analyze_video_run.
  destruct (sample_frames (source_at E w path) 10) as [frames|e];
    [|eexists _, _; repeat split].
  destruct (to_pil_frames frames) as [imgs|e];
    [|eexists _, _; repeat split].
  cbv zeta. destruct (env_generate E _); eexists _, _; repeat split.
Qed.

Lemma analyze_audio_files E path w :
  exists a w',
    analyze_audio E path w = (Ok a, w')
    /\ w_tmp w' = w_tmp w /\ w_fds w' = w_fds w
    /\ w_tmp_next w' = w_tmp_next w /\ w_buf w' = w_buf w.
Proof.
  unfold analyze_audio, try_except, extract_audio_features, bind, lift,
    librosa_load, send_message, log_error, modify, ret.
  repeat match goal with
         | |- context [match ?x with _ => _ end] =>
             lazymatch x with
             | context [match _ with _ => _ end] => fail
             | _ => destruct x eqn:?
             end
         end;
    eexists _, _; (split; [reflexivity|]); repeat split.
Qed.

(** A block that creates its temporary file, reads the upload and writes it
    with the first [n] bytes going to disk, then runs [analysis] on the
    file: what the close and the removal of the file make of the block. *)
Lemma branch_block_run {A} E (up : Upload) data n suffix
    (analysis : nat -> M A) (store : A -> report) w a w' :
  env_mktemp E (w_tmp_next w) = None ->
  up_read up = Ok data ->
  env_tmp_write E (w_tmp_next w) data = Written n ->
  analysis (w_tmp_next w)
    (tmp_written (w_tmp_next w) n data (tmp_created suffix w)) = (Ok a, w') ->
  w_buf w' = w_buf (tmp_written (w_tmp_next w) n data (tmp_created suffix w)) ->
  (tr <- with_named_tmp E suffix (fun tmp =>
           data <- lift (up_read up) ;;
           tmp_write E tmp data ;;;
           x <- analysis tmp ;;
           ret (store x)) ;;
   os_unlink E tr.1 ;;;
   ret tr.2) w
  = match env_tmp_close E (w_tmp_next w) (drop n data) with
    | Closed =>
        match env_unlink E (w_tmp_next w) with
        | None => (Ok (store a), tmp_removed (w_tmp_next w) w')
        | Some e => (Raise e, tmp_closed (w_tmp_next w) (drop n data) w')
        end
    | CloseRaises k e =>
        (Raise e, tmp_closed (w_tmp_next w) (take k (drop n data)) w')
    end.
Proof.
  intros Hmk Hread Hwr Hrun Hbuf.
  assert (Hpend : pending (w_tmp_next w) w' = drop n data).
  { unfold pending. rewrite Hbuf. unfold tmp_written. cbn -[insert take drop].
    rewrite lookup_insert_eq. reflexivity. }
  unfold bind at 1. rewrite (with_named_tmp_run E _ _ w Hmk).
  unfold bind at 1, lift. rewrite Hread.
  unfold bind at 1. rewrite tmp_write_fresh, Hwr.
  unfold bind at 1. rewrite Hrun. unfold ret at 1.
  rewrite Hpend.
  destruct (env_tmp_close E _ _) as [|k e]; [|reflexivity].
  unfold bind, os_unlink, ret. cbn [fst snd].
  destruct (env_unlink E _) as [e|]; [reflexivity|].
  unfold tmp_removed. rewrite Hpend. reflexivity.
Qed.

(** The video branch once the upload is in its temporary file. *)
Lemma video_branch_run E vf data n results w :
  env_mktemp E (w_tmp_next w) = None ->
  up_read vf = Ok data ->
  env_tmp_write E (w_tmp_next w) data = Written n ->
  exists v w',
    analyze_video E (w_tmp_next w)
      (branch_ready (s2p "Analyzing video...") (s2p ".mp4") n data w)
    = (Ok v, w')
    /\ w_tmp_next w' = S (w_tmp_next w)
    /\ video_branch E (Some vf) results w
       = match env_tmp_close E (w_tmp_next w) (drop n data) with
         | Closed =>
             match env_unlink E (w_tmp_next w) with
             | None =>
                 (Ok (set_video_analysis v results),
                  tmp_removed (w_tmp_next w) w')
             | Some e =>
                 (Raise e, tmp_closed (w_tmp_next w) (drop n data) w')
             end
         | CloseRaises k e =>
             (Raise e, tmp_closed (w_tmp_next w) (take k (drop n data)) w')
         end.
Proof.
  intros Hmk Hread Hwr.
  destruct (analyze_video_files E (w_tmp_next w)
              (branch_ready (s2p "Analyzing video...") (s2p ".mp4") n data w))
    as (v & w' & Hrun & _ & _ & Hnext & Hbuf).
  exists v, w'. split; [exact Hrun|]. split; [exact Hnext|].
  unfold video_branch. unfold bind at 1, log_info, modify.
  exact (branch_block_run E vf data n (s2p ".mp4") (analyze_video E)
           (fun v => set_video_analysis v results)
           (set_log (w_log w ++ [LogInfo (s2p "Analyzing video...")]) w)
           v w' Hmk Hread Hwr Hrun Hbuf).
Qed.

(** The audio branch once the upload is in its temporary file. *)
Lemma audio_branch_run E af data n results w :
  env_mktemp E (w_tmp_next w) = None ->
  up_read af = Ok data ->
  env_tmp_write E (w_tmp_next w) data = Written n ->
  exists a w',
    analyze_audio E (w_tmp_next w)
      (branch_ready (s2p "Analyzing audio...") (s2p ".wav") n data w)
    = (Ok a, w')
    /\ w_tmp_next w' = S (w_tmp_next w)
    /\ audio_branch E (Some af) results w
       = match env_tmp_close E (w_tmp_next w) (drop n data) with
         | Closed =>
             match env_unlink E (w_tmp_next w) with
             | None =>
                 (Ok (set_audio_analysis a results),
                  tmp_removed (w_tmp_next w) w')
             | Some e =>
                 (Raise e, tmp_closed (w_tmp_next w) (drop n data) w')
             end
         | CloseRaises k e =>
             (Raise e, tmp_closed (w_tmp_next w) (take k (drop n data)) w')
         end.
Proof.
  intros Hmk Hread Hwr.
  destruct (analyze_audio_files E (w_tmp_next w)
              (branch_ready (s2p "Analyzing audio...") (s2p ".wav") n data w))
    as (a & w' & Hrun & _ & _ & Hnext & Hbuf).
  exists a, w'. split; [exact Hrun|]. split; [exact Hnext|].
  unfold audio_branch. unfold bind at 1, log_info, modify.
  exact (branch_block_run E af data n (s2p ".wav") (analyze_audio E)
           (fun a => set_audio_analysis a results)
           (set_log (w_log w ++ [LogInfo (s2p "Analyzing audio...")]) w)
           a w' Hmk Hread Hwr Hrun Hbuf).
Qed.

Lemma pending_truncated t n data w :
  pending t (tmp_truncated t n data w) = [].
Proof.
  unfold pending, tmp_truncated. cbn -[insert take]. rewrite lookup_insert_eq.
  reflexivity.
Qed.

(** Filling the fresh temporary file raises: the body of the block raises,
    with nothing left in the buffer and nothing sent. *)
Lemma filling_raises_run {A} E (up : Upload) suffix (analysis : nat -> M A)
    (store : A -> report) w e :
  filling_raises E (w_tmp_next w) up e ->
  exists w2,
    (data <- lift (up_read up) ;;
     tmp_write E (w_tmp_next w) data ;;;
     x <- analysis (w_tmp_next w) ;;
     ret (store x)) (tmp_created suffix w) = (Raise e, w2)
    /\ pending (w_tmp_next w) w2 = []
    /\ w_calls w2 = w_calls w.
Proof.
  intros [Hread|(data & n & Hread & Hwr)].
  - unfold bind at 1, lift. rewrite Hread. eexists. split; [reflexivity|].
    split; [apply pending_created|reflexivity].
  - unfold bind at 1, lift. rewrite Hread.
    unfold bind at 1. rewrite tmp_write_fresh, Hwr.
    eexists. split; [reflexivity|].
    split; [apply pending_truncated|reflexivity].
Qed.

(** When materializing the upload raises, the block raises that exception;
    the only requests sent are those of the analysis, when it was
    reached. *)
Lemma branch_block_fails {A} E (up : Upload) suffix (analysis : nat -> M A)
    (store : A -> report) w e :
  (forall t w0, exists a w1,
      analysis t w0 = (Ok a, w1) /\ w_buf w1 = w_buf w0) ->
  materializing_raises E (w_tmp_next w) up e ->
  exists w',
    (tr <- with_named_tmp E suffix (fun tmp =>
             data <- lift (up_read up) ;;
             tmp_write E tmp data ;;;
             x <- analysis tmp ;;
             ret (store x)) ;;
     os_unlink E tr.1 ;;;
     ret tr.2) w = (Raise e, w')
    /\ (w_calls w' = w_calls w
        \/ exists data n a w1,
             analysis (w_tmp_next w)
               (tmp_written (w_tmp_next w) n data (tmp_created suffix w))
             = (Ok a, w1)
             /\ w_calls w' = w_calls w1).
Proof.
  intros Htotal Hraises.
  destruct Hraises as [e Hmk|e Hmk Hfill Hcl|e0 k e Hmk Hfill Hcl
                      |data n k e Hmk Hread Hwr Hcl
                      |data n e Hmk Hread Hwr Hcl Hun].
  - unfold bind at 1, with_named_tmp. rewrite Hmk.
    eexists. split; [reflexivity|left; reflexivity].
  - destruct (filling_raises_run E up suffix analysis store w e Hfill)
      as (w2 & Hbody & Hpend & Hcalls).
    unfold bind at 1. rewrite (with_named_tmp_run E _ _ w Hmk), Hbody, Hpend, Hcl.
    eexists. split; [reflexivity|left; exact Hcalls].
  - destruct (filling_raises_run E up suffix analysis store w e0 Hfill)
      as (w2 & Hbody & Hpend & Hcalls).
    unfold bind at 1. rewrite (with_named_tmp_run E _ _ w Hmk), Hbody, Hpend, Hcl.
    eexists. split; [reflexivity|left; exact Hcalls].
  - destruct (Htotal (w_tmp_next w)
                (tmp_written (w_tmp_next w) n data (tmp_created suffix w)))
      as (a & w1 & Hrun & Hbuf).
    rewrite (branch_block_run E up data n suffix analysis store w a w1
               Hmk Hread Hwr Hrun Hbuf), Hcl.
    eexists. split; [reflexivity|]. right. exists data, n, a, w1.
    split; [exact Hrun|reflexivity].
  - destruct (Htotal (w_tmp_next w)
                (tmp_written (w_tmp_next w) n data (tmp_created suffix w)))
      as (a & w1 & Hrun & Hbuf).
    rewrite (branch_block_run E up data n suffix analysis store w a w1
               Hmk Hread Hwr Hrun Hbuf), Hcl, Hun.
    eexists. split; [reflexivity|]. right. exists data, n, a, w1.
    split; [exact Hrun|reflexivity].
Qed.

Lemma analyze_video_keeps_buffer E t w0 :
  exists v w1, analyze_video E t w0 = (Ok v, w1) /\ w_buf w1 = w_buf w0.
Proof.
  destruct (analyze_video_files E t w0) as (v & w1 & Hrun & _ & _ & _ & Hbuf).
  eauto.
Qed.

Lemma analyze_audio_keeps_buffer E t w0 :
  exists a w1, analyze_audio E t w0 = (Ok a, w1) /\ w_buf w1 = w_buf w0.
Proof.
  destruct (analyze_audio_files E t w0) as (a & w1 & Hrun & _ & _ & _ & Hbuf).
  eauto.
Qed.

(** [analyze_video] on a freshly written file answers [None] when one of
    its steps raises on the bytes the file holds. *)
Lemma analyze_video_raises E msg suffix n data w e :
  video_steps_raise E (take n data) e ->
  exists w',
    analyze_video E (w_tmp_next w) (branch_ready msg suffix n data w)
    = (Ok None, w').
Proof.
  intros Hsteps. rewrite analyze_video_run, source_at_ready.
  destruct Hsteps as [Hs|[(frames & Hs & Hp)|(frames & imgs & Hs & Hp & Hg)]];
    rewrite Hs; [|rewrite Hp|rewrite Hp; cbv zeta; rewrite Hg];
    eexists; reflexivity.
Qed.

(** [analyze_audio] on a freshly written file answers the service's text
    when all its steps succeed on the bytes the file holds. *)
Lemma analyze_audio_succeeds E msg suffix n data w text :
  audio_steps_ok E (take n data) text ->
  exists w',
    analyze_audio E (w_tmp_next w) (branch_ready msg suffix n data w)
    = (Ok (Some text), w').
Proof.
  intros (y & sr & d & r & c & z & Hload & Hd & Hr & Hc & Hz & Hgen).
  unfold analyze_audio, try_except, extract_audio_features, bind, lift,
    librosa_load, send_message, ret.
  rewrite branch_ready_file, Hload. cbn [fst snd].
  rewrite Hd, Hr, Hc, Hz, Hgen. eexists; reflexivity.
Qed.

(** A branch that raises ends the invocation with the error dictionary. *)
Lemma video_branch_raises_run E vf audio_file w e w1 :
  video_branch E (Some vf)
    {| timestamp := isoformat (env_now E (w_clock w));
       video_analysis := None; audio_analysis := None |}
    (set_clock (S (w_clock w)) w) = (Raise e, w1) ->
  analyze_content E (Some vf) audio_file w
  = (Ok (ErrorResult (s2p (exn_str e))),
     set_log (w_log w1 ++ [LogError (s2p "Error in analysis: "
                                      ++ s2p (exn_str e))]) w1).
Proof.
  intros Hv.
  unfold analyze_content, try_except, bind at 1, run_branches, bind at 1, now.
  unfold bind at 1. rewrite Hv. reflexivity.
Qed.

Lemma tmp_removed_next t w : w_tmp_next (tmp_removed t w) = w_tmp_next w.
Proof. reflexivity. Qed.

(** Saving a report that can be encoded, when the output file works. *)
Lemma save_results_ok E r w :
  output_ok E ->
  report_encodable r ->
  exists bytes,
    utf8_encode (json_dumps (report_dict r)) = Some bytes
    /\ save_results E r w
       = (Ok (output_file_at (env_now E (w_clock w))),
          set_log (w_log w
                   ++ [LogInfo (s2p "Results saved to "
                                ++ output_file_at (env_now E (w_clock w)))])
            (set_out (<[output_file_at (env_now E (w_clock w)) := bytes]>
                        (w_out w))
               (set_clock (S (w_clock w)) w))).
Proof.
  intros (Hopen & Hwr & Hcl) (Ht & Hv & Ha).
  pose proof (written_all E (output_file_at (env_now E (w_clock w))) []
                _ (report_chunks_encodable r Ht Hv Ha) (Hwr _)) as Hok.
  destruct (written_clean _ _ _ _ Hok) as (bytes & Henc & Hbytes).
  exists bytes. split; [exact Henc|].
  rewrite save_results_run. cbv zeta. rewrite Hopen, Hcl, Hok, Hbytes.
  reflexivity.
Qed.

(** The requests of [analyze_video]: none, or one that starts with the
    prompt. *)
Lemma analyze_video_calls E path w :
  exists v w',
    analyze_video E path w = (Ok v, w')
    /\ (w_calls w' = w_calls w
        \/ exists imgs,
             w_calls w' = w_calls w ++ [PText video_prompt :: map PImage imgs]).
Proof.
  rewrite analyze_video_run.
  destruct (sample_frames (source_at E w path) 10) as [frames|e];
    [|eexists _, _; split; [reflexivity|left; reflexivity]].
  destruct (to_pil_frames frames) as [imgs|e];
    [|eexists _, _; split; [reflexivity|left; reflexivity]].
  cbv zeta.
  destruct (env_generate E _) as [text|e];
    (eexists _, _; split; [reflexivity|]; right;
     exists (take 10 imgs); reflexivity).
Qed.

(** C2, amended.  With both inputs supplied, temporary files that can be
    created, written, closed and removed and an output file that can be
    written: when a step of [analyze_video] raises on what the video's file
    holds while it is analyzed (sampling the frames, converting them, or
    the inference call), the video analysis is [None] and the audio branch
    still runs; when it succeeds on what the audio's file holds,
    [analyze_content] returns the report with no video analysis and the
    audio analysis.  Materializing the video is outside that boundary:
    when creating, filling, closing or removing its temporary file raises,
    the invocation ends with the error dictionary carrying that
    exception's text, and the audio branch does not run. *)
Theorem video_failure_isolated (E : Env) (w : World) (vf : Upload) :
  (forall af vdata adata e text,
     temp_files_ok E ->
     output_ok E ->
     up_read vf = Ok vdata ->
     up_read af = Ok adata ->
     video_steps_raise E (seen E (w_tmp_next w) vdata) e ->
     audio_steps_ok E (seen E (S (w_tmp_next w)) adata) text ->
     encodable text ->
     exists w',
       analyze_content E (Some vf) (Some af) w
       = (Ok (Results {| timestamp := isoformat (env_now E (w_clock w));
                         video_analysis := None;
                         audio_analysis := Some text |}), w'))
  /\ (forall audio_file e,
        materializing_raises E (w_tmp_next w) vf e ->
        exists w',
          analyze_content E (Some vf) audio_file w
          = (Ok (ErrorResult (s2p (exn_str e))), w')
          /\ (w_calls w' = w_calls w
              \/ exists imgs,
                   w_calls w'
                   = w_calls w ++ [PText video_prompt :: map PImage imgs])).
Proof.
  split.
  - intros af vdata adata e text (Hmk & Hwr & Hcl & Hun) Hout Hvread Haread
      Hvideo Haudio Htext.
    destruct (Hwr (w_tmp_next w) vdata) as [nv Hnv].
    destruct (Hwr (S (w_tmp_next w)) adata) as [na Hna].
    rewrite (seen_written _ _ _ _ Hnv) in Hvideo.
    rewrite (seen_written _ _ _ _ Hna) in Haudio.
    set (w0 := set_clock (S (w_clock w)) w).
    set (r0 := {| timestamp := isoformat (env_now E (w_clock w));
                  video_analysis := None; audio_analysis := None |}).
    destruct (video_branch_run E vf vdata nv r0 w0 (Hmk _) Hvread Hnv)
      as (v & w1 & Hv & Hnext1 & Hvb).
    destruct (analyze_video_raises E (s2p "Analyzing video...") (s2p ".mp4")
                nv vdata w0 e Hvideo) as [w1' Hv'].
    rewrite Hv in Hv'. injection Hv' as -> _.
    rewrite Hcl, Hun in Hvb.
    set (w2 := tmp_removed (w_tmp_next w0) w1) in *.
    assert (Hnext2 : w_tmp_next w2 = S (w_tmp_next w)) by exact Hnext1.
    rewrite <- Hnext2 in Hna.
    destruct (audio_branch_run E af adata na (set_video_analysis None r0) w2
                (Hmk _) Haread Hna) as (a & w3 & Ha & _ & Hab).
    destruct (analyze_audio_succeeds E (s2p "Analyzing audio...") (s2p ".wav")
                na adata w2 text Haudio) as [w3' Ha'].
    rewrite Ha in Ha'. injection Ha' as -> _.
    rewrite Hcl, Hun in Hab.
    destruct (save_results_ok E
                (set_audio_analysis (Some text) (set_video_analysis None r0))
                (tmp_removed (w_tmp_next w2) w3) Hout)
      as (bytes & _ & Hsave).
    { split; [apply isoformat_encodable|]. split; [exact I|exact Htext]. }
    unfold analyze_content, try_except, bind at 1, run_branches, bind at 1, now.
    fold w0 r0. unfold bind at 1. rewrite Hvb. unfold bind at 1. rewrite Hab.
    unfold ret at 1. unfold bind at 1. rewrite Hsave.
    unfold bind, ret. eexists. reflexivity.
  - intros audio_file e Hraises.
    set (w0 := set_clock (S (w_clock w)) w).
    destruct (branch_block_fails E vf (s2p ".mp4") (analyze_video E)
                (fun v => set_video_analysis v
                            {| timestamp := isoformat (env_now E (w_clock w));
                               video_analysis := None;
                               audio_analysis := None |})
                (set_log (w_log w0 ++ [LogInfo (s2p "Analyzing video...")]) w0)
                e (analyze_video_keeps_buffer E) Hraises)
      as (w1 & Hblock & Hcalls).
    eexists. split.
    + apply (video_branch_raises_run E vf audio_file w e w1).
      unfold video_branch. unfold bind at 1, log_info, modify. exact Hblock.
    + cbn [w_calls set_log].
      destruct Hcalls as [Hsame|(data & n & v & w2 & Hrun & Hsame)];
        [left; exact Hsame|].
      rewrite Hsame.
      destruct (analyze_video_calls E
                  (w_tmp_next
                     (set_log (w_log w0 ++ [LogInfo (s2p "Analyzing video...")])
                        w0))
                  (tmp_written
                     (w_tmp_next
                        (set_log
                           (w_log w0 ++ [LogInfo (s2p "Analyzing video...")])
                           w0)) n data
                     (tmp_created (s2p ".mp4")
                        (set_log
                           (w_log w0 ++ [LogInfo (s2p "Analyzing video...")])
                           w0))))
        as (v' & w2' & Hrun' & Hshape).
      rewrite Hrun in Hrun'. injection Hrun' as _ <-. exact Hshape.
Qed.

(** With an inference service that refuses images: the video analysis is
    lost, the audio analysis is returned.  With a disk that fills up while
    the video's temporary file is closed: the error dictionary. *)
Lemma video_failure_isolated_witness :
  (exists w',
     analyze_content no_images_env (Some some_video) (Some some_audio)
       initial_world
     = (Ok (Results {| timestamp := isoformat a_moment;
                       video_analysis := None;
                       audio_analysis := Some nirapad |}), w'))
  /\ (exists w',
        analyze_content close_fails_env (Some some_video) (Some some_audio)
          initial_world
        = (Ok (ErrorResult (s2p "[Errno 28] No space left on device")), w')).
Proof.
  split.
  - apply (proj1 (video_failure_isolated no_images_env initial_world
                    some_video)
             some_audio [0; 0; 0; 24; 102; 116; 121; 112] [82; 73; 70; 70]
             (Exn "InternalServerError" "500 internal error") nirapad).
    + repeat split. intros t data. eexists. reflexivity.
    + repeat split.
    + reflexivity.
    + reflexivity.
    + right. right. eexists _, _.
      split; [vm_compute; reflexivity|].
      split; [vm_compute; reflexivity|]. reflexivity.
    + eexists _, _, _, _, _, _.
      split; [reflexivity|].
      split; [vm_compute; reflexivity|].
      split; [reflexivity|]. split; [reflexivity|]. split; reflexivity.
    + unfold nirapad. literal_encodable.
  - destruct (proj2 (video_failure_isolated close_fails_env initial_world
                       some_video) (Some some_audio)
                (Exn "OSError" "[Errno 28] No space left on device"))
      as (w' & Hrun & _).
    + apply (close_raises _ _ _ [0; 0; 0; 24; 102; 116; 121; 112] 0%nat 0%nat);
        reflexivity.
    + exists w'. exact Hrun.
Defined.

Lemma run_branches_absent E w :
  run_branches E None None w
  = (Ok {| timestamp := isoformat (env_now E (w_clock w));
           video_analysis := None; audio_analysis := None |},
     set_clock (S (w_clock w)) w).
Proof. reflexivity. Qed.

(** What [save_results] answers, by the exception saving ends with. *)
Lemma save_results_answer E r w :
  (save_results E r w).1
  = match save_failure E (output_file_at (env_now E (w_clock w)))
            (json_iterencode (report_dict r)) with
    | None => Ok (output_file_at (env_now E (w_clock w)))
    | Some e => Raise e
    end.
Proof.
  rewrite save_results_run. cbv zeta. unfold save_failure.
  destruct (env_open_w E _) as [e|]; [reflexivity|].
  destruct (env_out_close E _ _) as [|n e]; [|reflexivity].
  destruct (written E _ _ _).2; reflexivity.
Qed.

Lemma save_results_calls E r w : w_calls (save_results E r w).2 = w_calls w.
Proof.
  rewrite save_results_run. cbv zeta.
  destruct (env_open_w E _) as [e|]; [reflexivity|].
  destruct (env_out_close E _ _) as [|n e]; [|reflexivity].
  destruct (written E _ _ _).2; reflexivity.
Qed.

(** C5, amended. With both inputs absent, [analyze_content] sends nothing
    to the inference service; it returns the report with its timestamp set
    and both analyses [None], unless saving it raises, when the output file
    is opened, written or closed, in which case it returns the error
    dictionary with that exception's text.  Saving does not raise when the
    output file can be opened, written and closed: the text of such a
    report can always be encoded. *)
Theorem both_absent_report (E : Env) (w : World) :
  let r0 := {| timestamp := isoformat (env_now E (w_clock w));
               video_analysis := None; audio_analysis := None |} in
  let failure := save_failure E (output_file_at (env_now E (S (w_clock w))))
                   (json_iterencode (report_dict r0)) in
  exists w',
    analyze_content E None None w
    = (Ok (match failure with
           | None => Results r0
           | Some e => ErrorResult (s2p (exn_str e))
           end), w')
    /\ w_calls w' = w_calls w
    /\ (output_ok E -> failure = None).
Proof.
  intros r0 failure.
  pose proof (save_results_answer E r0 (set_clock (S (w_clock w)) w)) as Hans.
  pose proof (save_results_calls E r0 (set_clock (S (w_clock w)) w)) as Hcalls.
  cbn [w_clock set_clock] in Hans. fold failure in Hans.
  unfold analyze_content, try_except, bind at 1.
  rewrite run_branches_absent. fold r0. unfold bind at 1.
  destruct (save_results E r0 (set_clock (S (w_clock w)) w)) as [res w1].
  cbn [fst snd] in Hans, Hcalls.
  assert (Hok : output_ok E -> failure = None).
  { intros (Hopen & Hwr & Hcl). unfold failure, save_failure.
    rewrite Hopen, Hcl. apply written_all; [|apply Hwr].
    apply report_chunks_encodable; cbn;
      [apply isoformat_encodable|exact I|exact I]. }
  destruct failure as [e|]; subst res.
  - unfold bind, log_error, modify, ret. eexists.
    split; [reflexivity|]. split; [exact Hcalls|exact Hok].
  - unfold bind, ret. eexists.
    split; [reflexivity|]. split; [exact Hcalls|exact Hok].
Qed.

(** With an output file that opens and cannot be closed: the error
    dictionary, although the file was opened and every write returned. *)
Lemma both_absent_report_witness :
  exists w',
    analyze_content save_close_fails_env None None initial_world
    = (Ok (ErrorResult (s2p "[Errno 28] No space left on device")), w')
    /\ w_calls w' = [].
Proof.
  destruct (both_absent_report save_close_fails_env initial_world)
    as (w' & Hrun & Hcalls & _).
  exists w'. split; [exact Hrun|exact Hcalls].
Defined.

(** ** The audio prompt *)

Lemma skip_literal_app lit rest : skip_literal lit (lit ++ rest) = Some rest.
Proof.
  induction lit as [|a lit IH]; simpl; [reflexivity|].
  rewrite Z.eqb_refl. exact IH.
Qed.

Lemma take_token_app tok lit rest :
  Forall (fun c => is_delim c = false) tok ->
  (exists c lit', lit = c :: lit' /\ is_delim c = true) ->
  take_token (tok ++ lit ++ rest) = (tok, lit ++ rest).
Proof.
  intros Htok (c & lit' & -> & Hc).
  induction Htok as [|t tok Ht Htok IH]; simpl in *.
  - rewrite Hc. reflexivity.
  - rewrite Ht, IH. reflexivity.
Qed.

Lemma uint_codes_digits u : Forall (fun c => is_digit c = true) (uint_codes u).
Proof.
  induction u; simpl; constructor; try reflexivity; assumption.
Qed.

Lemma zfill_digits w n :
  Forall (fun c => is_digit c = true) (zfill w (str_of_nonneg n)).
Proof.
  unfold zfill, str_of_nonneg. apply Forall_app. split.
  - apply Forall_replicate. reflexivity.
  - apply uint_codes_digits.
Qed.

Lemma zfill_length w s : (w <= length (zfill w s))%nat.
Proof.
  unfold zfill. rewrite length_app, length_replicate. lia.
Qed.

Lemma digit_not_delim c : is_digit c = true -> is_delim c = false.
Proof.
  unfold is_digit, is_delim. intros H. apply andb_prop in H as [Ha Hb].
  apply Z.leb_le in Ha. apply Z.leb_le in Hb.
  destruct (Z.eqb_spec c 32); [lia|]. destruct (Z.eqb_spec c 10); [lia|].
  reflexivity.
Qed.

Lemma digit_not_dot c : is_digit c = true -> (c =? 46) = false.
Proof.
  unfold is_digit. intros H. apply andb_prop in H as [Ha Hb].
  apply Z.leb_le in Ha. apply Z.leb_le in Hb. apply Z.eqb_neq. lia.
Qed.

(** A rendered number holds no space and no newline. *)
Lemma format_fixed_token d x :
  Forall (fun c => is_delim c = false) (format_fixed d x).
Proof.
  destruct x as [neg m e|[|]|]; cbn [format_fixed];
    try (repeat constructor).
  pose proof (zfill_digits (S d) (scaled_round d m e)) as Hds.
  set (ds := zfill (S d) (str_of_nonneg (scaled_round d m e))) in *.
  assert (Hnd : Forall (fun c => is_delim c = false) ds).
  { eapply Forall_impl; [exact Hds|]. intros c. apply digit_not_delim. }
  apply Forall_app. split; [destruct neg; repeat constructor|].
  apply Forall_app. split; [apply Forall_take, Hnd|].
  apply Forall_app. split; [repeat constructor|apply Forall_drop, Hnd].
Qed.

Lemma decimals_after_digits a b :
  Forall (fun c => (c =? 46) = false) a ->
  decimals (a ++ 46 :: b) = Some (length b).
Proof.
  induction 1 as [|c a Hc Ha IH]; simpl; [reflexivity|].
  rewrite Hc. exact IH.
Qed.

(** A finite number rendered with [.<d>f] has exactly [d] digits after
    its decimal point. *)
Lemma format_fixed_decimals d x :
  is_finite x = true -> decimals (format_fixed d x) = Some d.
Proof.
  destruct x as [neg m e| |]; [intros _|discriminate..].
  cbn [format_fixed].
  pose proof (zfill_digits (S d) (scaled_round d m e)) as Hds.
  pose proof (zfill_length (S d) (str_of_nonneg (scaled_round d m e))) as Hlen.
  set (ds := zfill (S d) (str_of_nonneg (scaled_round d m e))) in *.
  assert (Hnd : Forall (fun c => (c =? 46) = false) ds).
  { eapply Forall_impl; [exact Hds|]. intros c. apply digit_not_dot. }
  rewrite app_assoc. cbn [app]. rewrite decimals_after_digits.
  - rewrite length_drop. f_equal. lia.
  - apply Forall_app. split; [destruct neg; repeat constructor|].
    apply Forall_take, Hnd.
Qed.

(** Proves that a literal of the prompt starts with a space or a
    newline. *)
Ltac starts_with_delim := eexists _, _; split; reflexivity.

Lemma parse_audio_prompt_rendered f :
  parse_audio_prompt (audio_prompt f)
  = Some (format_fixed 2 (duration f), format_fixed 4 (rms_energy f),
          format_fixed 2 (spectral_centroid f),
          format_fixed 4 (zero_crossing_rate f)).
Proof.
  unfold parse_audio_prompt, audio_prompt.
  rewrite skip_literal_app.
  rewrite (take_token_app (format_fixed 2 (duration f)) audio_prompt_energy);
    [|apply format_fixed_token|starts_with_delim].
  cbn [fst snd]. rewrite skip_literal_app.
  rewrite (take_token_app (format_fixed 4 (rms_energy f))
             audio_prompt_spectral);
    [|apply format_fixed_token|starts_with_delim].
  cbn [fst snd]. rewrite skip_literal_app.
  rewrite (take_token_app (format_fixed 2 (spectral_centroid f))
             audio_prompt_voice);
    [|apply format_fixed_token|starts_with_delim].
  cbn [fst snd]. rewrite skip_literal_app.
  rewrite <- (app_nil_r audio_prompt_tail).
  rewrite (take_token_app (format_fixed 4 (zero_crossing_rate f))
             audio_prompt_tail []);
    [|apply format_fixed_token|starts_with_delim].
  cbn [fst snd]. rewrite skip_literal_app. reflexivity.
Qed.

(** C4, amended. The audio prompt carries the four features as fixed-point
    decimals: the duration and the spectral centroid with 2 digits after
    the decimal point, the RMS energy and the zero-crossing rate with 4.
    For three seconds of silence it reads "3.00" for the duration and
    "0.0000" for the energy, "0.00" and "0.0000" for the other two. *)
Theorem audio_prompt_precision (f : features) :
  parse_audio_prompt (audio_prompt f)
  = Some (format_fixed 2 (duration f), format_fixed 4 (rms_energy f),
          format_fixed 2 (spectral_centroid f),
          format_fixed 4 (zero_crossing_rate f))
  /\ (is_finite (duration f) = true ->
      decimals (format_fixed 2 (duration f)) = Some 2%nat)
  /\ (is_finite (rms_energy f) = true ->
      decimals (format_fixed 4 (rms_energy f)) = Some 4%nat)
  /\ (is_finite (spectral_centroid f) = true ->
      decimals (format_fixed 2 (spectral_centroid f)) = Some 2%nat)
  /\ (is_finite (zero_crossing_rate f) = true ->
      decimals (format_fixed 4 (zero_crossing_rate f)) = Some 4%nat)
  /\ (f = silent_features ->
      parse_audio_prompt (audio_prompt f)
      = Some (s2p "3.00", s2p "0.0000", s2p "0.00", s2p "0.0000")).
Proof.
  split; [apply parse_audio_prompt_rendered|].
  repeat (split; [apply format_fixed_decimals|]).
  intros ->. rewrite parse_audio_prompt_rendered. reflexivity.
Qed.

(** The prompt for three seconds of silence. *)
Lemma audio_prompt_precision_witness :
  parse_audio_prompt (audio_prompt silent_features)
  = Some (s2p "3.00", s2p "0.0000", s2p "0.00", s2p "0.0000")
  /\ decimals (format_fixed 4 (rms_energy silent_features)) = Some 4%nat.
Proof.
  destruct (audio_prompt_precision silent_features)
    as (_ & _ & Hrms & _ & _ & Hsilent).
  split; [apply Hsilent; reflexivity|apply Hrms; reflexivity].
Defined.

(** C4, as stated, fails: the energy is rendered with 4 digits after the
    decimal point, not 2. *)
Lemma energy_rendered_with_four_decimals :
  exists du en ce zc,
    parse_audio_prompt (audio_prompt silent_features) = Some (du, en, ce, zc)
    /\ en = s2p "0.0000"
    /\ decimals en = Some 4%nat
    /\ decimals en <> Some 2%nat.
Proof.
  exists (s2p "3.00"), (s2p "0.0000"), (s2p "0.00"), (s2p "0.0000").
  split; [vm_compute; reflexivity|]. split; [reflexivity|].
  split; [reflexivity|]. vm_compute. discriminate.
Qed.

(** The features the extractor returns for three seconds of silence at
    22050 Hz, when librosa reports no energy, centroid or crossing. *)
Lemma silent_clip_features :
  (extract_audio_features calm_env 0 world_with_audio).1 = Ok silent_features.
Proof. vm_compute. reflexivity. Qed.

(** ** Further properties of the orchestrator *)

(** When writing the video's temporary file raises, whatever the audio
    input, the invocation ends with the error dictionary: it carries the
    text of that exception or, when closing the file raises too, of that
    one.  Nothing was sent to the inference service, and the temporary
    file is still on disk, holding what went through before the write
    raised. *)
Theorem video_write_failure_is_fatal (E : Env) (w : World) (vf : Upload)
    (audio_file : option Upload) (data : list Z) (n : nat) (e : exn) :
  env_mktemp E (w_tmp_next w) = None ->
  up_read vf = Ok data ->
  env_tmp_write E (w_tmp_next w) data = WriteRaises n e ->
  exists w',
    analyze_content E (Some vf) audio_file w
    = (Ok (ErrorResult
             (s2p (exn_str match env_tmp_close E (w_tmp_next w) [] with
                           | Closed => e
                           | CloseRaises _ e' => e'
                           end))), w')
    /\ w_calls w' = w_calls w
    /\ w_tmp w' !! w_tmp_next w = Some (s2p ".mp4", take n data).
Proof.
  intros Hmk Hread Hwr.
  set (w0 := set_log (w_log w ++ [LogInfo (s2p "Analyzing video...")])
               (set_clock (S (w_clock w)) w)).
  assert (Hfile : forall bytes,
            w_tmp (tmp_closed (w_tmp_next w) bytes
                     (tmp_truncated (w_tmp_next w) n data
                        (tmp_created (s2p ".mp4") w0))) !! w_tmp_next w
            = Some (s2p ".mp4", take n data ++ bytes)).
  { intros bytes. unfold tmp_closed, tmp_truncated, tmp_created, to_disk.
    cbn -[alter insert take].
    rewrite !lookup_alter_eq, lookup_insert_eq. reflexivity. }
  assert (Hblock :
    exists w1,
      video_branch E (Some vf)
        {| timestamp := isoformat (env_now E (w_clock w));
           video_analysis := None; audio_analysis := None |}
        (set_clock (S (w_clock w)) w)
      = (Raise match env_tmp_close E (w_tmp_next w) [] with
               | Closed => e
               | CloseRaises _ e' => e'
               end, w1)
      /\ w_calls w1 = w_calls w
      /\ w_tmp w1 !! w_tmp_next w = Some (s2p ".mp4", take n data)).
  { unfold video_branch. unfold bind at 1, log_info, modify. fold w0.
    unfold bind at 1. rewrite (with_named_tmp_run E _ _ w0 Hmk).
    unfold bind at 1, lift. rewrite Hread.
    unfold bind at 1. rewrite tmp_write_fresh.
    change (w_tmp_next w0) with (w_tmp_next w).
    rewrite Hwr, pending_truncated.
    destruct (env_tmp_close E _ _) as [|k e'];
      (eexists; split; [reflexivity|]; split; [reflexivity|]);
      rewrite Hfile, ?take_nil, app_nil_r; reflexivity. }
  destruct Hblock as (w1 & Hbranch & Hcalls & Htmp).
  rewrite (video_branch_raises_run E vf audio_file w _ w1 Hbranch).
  eexists. split; [reflexivity|]. split; [exact Hcalls|exact Htmp].
Qed.

(** With a disk that refuses the video's temporary file. *)
Lemma video_write_failure_is_fatal_witness :
  exists w',
    analyze_content video_write_fails_env (Some some_video) (Some some_audio)
      initial_world
    = (Ok (ErrorResult (s2p "[Errno 28] No space left on device")), w')
    /\ w_tmp w' !! 0%nat = Some (s2p ".mp4", []).
Proof.
  destruct (video_write_failure_is_fatal video_write_fails_env initial_world
              some_video (Some some_audio)
              [0; 0; 0; 24; 102; 116; 121; 112] 0%nat
              (Exn "OSError" "[Errno 28] No space left on device")
              eq_refl eq_refl eq_refl) as (w' & Hrun & _ & Hfile).
  exists w'. split; [exact Hrun|exact Hfile].
Defined.

(** Each branch catches every exception of its own steps: [analyze_video]
    and [analyze_audio] always return, a text or [None]. *)
Theorem branches_never_raise (E : Env) (path : nat) (w : World) :
  (exists v w', analyze_video E path w = (Ok v, w'))
  /\ (exists a w', analyze_audio E path w = (Ok a, w')).
Proof.
  split; apply try_except_total; intros e w1; run_m; eauto.
Qed.

(** [analyze_video] sends at most one request to the inference service:
    the text prompt first, then at most 10 images. *)
Theorem video_request_shape (E : Env) (path : nat) (w : World) :
  exists v w',
    analyze_video E path w = (Ok v, w')
    /\ (w_calls w' = w_calls w
        \/ exists imgs,
             w_calls w' = w_calls w ++ [PText video_prompt :: map PImage imgs]
             /\ (length imgs <= 10)%nat).
Proof.
  rewrite analyze_video_run.
  destruct (sample_frames (source_at E w path) 10) as [frames|e];
    [|eexists _, _; split; [reflexivity|left; reflexivity]].
  destruct (to_pil_frames frames) as [imgs|e];
    [|eexists _, _; split; [reflexivity|left; reflexivity]].
  cbv zeta.
  destruct (env_generate E _) as [text|e];
    (eexists _, _; split; [reflexivity|]; right;
     exists (take 10 imgs); split; [reflexivity|];
     rewrite length_take; lia).
Qed.

(** ** Resources on the paths the code handles *)

(** [analyze_audio] touches no file and no handle. *)
Lemma analyze_audio_resources E path w :
  exists a w', analyze_audio E path w = (Ok a, w') /\ same_resources w w'.
Proof.
  unfold analyze_audio, try_except, extract_audio_features, bind, lift,
    librosa_load, send_message, log_error, modify, ret.
  repeat match goal with
         | |- context [match ?x with _ => _ end] =>
             lazymatch x with
             | context [match _ with _ => _ end] => fail
             | _ => destruct x eqn:?
             end
         end;
    eexists _, _; (split; [reflexivity|]); repeat split.
Qed.

(** [save_results], whether it succeeds or raises, touches no temporary
    file and no handle. *)
Lemma save_results_resources E r w :
  same_resources w (save_results E r w).2.
Proof.
  rewrite save_results_run. cbv zeta.
  destruct (env_open_w E _); [repeat split|].
  destruct (env_out_close E _ _); [|repeat split].
  destruct (written E _ _ _).2; repeat split.
Qed.

(** [analyze_video] on a capture whose reads never raise leaves the
    capture released. *)
Lemma analyze_video_resources E path w :
  never_raises (source_at E w path) ->
  exists v w',
    analyze_video E path w = (Ok v, w')
    /\ same_resources (capture_released w) w'.
Proof.
  intros Hnr. rewrite analyze_video_run.
  destruct (sample_frames_kept (source_at E w path) 10 ltac:(lia) Hnr)
    as (frames & Hrun & _).
  rewrite Hrun. destruct (to_pil_frames frames) as [imgs|e].
  - cbv zeta. destruct (env_generate E _);
      eexists _, _; (split; [reflexivity|]); repeat split.
  - eexists _, _. split; [reflexivity|]. repeat split.
Qed.

(** The files of the world after a branch has closed and removed its
    file. *)
Lemma branch_done_files msg suffix n data w w' :
  w_tmp w' = w_tmp (branch_ready msg suffix n data w) ->
  w_fds w' = w_fds (branch_ready msg suffix n data w) ->
  w_buf w' = w_buf (branch_ready msg suffix n data w) ->
  w_tmp (tmp_removed (w_tmp_next w) w') = delete (w_tmp_next w) (w_tmp w)
  /\ w_fds (tmp_removed (w_tmp_next w) w')
     = ({[w_tmp_next w]} ∪ w_fds w) ∖ {[w_tmp_next w]}
  /\ w_buf (tmp_removed (w_tmp_next w) w') = delete (w_tmp_next w) (w_buf w)
  /\ w_caps (tmp_removed (w_tmp_next w) w') = w_caps w'
  /\ w_tmp_next (tmp_removed (w_tmp_next w) w') = w_tmp_next w'.
Proof.
  intros Ht Hf Hb. unfold tmp_removed, tmp_closed, to_disk.
  cbn [w_tmp w_fds w_caps w_tmp_next w_buf set_tmp set_fds set_buf].
  rewrite Ht, Hf, Hb. unfold branch_ready, tmp_written, tmp_created, to_disk.
  cbn [w_tmp w_fds w_caps w_tmp_next w_buf set_tmp set_fds set_buf
       set_tmp_next set_log].
  rewrite !delete_alter_eq, !delete_insert_eq. repeat split.
Qed.

(** On the paths the code handles (the temporary files can be created,
    written, closed and removed, the uploads can be read, and no seek or
    read raises on the capture of what the video's file holds while it is
    analyzed), whatever else fails, an invocation with both inputs leaves
    behind neither of its two temporary files, no open file, no buffer and
    no capture handle. *)
Theorem resources_released_when_handled (E : Env) (w : World)
    (vf af : Upload) (vdata adata : list Z) :
  temp_files_ok E ->
  up_read vf = Ok vdata ->
  up_read af = Ok adata ->
  never_raises (env_decode_video E (seen E (w_tmp_next w) vdata)) ->
  exists out w',
    analyze_content E (Some vf) (Some af) w = (Ok out, w')
    /\ w_tmp w' !! w_tmp_next w = None
    /\ w_tmp w' !! S (w_tmp_next w) = None
    /\ (w_tmp_next w ∉ w_fds w')
    /\ (S (w_tmp_next w) ∉ w_fds w')
    /\ w_buf w' !! w_tmp_next w = None
    /\ w_buf w' !! S (w_tmp_next w) = None
    /\ (w_cap_next w ∉ w_caps w').
Proof.
  intros (Hmk & Hwr & Hcl & Hun) Hvread Haread Hnr.
  destruct (Hwr (w_tmp_next w) vdata) as [nv Hnv].
  destruct (Hwr (S (w_tmp_next w)) adata) as [na Hna].
  rewrite (seen_written _ _ _ _ Hnv) in Hnr.
  set (w0 := set_clock (S (w_clock w)) w).
  set (r0 := {| timestamp := isoformat (env_now E (w_clock w));
                video_analysis := None; audio_analysis := None |}).
  set (B1 := branch_ready (s2p "Analyzing video...") (s2p ".mp4") nv vdata w0).
  destruct (video_branch_run E vf vdata nv r0 w0 (Hmk _) Hvread Hnv)
    as (v & w1 & Hv & Hnext1 & Hvb).
  fold B1 in Hv. rewrite Hcl, Hun in Hvb.
  destruct (analyze_video_resources E (w_tmp_next w0) B1)
    as (v' & w1' & Hv' & T1 & F1 & C1 & _ & _ & U1);
    [unfold B1; rewrite source_at_ready; exact Hnr|].
  rewrite Hv in Hv'. injection Hv' as <- <-.
  set (w2 := tmp_removed (w_tmp_next w0) w1) in *.
  destruct (branch_done_files _ _ _ _ _ _ T1 F1 U1)
    as (T2 & F2 & U2 & C2 & N2).
  fold w2 in T2, F2, U2, C2, N2.
  assert (N2' : w_tmp_next w2 = S (w_tmp_next w)).
  { rewrite N2. exact Hnext1. }
  rewrite <- N2' in Hna.
  set (B2 := branch_ready (s2p "Analyzing audio...") (s2p ".wav") na adata w2).
  destruct (audio_branch_run E af adata na (set_video_analysis v r0) w2
              (Hmk _) Haread Hna) as (a & w3 & Ha & _ & Hab).
  fold B2 in Ha. rewrite Hcl, Hun in Hab.
  destruct (analyze_audio_resources E (w_tmp_next w2) B2)
    as (a' & w3' & Ha' & T3 & F3 & C3 & _ & _ & U3).
  rewrite Ha in Ha'. injection Ha' as <- <-.
  set (w4 := tmp_removed (w_tmp_next w2) w3) in *.
  destruct (branch_done_files _ _ _ _ _ _ T3 F3 U3)
    as (T4 & F4 & U4 & C4 & _).
  fold w4 in T4, F4, U4, C4.
  set (r := set_audio_analysis a (set_video_analysis v r0)) in *.
  pose proof (save_results_resources E r w4) as (T5 & F5 & C5 & _ & _ & U5).
  assert (Hfacts : forall w5,
            w_tmp w5 = w_tmp (save_results E r w4).2 ->
            w_fds w5 = w_fds (save_results E r w4).2 ->
            w_caps w5 = w_caps (save_results E r w4).2 ->
            w_buf w5 = w_buf (save_results E r w4).2 ->
            w_tmp w5 !! w_tmp_next w = None
            /\ w_tmp w5 !! S (w_tmp_next w) = None
            /\ (w_tmp_next w ∉ w_fds w5)
            /\ (S (w_tmp_next w) ∉ w_fds w5)
            /\ w_buf w5 !! w_tmp_next w = None
            /\ w_buf w5 !! S (w_tmp_next w) = None
            /\ (w_cap_next w ∉ w_caps w5)).
  { intros w5 -> -> -> ->.
    rewrite T5, F5, C5, U5, T4, F4, U4, C4, C3, N2', T2, F2, U2.
    unfold B2, branch_ready, tmp_written, tmp_created, to_disk.
    cbn [w_caps set_buf set_fds set_tmp set_tmp_next set_log].
    rewrite C2, C1.
    change (w_tmp_next w0) with (w_tmp_next w).
    change (w_tmp w0) with (w_tmp w). change (w_fds w0) with (w_fds w).
    change (w_buf w0) with (w_buf w).
    split; [rewrite lookup_delete_ne, lookup_delete_eq by lia; reflexivity|].
    split; [apply lookup_delete_eq|].
    split; [clear; set_unfold; intuition lia|].
    split; [clear; set_unfold; intuition lia|].
    split; [rewrite lookup_delete_ne, lookup_delete_eq by lia; reflexivity|].
    split; [apply lookup_delete_eq|].
    unfold capture_released, capture_opened, B1, branch_ready, tmp_written,
      tmp_created, to_disk.
    cbn [w_caps w_cap_next set_caps set_cap_next set_buf set_fds set_tmp
         set_tmp_next set_log set_clock].
    clear. set_unfold. intuition lia. }
  unfold analyze_content, try_except, bind at 1, run_branches, bind at 1, now.
  fold w0 r0. unfold bind at 1. rewrite Hvb. unfold bind at 1. rewrite Hab.
  unfold ret at 1. fold r. unfold bind at 1.
  destruct (save_results E r w4) as [[path|e] w5] eqn:Hsave; cbn [snd] in *.
  - unfold ret. eexists _, _. split; [reflexivity|].
    apply Hfacts; reflexivity.
  - unfold bind, log_error, modify, ret. eexists _, _.
    split; [reflexivity|]. apply Hfacts; reflexivity.
Qed.

(** With every collaborator succeeding. *)
Lemma resources_released_when_handled_witness :
  exists out w',
    analyze_content calm_env (Some some_video) (Some some_audio) initial_world
    = (Ok out, w')
    /\ w_tmp w' !! 0%nat = None
    /\ w_tmp w' !! 1%nat = None
    /\ (0%nat ∉ w_caps w').
Proof.
  destruct (resources_released_when_handled calm_env initial_world
              some_video some_audio [0; 0; 0; 24; 102; 116; 121; 112]
              [82; 73; 70; 70])
    as (out & w' & Hrun & Hv & Ha & _ & _ & _ & _ & Hcap).
  - repeat split. intros t data. eexists. reflexivity.
  - reflexivity.
  - reflexivity.
  - intros i e. discriminate.
  - exists out, w'. repeat split; assumption.
Defined.

(** ** The duration *)

(** [2^k <= n / d], on the fractions [int_truediv] compares. *)
Lemma scaled_le_normal n d k c :
  0 <= c -> 0 <= c + k ->
  (scaled_den d k <= scaled_num n k <-> d * 2 ^ (c + k) <= n * 2 ^ c).
Proof.
  intros Hc Hck. unfold scaled_den, scaled_num.
  destruct (Z.le_gt_cases 0 k) as [Hk|Hk].
  - rewrite (Z.max_r 0 k), (Z.max_l 0 (- k)) by lia.
    rewrite Z.pow_0_r, Z.mul_1_r, Z.pow_add_r by lia.
    rewrite (Z.mul_comm (2 ^ c)), Z.mul_assoc.
    apply Z.mul_le_mono_pos_r. apply Z.pow_pos_nonneg; lia.
  - rewrite (Z.max_l 0 k), (Z.max_r 0 (- k)) by lia.
    rewrite Z.pow_0_r, Z.mul_1_r.
    assert (Hpow : 2 ^ c = 2 ^ (- k) * 2 ^ (c + k)).
    { rewrite <- Z.pow_add_r by lia. f_equal. lia. }
    rewrite Hpow, Z.mul_assoc.
    apply Z.mul_le_mono_pos_r. apply Z.pow_pos_nonneg; lia.
Qed.

Lemma scaled_le_mono n d k k' :
  0 <= d -> k <= k' ->
  scaled_den d k' <= scaled_num n k' -> scaled_den d k <= scaled_num n k.
Proof.
  intros Hd Hk H.
  set (c := Z.abs k + Z.abs k').
  apply (scaled_le_normal n d k c); [lia|lia|].
  apply (scaled_le_normal n d k' c) in H; [|lia|lia].
  etransitivity; [|exact H].
  apply Z.mul_le_mono_nonneg_l; [exact Hd|].
  apply Z.pow_le_mono_r; lia.
Qed.

(** The exponent estimate taken from the bit lengths is never too big by
    more than one. *)
Lemma scaled_le_log2 n d :
  0 < n -> 0 < d ->
  scaled_den d (Z.log2 n - Z.log2 d - 1)
  <= scaled_num n (Z.log2 n - Z.log2 d - 1).
Proof.
  intros Hn Hd.
  pose proof (Z.log2_spec n Hn) as [Hn1 _].
  pose proof (Z.log2_spec d Hd) as [_ Hd2].
  pose proof (Z.log2_nonneg n) as Hln.
  pose proof (Z.log2_nonneg d) as Hld.
  apply (scaled_le_normal n d _ (Z.log2 d + 1)); [lia|lia|].
  replace (Z.log2 d + 1 + (Z.log2 n - Z.log2 d - 1)) with (Z.log2 n) by lia.
  transitivity (2 ^ Z.succ (Z.log2 d) * 2 ^ Z.log2 n).
  - apply Z.mul_le_mono_nonneg_r; [apply Z.pow_nonneg; lia|lia].
  - rewrite Z.mul_comm. replace (Z.log2 d + 1) with (Z.succ (Z.log2 d)) by lia.
    apply Z.mul_le_mono_nonneg_r; [apply Z.pow_nonneg; lia|exact Hn1].
Qed.

Lemma round_half_even_pos num den :
  0 < den -> den <= num -> 1 <= round_half_even num den.
Proof.
  intros Hden Hnum. unfold round_half_even.
  assert (1 <= num / den) by (apply Z.div_le_lower_bound; lia).
  destruct (2 * (num mod den) <? den); [lia|].
  destruct (den <? 2 * (num mod den)); [lia|].
  destruct (Z.even (num / den)); lia.
Qed.

(** The quotient of a positive length by a positive sample rate is a
    positive float, never rounded to zero. *)
Lemma int_truediv_positive n d x :
  0 < n -> 0 < d < 2 ^ 1074 ->
  int_truediv n d = Ok x ->
  exists m e, x = FFinite false m e /\ m <> 0%N.
Proof.
  intros Hn Hd. unfold int_truediv.
  destruct (Z.eqb_spec d 0); [lia|].
  destruct (Z.ltb_spec n 0); [lia|]. destruct (Z.ltb_spec d 0); [lia|].
  rewrite (Z.abs_eq n), (Z.abs_eq d) by lia.
  destruct (Z.eqb_spec n 0); [lia|]. cbn [xorb].
  set (e0 := Z.log2 n - Z.log2 d).
  set (e1 := if scaled_num n e0 <? scaled_den d e0 then e0 - 1 else e0).
  set (e := Z.max (e1 - 52) (-1074)).
  assert (He1 : scaled_den d e1 <= scaled_num n e1).
  { unfold e1. destruct (Z.ltb_spec (scaled_num n e0) (scaled_den d e0)).
    - apply scaled_le_log2; lia.
    - assumption. }
  assert (He : scaled_den d e <= scaled_num n e).
  { unfold e. destruct (Z.max_spec (e1 - 52) (-1074)) as [[_ ->]|[_ ->]].
    - unfold scaled_den, scaled_num.
      change (Z.max 0 (-1074)) with 0. change (Z.max 0 (- -1074)) with 1074.
      rewrite Z.pow_0_r.
      assert (2 ^ 1074 <= n * 2 ^ 1074); [|lia].
      rewrite <- (Z.mul_1_l (2 ^ 1074)) at 1.
      apply Z.mul_le_mono_nonneg_r; [apply Z.pow_nonneg|]; lia.
    - apply (scaled_le_mono n d _ e1); [lia|lia|exact He1]. }
  assert (Hden : 0 < scaled_den d e).
  { unfold scaled_den. apply Z.mul_pos_pos; [lia|].
    apply Z.pow_pos_nonneg; lia. }
  pose proof (round_half_even_pos _ _ Hden He) as Hm.
  destruct (2 ^ 1024 <=? _); [discriminate|].
  intros [= <-]. eexists _, _. split; [reflexivity|]. lia.
Qed.

(** For a positive sample rate (below [2^1074], as any real one is), the
    duration [extract_audio_features] returns is a finite float that is
    not negative, and it is zero only for a waveform of length zero. *)
Theorem duration_sign_and_zero (E : Env) (w w' : World) (path : nat)
    (suffix : pystr) (bytes : list Z) (y : list pyfloat) (sr : Z)
    (f : features) :
  w_tmp w !! path = Some (suffix, bytes) ->
  env_load_audio E bytes = Ok (y, sr) ->
  0 < sr < 2 ^ 1074 ->
  extract_audio_features E path w = (Ok f, w') ->
  exists m e, duration f = FFinite false m e /\ (m = 0%N <-> y = []).
Proof.
  intros Hfile Hload Hsr.
  unfold extract_audio_features, bind, lift, librosa_load, ret.
  rewrite Hfile, Hload. cbn [fst snd].
  destruct (int_truediv (Z.of_nat (length y)) sr) as [d|e] eqn:Hd;
    [|discriminate].
  destruct (env_rms E y); [|discriminate].
  destruct (env_centroid E y); [|discriminate].
  destruct (env_zcr E y); [|discriminate].
  intros [= <- _]. cbn [duration].
  destruct y as [|s y].
  - unfold int_truediv in Hd. cbn [length] in Hd.
    destruct (Z.eqb_spec sr 0); [lia|].
    change (Z.abs (Z.of_nat 0) =? 0) with true in Hd. cbv iota in Hd.
    injection Hd as <-. exists 0%N, 0. split; [|tauto].
    destruct (Z.ltb_spec sr 0); [lia|]. reflexivity.
  - apply int_truediv_positive in Hd; [|cbn [length]; lia|exact Hsr].
    destruct Hd as (m & e & -> & Hm). exists m, e.
    split; [reflexivity|]. split; [contradiction|discriminate].
Qed.

(** Three seconds of silence last more than zero seconds. *)
Lemma duration_sign_and_zero_witness :
  exists m e, duration silent_features = FFinite false m e /\ m <> 0%N.
Proof.
  destruct (duration_sign_and_zero calm_env world_with_audio
              (extract_audio_features calm_env 0 world_with_audio).2
              0%nat (s2p ".wav") [82; 73; 70; 70] silence3s 22050
              silent_features) as (m & e & Hd & Hz).
  - reflexivity.
  - reflexivity.
  - split; [lia|]. vm_compute. reflexivity.
  - vm_compute. reflexivity.
  - exists m, e. split; [exact Hd|]. intros Hm. apply Hz in Hm. discriminate.
Defined.

(** ** The acoustic features of the specification *)



















(** ** How many frames the sampler returns *)

Lemma py_range_length stop step :
  0 < step ->
  length (py_range 0 stop step) = Z.to_nat ((stop + step - 1) / step).
Proof.
  intros _. unfold py_range. rewrite length_map, length_seq.
  f_equal. f_equal. lia.
Qed.

(** With [interval = max(1, T // C)] the visited indices are at least
    [min(T, C)]. *)
Lemma visited_at_least T C :
  1 <= C ->
  (Nat.min (Z.to_nat T) (Z.to_nat C)
   <= Z.to_nat ((T + sampling_interval T C - 1) / sampling_interval T C))%nat.
Proof.
  intros HC. unfold sampling_interval.
  destruct (Z.le_gt_cases T 0) as [HT|HT]; [lia|].
  assert (Hq : 0 <= T / C) by (apply Z.div_pos; lia).
  destruct (Z.le_gt_cases (T / C) 1) as [Hsmall|Hbig].
  - rewrite Z.max_l by lia.
    replace ((T + 1 - 1) / 1) with T by (rewrite Z.div_1_r; lia). lia.
  - rewrite Z.max_r by lia.
    assert (Hm : C * (T / C) <= T) by (apply Z.mul_div_le; lia).
    assert (C <= (T + T / C - 1) / (T / C)); [|lia].
    apply Z.div_le_lower_bound; [lia|]. nia.
Qed.

Lemma visited_at_most T s :
  1 <= s -> (Z.to_nat ((T + s - 1) / s) <= Z.to_nat T)%nat.
Proof.
  intros Hs. destruct (Z.le_gt_cases T 0) as [HT|HT].
  - assert ((T + s - 1) / s <= 0); [|lia].
    apply Z.lt_succ_r. apply Z.div_lt_upper_bound; lia.
  - assert ((T + s - 1) / s <= T); [|lia].
    apply Z.div_le_upper_bound; [lia|]. nia.
Qed.

Lemma kept_indices_all_decode vs C :
  1 <= C ->
  (forall i, is_decoded (vs_read vs i) = true) ->
  kept_indices vs C
  = map (fun k : nat => Z.of_nat k * sampling_interval (vs_count vs) C)
        (seq 0 (Nat.min (Z.to_nat (vs_count vs)) (Z.to_nat C))).
Proof.
  intros HC Hall. unfold kept_indices.
  rewrite (filter_all_true _ _ Hall). unfold py_range.
  rewrite firstn_map, take_seq.
  pose proof (visited_at_least (vs_count vs) C HC) as Hn.
  pose proof (visited_at_most (vs_count vs)
                (sampling_interval (vs_count vs) C)
                ltac:(unfold sampling_interval; lia)) as Hm.
  replace (vs_count vs - 0 + sampling_interval (vs_count vs) C - 1)
    with (vs_count vs + sampling_interval (vs_count vs) C - 1) by lia.
  replace (Z.to_nat C `min`
           Z.to_nat ((vs_count vs + sampling_interval (vs_count vs) C - 1)
                     / sampling_interval (vs_count vs) C))%nat
    with (Nat.min (Z.to_nat (vs_count vs)) (Z.to_nat C)) by lia.
  apply map_ext. intros k. lia.
Qed.

(** When every frame decodes, [extract_frames] returns exactly
    [min(T, C)] frames, those at the indices [k * max(1, T // C)] for
    [k < min(T, C)].  For [C <= T < 2 * C] the interval is 1: the frames
    returned are the first [C] frames of the video, and nothing of the
    rest. *)
Theorem all_decodable_frame_count (E : Env) (w : World) (path : nat) (C : Z) :
  1 <= C ->
  (forall i, is_decoded (vs_read (source_at E w path) i) = true) ->
  exists frames w',
    extract_frames E path C w = (Ok frames, w')
    /\ length frames
       = Nat.min (Z.to_nat (vs_count (source_at E w path))) (Z.to_nat C)
    /\ Forall2 (fun (k : nat) f =>
                  vs_read (source_at E w path)
                    (Z.of_nat k
                     * Z.max 1 (vs_count (source_at E w path) / C))
                  = Decoded f)
               (seq 0 (Nat.min (Z.to_nat (vs_count (source_at E w path)))
                               (Z.to_nat C)))
               frames
    /\ (C <= vs_count (source_at E w path) < 2 * C ->
        Forall2 (fun (k : nat) f =>
                   vs_read (source_at E w path) (Z.of_nat k) = Decoded f)
                (seq 0 (Z.to_nat C)) frames).
Proof.
  intros HC Hall. set (vs := source_at E w path) in *.
  assert (Hnr : never_raises vs).
  { intros i e Hr. specialize (Hall i). rewrite Hr in Hall. discriminate. }
  destruct (sample_frames_kept vs C HC Hnr) as (frames & Hrun & Hkept).
  rewrite (kept_indices_all_decode vs C HC Hall) in Hkept.
  apply Forall2_fmap_l in Hkept.
  exists frames, (capture_released w).
  split; [rewrite extract_frames_run; fold vs; rewrite Hrun; reflexivity|].
  split.
  { apply Forall2_length in Hkept. rewrite <- Hkept. apply length_seq. }
  split; [exact Hkept|].
  intros HT.
  assert (Hq : vs_count vs / C = 1).
  { symmetry. apply (Z.div_unique_pos _ _ 1 (vs_count vs - C)); lia. }
  replace (Nat.min (Z.to_nat (vs_count vs)) (Z.to_nat C)) with (Z.to_nat C)
    in Hkept by lia.
  eapply Forall2_impl; [exact Hkept|].
  intros k f Hk. cbn in Hk. unfold sampling_interval in Hk.
  rewrite Hq in Hk. replace (Z.of_nat k * Z.max 1 1) with (Z.of_nat k) in Hk
    by lia.
  exact Hk.
Qed.


(** On the clip of 100 frames with a cap of 60: 60 frames, the first 60. *)
Lemma all_decodable_frame_count_witness :
  exists frames w',
    extract_frames calm_env 0 60 world_with_clip = (Ok frames, w')
    /\ length frames = 60%nat
    /\ Forall2 (fun (k : nat) f => frame_of (Z.of_nat k) = f)
               (seq 0 60) frames.
Proof.
  assert (Hs : source_at calm_env world_with_clip 0 = clip100) by reflexivity.
  destruct (all_decodable_frame_count calm_env world_with_clip 0%nat 60)
    as (frames & w' & Hrun & Hlen & _ & Hfirst).
  - lia.
  - intros i. rewrite Hs. reflexivity.
  - rewrite Hs in Hlen, Hfirst.
    exists frames, w'. split; [exact Hrun|]. split; [exact Hlen|].
    assert (Hc : 60 <= vs_count clip100 < 2 * 60) by (cbn; lia).
    specialize (Hfirst Hc).
    eapply Forall2_impl; [exact Hfirst|].
    intros k f Hk. cbn in Hk. injection Hk as <-. reflexivity.
Defined.

Lemma py_range_head stop step :
  0 < stop -> 0 < step ->
  exists rest, py_range 0 stop step = 0 :: rest.
Proof.
  intros Hstop Hstep. unfold py_range.
  assert (Hn : 1 <= (stop - 0 + step - 1) / step)
    by (apply Z.div_le_lower_bound; lia).
  destruct (Z.to_nat ((stop - 0 + step - 1) / step)) as [|n] eqn:Hz; [lia|].
  simpl. eexists. reflexivity.
Qed.

(** The cap is not checked.  A cap of 0 makes [extract_frames] raise
    [ZeroDivisionError] before any frame is read, with the capture left
    open; a negative cap makes it stop after the first index it visits, so
    it returns at most one frame, the one at index 0. *)
Theorem unchecked_cap (E : Env) (w : World) (path : nat) :
  extract_frames E path 0 w
  = (Raise (Exn "ZeroDivisionError" "integer division or modulo by zero"),
     capture_opened w)
  /\ (forall C,
        C < 0 ->
        never_raises (source_at E w path) ->
        extract_frames E path C w
        = (Ok (if 0 <? vs_count (source_at E w path)
               then match vs_read (source_at E w path) 0 with
                    | Decoded f => [f]
                    | _ => []
                    end
               else []),
           capture_released w)).
Proof.
  split; [rewrite extract_frames_run; reflexivity|].
  intros C HC Hnr. rewrite extract_frames_run.
  set (vs := source_at E w path) in *.
  unfold sample_frames, py_floordiv.
  destruct (Z.eqb_spec C 0); [lia|]. cbn [rbind].
  destruct (Z.ltb_spec 0 (vs_count vs)) as [HT|HT].
  - destruct (py_range_head (vs_count vs) (Z.max 1 (vs_count vs / C)) HT
                ltac:(lia)) as [rest ->].
    cbn [sample_loop].
    destruct (vs_read vs 0) as [f| |e] eqn:Hr.
    + cbn [app length].
      destruct (Z.of_nat 1 >=? C) eqn:Hge; [reflexivity|].
      rewrite Z.geb_leb in Hge. apply Z.leb_gt in Hge. lia.
    + cbn [length].
      destruct (Z.of_nat 0 >=? C) eqn:Hge; [reflexivity|].
      rewrite Z.geb_leb in Hge. apply Z.leb_gt in Hge. lia.
    + exfalso. exact (Hnr 0 e Hr).
  - rewrite py_range_empty by lia. reflexivity.
Qed.

(** A cap of -3 on the clip of 100 frames: one frame, the first. *)
Lemma unchecked_cap_witness :
  extract_frames calm_env 0 (-3) world_with_clip
  = (Ok [frame_of 0], capture_released world_with_clip).
Proof.
  apply (proj2 (unchecked_cap calm_env world_with_clip 0%nat) (-3));
    [lia|intros i e; discriminate].
Defined.

(** ** What the branches answer *)

Lemma analyze_video_outcome E path w :
  exists v w',
    analyze_video E path w = (Ok v, w')
    /\ branch_result E (s2p "Error in video analysis: ") w w' v
    /\ sends is_video_request 1 w w'
    /\ w_clock w' = w_clock w /\ w_out w' = w_out w.
Proof.
  rewrite analyze_video_run.
  destruct (sample_frames (source_at E w path) 10) as [frames|e].
  - destruct (to_pil_frames frames) as [imgs|e].
    + cbv zeta.
      assert (Hshape : is_video_request
                         (PText video_prompt :: map PImage (take 10 imgs))).
      { exists (take 10 imgs). split; [reflexivity|]. rewrite length_take. lia. }
      destruct (env_generate E _) as [text|e] eqn:Hgen.
      * eexists _, _. split; [reflexivity|].
        split; [split; [reflexivity|]; eexists; split; [reflexivity|exact Hgen]|].
        split; [|split; reflexivity].
        eexists [_]. split; [reflexivity|]. split; [cbn; lia|].
        repeat constructor. exact Hshape.
      * eexists _, _. split; [reflexivity|].
        split; [exists e; split; [reflexivity|]; right; eexists;
                split; [reflexivity|exact Hgen]|].
        split; [|split; reflexivity].
        eexists [_]. split; [reflexivity|]. split; [cbn; lia|].
        repeat constructor. exact Hshape.
    + eexists _, _. split; [reflexivity|].
      split; [exists e; split; [reflexivity|left; reflexivity]|].
      split; [|split; reflexivity].
      exists []. split; [cbn; rewrite app_nil_r; reflexivity|].
      split; [cbn; lia|constructor].
  - eexists _, _. split; [reflexivity|].
    split; [exists e; split; [reflexivity|left; reflexivity]|].
    split; [|split; reflexivity].
    exists []. split; [cbn; rewrite app_nil_r; reflexivity|].
    split; [cbn; lia|constructor].
Qed.

(** [analyze_audio] once the features are known. *)
Lemma analyze_audio_run E path w :
  analyze_audio E path w =
  match (extract_audio_features E path w).1 with
  | Raise e =>
      (Ok None,
       set_log (w_log w ++ [LogError (s2p "Error in audio analysis: "
                                      ++ s2p (exn_str e))]) w)
  | Ok f =>
      let request := [PText (audio_prompt f)] in
      let w1 := set_calls (w_calls w ++ [request]) w in
      match env_generate E request with
      | Ok text => (Ok (Some text), w1)
      | Raise e =>
          (Ok None,
           set_log (w_log w ++ [LogError (s2p "Error in audio analysis: "
                                          ++ s2p (exn_str e))]) w1)
      end
  end.
Proof.
  unfold analyze_audio, try_except, extract_audio_features, bind, lift,
    librosa_load, send_message, log_error, modify, ret.
  destruct (w_tmp w !! path) as [[suffix bytes]|]; [|reflexivity].
  destruct (env_load_audio E bytes) as [[y sr]|e]; [|reflexivity].
  cbn [fst snd].
  destruct (int_truediv (Z.of_nat (length y)) sr); [|reflexivity].
  destruct (env_rms E y); [|reflexivity].
  destruct (env_centroid E y); [|reflexivity].
  destruct (env_zcr E y); [|reflexivity].
  cbn [fst snd]. destruct (env_generate E _); reflexivity.
Qed.

Lemma analyze_audio_outcome E path w :
  exists a w',
    analyze_audio E path w = (Ok a, w')
    /\ branch_result E (s2p "Error in audio analysis: ") w w' a
    /\ sends is_audio_request 1 w w'
    /\ w_clock w' = w_clock w /\ w_out w' = w_out w.
Proof.
  rewrite analyze_audio_run.
  destruct (extract_audio_features E path w).1 as [f|e].
  - cbv zeta.
    destruct (env_generate E _) as [text|e] eqn:Hgen.
    + eexists _, _. split; [reflexivity|].
      split; [split; [reflexivity|]; eexists; split; [reflexivity|exact Hgen]|].
      split; [|split; reflexivity].
      eexists [_]. split; [reflexivity|]. split; [cbn; lia|].
      repeat constructor. exists f. reflexivity.
    + eexists _, _. split; [reflexivity|].
      split; [exists e; split; [reflexivity|]; right; eexists;
              split; [reflexivity|exact Hgen]|].
      split; [|split; reflexivity].
      eexists [_]. split; [reflexivity|]. split; [cbn; lia|].
      repeat constructor. exists f. reflexivity.
  - eexists _, _. split; [reflexivity|].
    split; [exists e; split; [reflexivity|left; reflexivity]|].
    split; [|split; reflexivity].
    exists []. split; [cbn; rewrite app_nil_r; reflexivity|].
    split; [cbn; lia|constructor].
Qed.

(** A branch answers a text only when the inference service answered that
    text to the one request the branch sent, and then logs nothing.  It
    answers [None] only after logging one error record with the text of
    the exception it caught: the service's, or that of an earlier step, in
    which case no request was sent.  No failure is silent. *)
Theorem branch_answers_explained (E : Env) (path : nat) (w : World) :
  (exists v w',
     analyze_video E path w = (Ok v, w')
     /\ branch_result E (s2p "Error in video analysis: ") w w' v)
  /\ (exists a w',
        analyze_audio E path w = (Ok a, w')
        /\ branch_result E (s2p "Error in audio analysis: ") w w' a).
Proof.
  split.
  - destruct (analyze_video_outcome E path w) as (v & w' & Hrun & Hres & _).
    exists v, w'. split; assumption.
  - destruct (analyze_audio_outcome E path w) as (a & w' & Hrun & Hres & _).
    exists a, w'. split; assumption.
Qed.

(** The audio itself never reaches the inference service.  [analyze_audio]
    sends at most one request, made of a single text part: the prompt
    rendered from the four features of the file.  When loading the file or
    computing a feature raises, it sends nothing. *)
Theorem audio_request_shape (E : Env) (path : nat) (w : World) :
  exists a w',
    analyze_audio E path w = (Ok a, w')
    /\ match (extract_audio_features E path w).1 with
       | Ok f => w_calls w' = w_calls w ++ [[PText (audio_prompt f)]]
       | Raise _ => w_calls w' = w_calls w /\ a = None
       end.
Proof.
  rewrite analyze_audio_run.
  destruct (extract_audio_features E path w).1 as [f|e].
  - cbv zeta. destruct (env_generate E _); eexists _, _; split; reflexivity.
  - eexists _, _. split; [reflexivity|]. split; reflexivity.
Qed.

(** ** The orchestrator in any environment *)

Lemma sends_refl P n w w' :
  w_calls w' = w_calls w -> sends P n w w'.
Proof.
  intros H. exists []. rewrite app_nil_r.
  split; [exact H|]. split; [cbn; lia|constructor].
Qed.

Lemma sends_weaken (P Q : list part -> Prop) n m w w' :
  (forall r, P r -> Q r) -> (n <= m)%nat -> sends P n w w' -> sends Q m w w'.
Proof.
  intros HPQ Hnm (new & Hc & Hl & HP). exists new.
  split; [exact Hc|]. split; [lia|].
  eapply List.Forall_impl; [exact HPQ|exact HP].
Qed.

Lemma sends_trans P n m w1 w2 w3 :
  sends P n w1 w2 -> sends P m w2 w3 -> sends P (n + m) w1 w3.
Proof.
  intros (a & Ha & La & Pa) (b & Hb & Lb & Pb). exists (a ++ b).
  split; [rewrite Hb, Ha, app_assoc; reflexivity|].
  split; [rewrite length_app; lia|].
  apply Forall_app; split; assumption.
Qed.

(** What a branch leaves alone, and what changes in the results. *)
Ltac branch_unfold H :=
  unfold video_branch, audio_branch, with_named_tmp, tmp_close, bind, lift,
    log_info, modify, tmp_write, os_unlink, ret in H;
  cbv beta iota zeta in H;
  repeat match type of H with
    | context [env_mktemp ?E ?t] => destruct (env_mktemp E t)
    | context [up_read ?u] => destruct (up_read u)
    | context [env_tmp_write ?E ?t ?d] => destruct (env_tmp_write E t d)
    end.

Ltac branch_done H :=
  repeat match type of H with
    | context [env_tmp_close ?E ?t ?b] => destruct (env_tmp_close E t b)
    | context [env_unlink ?E ?t] => destruct (env_unlink E t)
    end;
  cbv beta iota zeta in H; cbn [fst snd] in H;
  injection H as <- <-.

Ltac frame_closed :=
  (split; [reflexivity|]); (split; [reflexivity|]);
  (split; [apply sends_refl; reflexivity|]); intros ? [=].

Lemma video_branch_frame E v results w r w' :
  video_branch E v results w = (r, w') ->
  w_clock w' = w_clock w
  /\ w_out w' = w_out w
  /\ sends is_video_request (supplied v) w w'
  /\ (forall r', r = Ok r' ->
        timestamp r' = timestamp results
        /\ audio_analysis r' = audio_analysis results
        /\ (v = None -> r' = results)).
Proof.
  intros Hrun. destruct v as [vf|].
  - branch_unfold Hrun; try (branch_done Hrun; frame_closed).
    match type of Hrun with
    | context [analyze_video ?E ?p ?w0] =>
        destruct (analyze_video_outcome E p w0)
          as (v & w1 & Hv & _ & (new & Hs & Hl & Hp) & Hc & Ho);
        rewrite Hv in Hrun
    end.
    branch_done Hrun;
      (split; [exact Hc|]); (split; [exact Ho|]);
      (split; [exists new; repeat split; assumption|]);
      first [solve [intros ? [=]]
            | intros ? [= <-]; repeat split; discriminate].
  - injection Hrun as <- <-. split; [reflexivity|]. split; [reflexivity|].
    split; [apply sends_refl; reflexivity|].
    intros r' [= <-]. repeat split.
Qed.

Lemma audio_branch_frame E a results w r w' :
  audio_branch E a results w = (r, w') ->
  w_clock w' = w_clock w
  /\ w_out w' = w_out w
  /\ sends is_audio_request (supplied a) w w'
  /\ (forall r', r = Ok r' ->
        timestamp r' = timestamp results
        /\ video_analysis r' = video_analysis results
        /\ (a = None -> r' = results)).
Proof.
  intros Hrun. destruct a as [af|].
  - branch_unfold Hrun; try (branch_done Hrun; frame_closed).
    match type of Hrun with
    | context [analyze_audio ?E ?p ?w0] =>
        destruct (analyze_audio_outcome E p w0)
          as (v & w1 & Hv & _ & (new & Hs & Hl & Hp) & Hc & Ho);
        rewrite Hv in Hrun
    end.
    branch_done Hrun;
      (split; [exact Hc|]); (split; [exact Ho|]);
      (split; [exists new; repeat split; assumption|]);
      first [solve [intros ? [=]]
            | intros ? [= <-]; repeat split; discriminate].
  - injection Hrun as <- <-. split; [reflexivity|]. split; [reflexivity|].
    split; [apply sends_refl; reflexivity|].
    intros r' [= <-]. repeat split.
Qed.

Lemma run_branches_frame E v a w r w' :
  run_branches E v a w = (r, w') ->
  w_clock w' = S (w_clock w)
  /\ w_out w' = w_out w
  /\ (exists vnew anew,
        w_calls w' = w_calls w ++ vnew ++ anew
        /\ (length vnew <= supplied v)%nat /\ Forall is_video_request vnew
        /\ (length anew <= supplied a)%nat /\ Forall is_audio_request anew)
  /\ (forall r', r = Ok r' ->
        timestamp r' = isoformat (env_now E (w_clock w))
        /\ (v = None -> video_analysis r' = None)
        /\ (a = None -> audio_analysis r' = None)).
Proof.
  unfold run_branches, bind at 1, now. unfold bind at 1.
  set (w0 := set_clock (S (w_clock w)) w).
  set (r0 := {| timestamp := isoformat (env_now E (w_clock w));
                video_analysis := None; audio_analysis := None |}).
  destruct (video_branch E v r0 w0) as [[r1|e] w1] eqn:Hv;
    apply video_branch_frame in Hv;
    destruct Hv as (Hc1 & Ho1 & (vnew & Hs1 & Hl1 & Hp1) & Hr1).
  - unfold bind at 1.
    destruct (audio_branch E a r1 w1) as [[r2|e] w2] eqn:Ha;
      apply audio_branch_frame in Ha;
      destruct Ha as (Hc2 & Ho2 & (anew & Hs2 & Hl2 & Hp2) & Hr2);
      unfold ret; intros [= <- <-];
      (split; [rewrite Hc2, Hc1; reflexivity|]);
      (split; [rewrite Ho2, Ho1; reflexivity|]);
      (split; [exists vnew, anew; rewrite Hs2, Hs1, app_assoc;
               repeat split; assumption|]);
      intros r' [= <-].
    destruct (Hr1 r1 eq_refl) as (Ht1 & Ha1 & Hn1).
    destruct (Hr2 r2 eq_refl) as (Ht2 & Hv2 & Hn2).
    split; [rewrite Ht2, Ht1; reflexivity|].
    split.
    + intros Hnone. rewrite Hv2, (Hn1 Hnone). reflexivity.
    + intros Hnone. rewrite (Hn2 Hnone), Ha1. reflexivity.
  - intros [= <- <-].
    split; [exact Hc1|]. split; [exact Ho1|].
    split; [|intros ? [=]].
    exists vnew, []. rewrite app_nil_r.
    repeat split; first [assumption | cbn; lia | constructor].
Qed.

(** Whatever the environment does, a report that [analyze_content] returns
    carries the first clock reading of the invocation as its timestamp, and
    [None] in the field of every input that was absent. *)
Theorem returned_report_fields (E : Env) (w : World)
    (video_file audio_file : option Upload) :
  exists out w',
    analyze_content E video_file audio_file w = (Ok out, w')
    /\ match out with
       | Results r =>
           timestamp r = isoformat (env_now E (w_clock w))
           /\ (video_file = None -> video_analysis r = None)
           /\ (audio_file = None -> audio_analysis r = None)
       | ErrorResult _ => True
       end.
Proof.
  unfold analyze_content, try_except, bind at 1.
  destruct (run_branches E video_file audio_file w) as [[r|e] w1] eqn:Hrb.
  - apply run_branches_frame in Hrb. destruct Hrb as (_ & _ & _ & Hr).
    unfold bind at 1.
    destruct (save_results E r w1) as [[path|e] w2].
    + unfold ret. eexists _, _. split; [reflexivity|]. apply Hr. reflexivity.
    + unfold bind, log_error, modify, ret. eexists _, _.
      split; [reflexivity|exact I].
  - unfold bind, log_error, modify, ret. eexists _, _.
    split; [reflexivity|exact I].
Qed.

(** Whatever the environment does, an invocation touches one output file
    at most, the one named after its second clock reading.  A report is
    returned only once that file holds it: reading the file back gives the
    report returned.  When the invocation ends with the error dictionary,
    the output files are as before, or that one file was created or
    truncated and filled in part. *)
Theorem returned_report_is_on_disk (E : Env) (w : World)
    (video_file audio_file : option Upload) :
  exists out w',
    analyze_content E video_file audio_file w = (Ok out, w')
    /\ match out with
       | Results r =>
           exists bytes,
             w_out w'
             = <[output_file_at (env_now E (S (w_clock w))) := bytes]> (w_out w)
             /\ load_report bytes = Some r
       | ErrorResult _ =>
           w_out w' = w_out w
           \/ exists bytes,
                w_out w'
                = <[output_file_at (env_now E (S (w_clock w))) := bytes]>
                    (w_out w)
       end.
Proof.
  unfold analyze_content, try_except, bind at 1.
  destruct (run_branches E video_file audio_file w) as [[r|e] w1] eqn:Hrb;
    apply run_branches_frame in Hrb; destruct Hrb as (Hc & Ho & _ & _).
  - unfold bind at 1. rewrite save_results_run. cbv zeta. rewrite Hc, Ho.
    destruct (env_open_w E _) as [e|].
    + unfold bind, log_error, modify, ret. eexists _, _.
      split; [reflexivity|]. left. exact Ho.
    + pose proof (written_clean E
                    (output_file_at (env_now E (S (w_clock w)))) []
                    (json_iterencode (report_dict r))) as Hclean.
      destruct (env_out_close E _ _) as [|n e].
      * destruct (written E _ _ _) as [acc [e|]]; cbn [fst snd] in *.
        -- unfold bind, log_error, modify, ret. eexists _, _.
           split; [reflexivity|]. right. eexists. reflexivity.
        -- destruct (Hclean eq_refl) as (bytes & Hbytes & ->).
           unfold ret. eexists _, _. split; [reflexivity|].
           exists bytes. split; [reflexivity|].
           apply load_report_dumped. exact Hbytes.
      * unfold bind, log_error, modify, ret. eexists _, _.
        split; [reflexivity|]. right. eexists. reflexivity.
  - unfold bind, log_error, modify, ret. eexists _, _.
    split; [reflexivity|]. left. exact Ho.
Qed.

(** Whatever the environment does, an invocation sends the inference
    service at most one request for each input supplied: first the video's,
    the text prompt followed by at most 10 images, then the audio's, a
    single text part.  Nothing else is ever sent. *)
Theorem requests_of_an_invocation (E : Env) (w : World)
    (video_file audio_file : option Upload) :
  exists out w' vnew anew,
    analyze_content E video_file audio_file w = (Ok out, w')
    /\ w_calls w' = w_calls w ++ vnew ++ anew
    /\ (length vnew <= supplied video_file)%nat
    /\ Forall is_video_request vnew
    /\ (length anew <= supplied audio_file)%nat
    /\ Forall is_audio_request anew.
Proof.
  unfold analyze_content, try_except, bind at 1.
  destruct (run_branches E video_file audio_file w) as [[r|e] w1] eqn:Hrb;
    apply run_branches_frame in Hrb;
    destruct Hrb as (_ & _ & (vnew & anew & Hcalls) & _).
  - unfold bind at 1. rewrite save_results_run. cbv zeta.
    destruct (env_open_w E _) as [e|];
      [|destruct (env_out_close E _ _); [destruct (written E _ _ _).2|]];
      unfold bind, log_error, modify, ret;
      eexists _, _, vnew, anew; (split; [reflexivity|exact Hcalls]).
  - unfold bind, log_error, modify, ret.
    eexists _, _, vnew, anew. split; [reflexivity|exact Hcalls].
Qed.

(** ** When the files can be handled *)

Lemma branch_result_encodable E label w w' v :
  (forall request text, env_generate E request = Ok text -> encodable text) ->
  branch_result E label w w' v ->
  encodable_opt v.
Proof.
  intros Hgen Hres. destruct v as [text|]; [|exact I].
  destruct Hres as (_ & request & _ & Hok). exact (Hgen request text Hok).
Qed.

Lemma video_branch_handled E v results w :
  temp_files_ok E ->
  (forall u, v = Some u -> exists data, up_read u = Ok data) ->
  (forall request text, env_generate E request = Ok text -> encodable text) ->
  report_encodable results ->
  exists r' w',
    video_branch E v results w = (Ok r', w') /\ report_encodable r'.
Proof.
  intros (Hmk & Hwr & Hcl & Hun) Hread Hgen Hres. destruct v as [vf|].
  - destruct (Hread vf eq_refl) as [data Hdata].
    destruct (Hwr (w_tmp_next w) data) as [n Hn].
    destruct (video_branch_run E vf data n results w (Hmk _) Hdata Hn)
      as (v & w1 & Hv & _ & Hvb).
    rewrite Hcl, Hun in Hvb. rewrite Hvb.
    destruct (analyze_video_outcome E (w_tmp_next w)
                (branch_ready (s2p "Analyzing video...") (s2p ".mp4") n data w))
      as (v' & w1' & Hv' & Hbr & _).
    rewrite Hv in Hv'. injection Hv' as <- <-.
    eexists _, _. split; [reflexivity|].
    destruct Hres as (Ht & _ & Ha).
    split; [exact Ht|]. split; [|exact Ha].
    exact (branch_result_encodable _ _ _ _ _ Hgen Hbr).
  - eexists _, _. split; [reflexivity|exact Hres].
Qed.

Lemma audio_branch_handled E a results w :
  temp_files_ok E ->
  (forall u, a = Some u -> exists data, up_read u = Ok data) ->
  (forall request text, env_generate E request = Ok text -> encodable text) ->
  report_encodable results ->
  exists r' w',
    audio_branch E a results w = (Ok r', w') /\ report_encodable r'.
Proof.
  intros (Hmk & Hwr & Hcl & Hun) Hread Hgen Hres. destruct a as [af|].
  - destruct (Hread af eq_refl) as [data Hdata].
    destruct (Hwr (w_tmp_next w) data) as [n Hn].
    destruct (audio_branch_run E af data n results w (Hmk _) Hdata Hn)
      as (v & w1 & Hv & _ & Hab).
    rewrite Hcl, Hun in Hab. rewrite Hab.
    destruct (analyze_audio_outcome E (w_tmp_next w)
                (branch_ready (s2p "Analyzing audio...") (s2p ".wav") n data w))
      as (v' & w1' & Hv' & Hbr & _).
    rewrite Hv in Hv'. injection Hv' as <- <-.
    eexists _, _. split; [reflexivity|].
    destruct Hres as (Ht & Hvid & _).
    split; [exact Ht|]. split; [exact Hvid|].
    exact (branch_result_encodable _ _ _ _ _ Hgen Hbr).
  - eexists _, _. split; [reflexivity|exact Hres].
Qed.

(** The error dictionary comes from file handling alone.  When the
    temporary files can be created, written, closed and removed, the
    uploads can be read, the output file can be opened, written and closed
    and the texts of the service can be encoded, [analyze_content] returns
    a report, whichever inputs are supplied and whatever fails inside the
    branches: decoding, a read that raises, the conversion of a frame,
    librosa, the service. *)
Theorem branch_failures_stay_in_report (E : Env) (w : World)
    (video_file audio_file : option Upload) :
  temp_files_ok E ->
  output_ok E ->
  (forall u, video_file = Some u \/ audio_file = Some u ->
             exists data, up_read u = Ok data) ->
  (forall request text, env_generate E request = Ok text -> encodable text) ->
  exists r w',
    analyze_content E video_file audio_file w = (Ok (Results r), w').
Proof.
  intros Htmp Hout Hread Hgen.
  unfold analyze_content, try_except, bind at 1, run_branches, bind at 1, now.
  unfold bind at 1.
  destruct (video_branch_handled E video_file
              {| timestamp := isoformat (env_now E (w_clock w));
                 video_analysis := None; audio_analysis := None |}
              (set_clock (S (w_clock w)) w) Htmp)
    as (r1 & w1 & Hv & Henc1); [auto|exact Hgen| |].
  { split; [apply isoformat_encodable|]. split; exact I. }
  rewrite Hv. unfold bind at 1.
  destruct (audio_branch_handled E audio_file r1 w1 Htmp)
    as (r2 & w2 & Ha & Henc2); [auto|exact Hgen|exact Henc1|].
  rewrite Ha. unfold ret at 1. unfold bind at 1.
  destruct (save_results_ok E r2 w2 Hout Henc2) as (bytes & _ & Hsave).
  rewrite Hsave. unfold ret. eexists _, _. reflexivity.
Qed.

(** With a video on which a read raises and a service that answers. *)
Lemma branch_failures_stay_in_report_witness :
  exists r w',
    analyze_content read_raises_env (Some some_video) (Some some_audio)
      initial_world
    = (Ok (Results r), w').
Proof.
  apply (branch_failures_stay_in_report read_raises_env initial_world
           (Some some_video) (Some some_audio)).
  - repeat split. intros t data. eexists. reflexivity.
  - repeat split.
  - intros u [[= <-]|[= <-]]; eexists; reflexivity.
  - intros request text [= <-]. unfold nirapad. literal_encodable.
Defined.

(** ** A video without frames *)

(** On a capture without frames, [extract_frames] returns no frame and
    [analyze_video] sends the prompt alone. *)
Lemma analyze_video_no_frames E w path :
  vs_count (source_at E w path) <= 0
  \/ (forall i, vs_read (source_at E w path) i = NoFrame) ->
  extract_frames E path 10 w = (Ok [], capture_released w)
  /\ exists v w2,
       analyze_video E path w = (Ok v, w2)
       /\ w_calls w2 = w_calls w ++ [[PText video_prompt]]
       /\ (forall text,
             env_generate E [PText video_prompt] = Ok text -> v = Some text).
Proof.
  intros Hnone. apply sample_frames_nothing in Hnone.
  rewrite extract_frames_run, analyze_video_run, Hnone. simpl.
  split; [reflexivity|].
  destruct (env_generate E [PText video_prompt]) as [text|e] eqn:Hgen.
  - eexists _, _. repeat split. intros t Ht. congruence.
  - eexists _, _. repeat split. intros t Ht. discriminate.
Qed.

(** C10. When the capture reports no frame, or no visited frame decodes,
    [extract_frames] returns the empty list and [analyze_video] still sends
    one request to the inference service, made of the text prompt alone.
    What the service answers to it reaches the report: for an upload whose
    temporary file, as the capture finds it, gives no frame, when the files
    can be handled and the service's texts can be encoded,
    [analyze_content] returns the report with that answer as its
    [video_analysis], and the first request of the invocation is the prompt
    alone: no frame of the video was sent. *)
Theorem no_frames_still_analyzed (E : Env) :
  (forall (w : World) (path : nat),
     vs_count (source_at E w path) <= 0
     \/ (forall i, vs_read (source_at E w path) i = NoFrame) ->
     exists w1 v w2,
       extract_frames E path 10 w = (Ok [], w1)
       /\ analyze_video E path w = (Ok v, w2)
       /\ w_calls w2 = w_calls w ++ [[PText video_prompt]]
       /\ (forall text,
             env_generate E [PText video_prompt] = Ok text -> v = Some text))
  /\ (forall (w : World) (vf : Upload) (audio_file : option Upload)
        (vdata : list Z) (text : pystr),
        temp_files_ok E ->
        output_ok E ->
        up_read vf = Ok vdata ->
        (forall u, audio_file = Some u -> exists data, up_read u = Ok data) ->
        vs_count (env_decode_video E (seen E (w_tmp_next w) vdata)) <= 0
        \/ (forall i,
              vs_read (env_decode_video E (seen E (w_tmp_next w) vdata)) i
              = NoFrame) ->
        env_generate E [PText video_prompt] = Ok text ->
        (forall request answer,
           env_generate E request = Ok answer -> encodable answer) ->
        exists r w' rest,
          analyze_content E (Some vf) audio_file w = (Ok (Results r), w')
          /\ video_analysis r = Some text
          /\ w_calls w' = w_calls w ++ [PText video_prompt] :: rest).
Proof.
  split.
  - intros w path Hnone.
    destruct (analyze_video_no_frames E w path Hnone)
      as (Hframes & v & w2 & Hrun & Hcalls & Hv).
    exists (capture_released w), v, w2. repeat split; assumption.
  - intros w vf audio_file vdata text Htmp Hout Hvread Haread Hnone Hgen Henc.
    pose proof Htmp as (Hmk & Hwr & Hcl & Hun).
    destruct (Hwr (w_tmp_next w) vdata) as [n Hn].
    rewrite (seen_written _ _ _ _ Hn) in Hnone.
    set (w0 := set_clock (S (w_clock w)) w).
    set (r0 := {| timestamp := isoformat (env_now E (w_clock w));
                  video_analysis := None; audio_analysis := None |}).
    destruct (video_branch_run E vf vdata n r0 w0 (Hmk _) Hvread Hn)
      as (v & w1 & Hv & _ & Hvb).
    rewrite Hcl, Hun in Hvb.
    destruct (analyze_video_no_frames E
                (branch_ready (s2p "Analyzing video...") (s2p ".mp4") n vdata w0)
                (w_tmp_next w0))
      as (_ & v' & w1' & Hv' & Hcalls1 & Hans);
      [rewrite source_at_ready; exact Hnone|].
    rewrite Hv in Hv'. injection Hv' as <- <-.
    rewrite (Hans text Hgen) in Hvb.
    set (r1 := set_video_analysis (Some text) r0) in Hvb.
    set (w2 := tmp_removed (w_tmp_next w0) w1) in Hvb.
    assert (Henc1 : report_encodable r1).
    { split; [apply isoformat_encodable|].
      split; [exact (Henc _ _ Hgen)|exact I]. }
    destruct (audio_branch_handled E audio_file r1 w2 Htmp Haread Henc Henc1)
      as (r2 & w3 & Ha & Henc2).
    destruct (audio_branch_frame E audio_file r1 w2 _ _ Ha)
      as (_ & _ & (new & Hcalls3 & _) & Hr2).
    destruct (Hr2 r2 eq_refl) as (_ & Hvid & _).
    destruct (save_results_ok E r2 w3 Hout Henc2) as (bytes & _ & Hsave).
    unfold analyze_content, try_except, bind at 1, run_branches, bind at 1,
      now.
    fold w0 r0. unfold bind at 1. rewrite Hvb. unfold bind at 1. rewrite Ha.
    unfold ret at 1. unfold bind at 1. rewrite Hsave. unfold ret.
    eexists r2, _, new. split; [reflexivity|].
    split; [rewrite Hvid; reflexivity|].
    cbn [w_calls set_log set_out set_clock]. rewrite Hcalls3.
    change (w_calls w2) with (w_calls w1). rewrite Hcalls1.
    rewrite <- app_assoc. reflexivity.
Qed.

(** A short upload waits in the buffer of its temporary file while the
    capture is opened on the file, which is still empty: the answer to the
    text alone is the video analysis of the report. *)
Lemma no_frames_still_analyzed_witness :
  (exists w2,
     analyze_video buffered_env 0 initial_world = (Ok (Some nirapad), w2)
     /\ w_calls w2 = [[PText video_prompt]])
  /\ exists r w' rest,
       analyze_content buffered_env (Some some_video) (Some some_audio)
         initial_world
       = (Ok (Results r), w')
       /\ video_analysis r = Some nirapad
       /\ w_calls w' = [PText video_prompt] :: rest.
Proof.
  destruct (no_frames_still_analyzed buffered_env) as [Hsampler Hreport].
  split.
  - destruct (Hsampler initial_world 0%nat)
      as (w1 & v & w2 & _ & Hrun & Hcalls & Hv).
    + left. vm_compute. discriminate.
    + exists w2. rewrite Hrun, (Hv nirapad eq_refl). split; [reflexivity|].
      exact Hcalls.
  - apply (Hreport initial_world some_video (Some some_audio)
             [0; 0; 0; 24; 102; 116; 121; 112] nirapad).
    + repeat split. intros t data. eexists. reflexivity.
    + repeat split.
    + reflexivity.
    + intros u [= <-]. eexists. reflexivity.
    + left. vm_compute. discriminate.
    + reflexivity.
    + intros request answer [= <-]. unfold nirapad. literal_encodable.
Defined.

(** ** Two reports saved within one second *)

Lemma same_second_file t1 t2 :
  same_second t1 t2 -> output_file_at t1 = output_file_at t2.
Proof.
  intros (Hy & Hmo & Hd & Hh & Hmi & Hs).
  unfold output_file_at, strftime_compact.
  rewrite Hy, Hmo, Hd, Hh, Hmi, Hs. reflexivity.
Qed.

(** A call of [save_results] that returns: the path it gives, and the world
    it leaves. *)
Lemma save_results_returns E r w path w' :
  save_results E r w = (Ok path, w') ->
  path = output_file_at (env_now E (w_clock w))
  /\ w_clock w' = S (w_clock w)
  /\ exists bytes,
       utf8_encode (json_dumps (report_dict r)) = Some bytes
       /\ w_out w' = <[path := bytes]> (w_out w).
Proof.
  rewrite save_results_run. cbv zeta.
  destruct (env_open_w E _) as [e|]; [discriminate|].
  destruct (env_out_close E _ _) as [|n e]; [|discriminate].
  pose proof (written_clean E (output_file_at (env_now E (w_clock w))) []
                (json_iterencode (report_dict r))) as Hclean.
  destruct (written E _ [] (json_iterencode (report_dict r)))
    as [acc [e|]]; cbn [fst snd] in *; [discriminate|].
  destruct (Hclean eq_refl) as (bytes & Henc & ->).
  intros [= <- <-]. split; [reflexivity|]. split; [reflexivity|].
  exists bytes. split; [exact Henc|reflexivity].
Qed.

(** The name of the output file has the resolution of a second, and the
    file is opened for writing.  Two reports saved within the same second
    go to the same file: whenever both calls return, they return the same
    path, and afterwards the file holds the second report alone; the first
    one is no longer on disk.  Both calls do return when the output file
    can be opened, written and closed and the reports can be encoded. *)
Theorem same_second_overwrites (E : Env) (r1 r2 : report) (w : World) :
  same_second (env_now E (w_clock w)) (env_now E (S (w_clock w))) ->
  (forall path1 w1 path2 w2,
     save_results E r1 w = (Ok path1, w1) ->
     save_results E r2 w1 = (Ok path2, w2) ->
     path2 = path1
     /\ exists bytes,
          w_out w2 = <[path1 := bytes]> (w_out w)
          /\ load_report bytes = Some r2)
  /\ (output_ok E ->
      report_encodable r1 ->
      report_encodable r2 ->
      exists path w1 w2,
        save_results E r1 w = (Ok path, w1)
        /\ save_results E r2 w1 = (Ok path, w2)).
Proof.
  intros Hsame. split.
  - intros path1 w1 path2 w2 H1 H2.
    apply save_results_returns in H1, H2.
    destruct H1 as (Hp1 & Hc1 & bytes1 & _ & Ho1).
    destruct H2 as (Hp2 & _ & bytes2 & Henc2 & Ho2).
    assert (Hp : path2 = path1).
    { rewrite Hp2, Hp1, Hc1. symmetry. apply same_second_file, Hsame. }
    split; [exact Hp|]. exists bytes2.
    split; [|apply load_report_dumped; exact Henc2].
    rewrite Ho2, Ho1, Hp. apply insert_insert_eq.
  - intros Hout Hr1 Hr2.
    destruct (save_results_ok E r1 w Hout Hr1) as (b1 & _ & H1).
    set (w1 := set_log _ _) in H1.
    destruct (save_results_ok E r2 w1 Hout Hr2) as (b2 & _ & H2).
    replace (output_file_at (env_now E (w_clock w1)))
      with (output_file_at (env_now E (w_clock w))) in H2
      by apply same_second_file, Hsame.
    eexists _, _, _. split; [exact H1|exact H2].
Qed.

(** With a clock that stands still: the Bengali report, then an empty
    one. *)
Lemma same_second_overwrites_witness :
  exists path w1 w2 bytes,
    save_results calm_env bengali_report initial_world = (Ok path, w1)
    /\ save_results calm_env
         {| timestamp := timestamp bengali_report;
            video_analysis := None; audio_analysis := None |} w1
       = (Ok path, w2)
    /\ w_out w2 = <[path := bytes]> ∅
    /\ load_report bytes
       = Some {| timestamp := timestamp bengali_report;
                 video_analysis := None; audio_analysis := None |}.
Proof.
  destruct (same_second_overwrites calm_env bengali_report
              {| timestamp := timestamp bengali_report;
                 video_analysis := None; audio_analysis := None |}
              initial_world) as [Hover Hboth].
  - repeat split.
  - destruct Hboth as (path & w1 & w2 & H1 & H2).
    + repeat split.
    + split; [apply s2p_encodable|].
      split; [simpl; unfold nirapad; literal_encodable|exact I].
    + split; [apply s2p_encodable|]. split; exact I.
    + destruct (Hover path w1 path w2 H1 H2) as (_ & bytes & Hout & Hload).
      exists path, w1, w2, bytes. repeat split; assumption.
Defined.

(** ** The download format *)

Lemma json_items_with_plain first d :
  json_items_with json_escape_char first d = json_items first d.
Proof.
  revert first. induction d as [|[k v] d IH]; intros first; [reflexivity|].
  cbn [json_items_with json_items]. rewrite IH.
  destruct v; reflexivity.
Qed.

(** With the escapes of [ensure_ascii=False] the encoder is that of
    [save_results]. *)
Lemma json_iterencode_with_plain d :
  json_iterencode_with json_escape_char d = json_iterencode d.
Proof.
  destruct d as [|kv d]; [reflexivity|].
  unfold json_iterencode_with, json_iterencode.
  rewrite json_items_with_plain. reflexivity.
Qed.

Lemma hex_value_digit d :
  0 <= d < 16 -> hex_value (hex_digit d) = Some d.
Proof.
  intros Hd.
  assert (Hcases : exists n : nat, (n < 16)%nat /\ d = Z.of_nat n).
  { exists (Z.to_nat d). lia. }
  destruct Hcases as (n & Hn & ->).
  do 16 (destruct n as [|n]; [reflexivity|]). lia.
Qed.

Lemma hex4_codes_value u :
  0 <= u < 65536 ->
  hex4 (hex_digit (u / 4096 mod 16)) (hex_digit (u / 256 mod 16))
       (hex_digit (u / 16 mod 16)) (hex_digit (u mod 16)) = Some u.
Proof.
  intros Hu. unfold hex4.
  rewrite !hex_value_digit by (apply Z.mod_pos_bound; lia).
  f_equal.
  assert (H1 : u / 256 = u / 16 / 16) by (rewrite Z.div_div by lia; reflexivity).
  assert (H2 : u / 4096 = u / 16 / 16 / 16)
    by (rewrite !Z.div_div by lia; reflexivity).
  rewrite H1, H2.
  pose proof (Z.div_mod u 16 ltac:(lia)) as Hd1.
  pose proof (Z.div_mod (u / 16) 16 ltac:(lia)) as Hd2.
  pose proof (Z.div_mod (u / 16 / 16) 16 ltac:(lia)) as Hd3.
  assert (Hq3 : u / 16 / 16 / 16 < 16).
  { rewrite !Z.div_div by lia. apply Z.div_lt_upper_bound; lia. }
  assert (Hq4 : 0 <= u / 16 / 16 / 16) by (repeat apply Z.div_pos; lia).
  rewrite (Z.mod_small (u / 16 / 16 / 16) 16) by lia.
  lia.
Qed.

(** A [\uXXXX] escape that is not a high surrogate is read as its
    character. *)
Lemma scan_u_escape u tail :
  0 <= u < 65536 ->
  is_high_surrogate u = false ->
  scan_string ([92; 117] ++ hex4_codes u ++ tail) = push u (scan_string tail).
Proof.
  intros Hu Hhigh. unfold hex4_codes. cbn [app scan_string].
  change (92 =? 34) with false. change (92 =? 92) with true.
  change (117 =? 117) with true. cbv iota.
  rewrite (hex4_codes_value u Hu), Hhigh. reflexivity.
Qed.

(** A surrogate pair of [\uXXXX] escapes is read as one character. *)
Lemma scan_u_pair s1 s2 tail :
  55296 <= s1 <= 56319 ->
  56320 <= s2 <= 57343 ->
  scan_string ([92; 117] ++ hex4_codes s1 ++ [92; 117] ++ hex4_codes s2 ++ tail)
  = push (65536 + (s1 - 55296) * 1024 + (s2 - 56320)) (scan_string tail).
Proof.
  intros H1 H2. unfold hex4_codes. cbn [app scan_string].
  change (92 =? 34) with false. change (92 =? 92) with true.
  change (117 =? 117) with true. cbv iota. cbn [andb].
  rewrite (hex4_codes_value s1 ltac:(lia)), (hex4_codes_value s2 ltac:(lia)).
  unfold is_high_surrogate, is_low_surrogate.
  destruct (Z.leb_spec 55296 s1); [|lia].
  destruct (Z.leb_spec s1 56319); [|lia].
  destruct (Z.leb_spec 56320 s2); [|lia].
  destruct (Z.leb_spec s2 57343); [|lia].
  reflexivity.
Qed.

(** [base | x] adds [x] to a base whose low ten bits are clear. *)
Lemma lor_low_bits a x :
  0 <= x < 1024 -> Z.lor (a * 2 ^ 10) x = a * 2 ^ 10 + x.
Proof.
  intros Hx. rewrite <- Z.add_lor_land.
  assert (Hland : Z.land (a * 2 ^ 10) x = 0).
  { apply Z.bits_inj'. intros n Hn.
    rewrite Z.land_spec, Z.bits_0.
    destruct (Z.lt_ge_cases n 10) as [Hlow|Hhigh].
    - rewrite Z.mul_pow2_bits_low by lia. reflexivity.
    - rewrite <- (Z.mod_small x (2 ^ 10)) by lia.
      rewrite Z.mod_pow2_bits_high by lia. apply andb_false_r. }
  rewrite Hland. lia.
Qed.

Lemma surrogates_of c :
  65536 <= c < 1114112 ->
  Z.lor 55296 (Z.land (Z.shiftr (c - 65536) 10) 1023)
  = 55296 + (c - 65536) / 1024
  /\ Z.lor 56320 (Z.land (c - 65536) 1023) = 56320 + (c - 65536) mod 1024.
Proof.
  intros Hc.
  change 1023 with (Z.ones 10). rewrite !Z.land_ones by lia.
  rewrite Z.shiftr_div_pow2 by lia. change (2 ^ 10) with 1024.
  assert (Hq : 0 <= (c - 65536) / 1024 < 1024).
  { split; [apply Z.div_pos; lia|apply Z.div_lt_upper_bound; lia]. }
  rewrite (Z.mod_small ((c - 65536) / 1024) 1024) by lia.
  pose proof (Z.mod_pos_bound (c - 65536) 1024 ltac:(lia)) as Hm.
  change 55296 with (54 * 2 ^ 10) at 1. change 56320 with (55 * 2 ^ 10) at 1.
  rewrite !lor_low_bits by lia. split; reflexivity.
Qed.

Lemma encodable_char_range c :
  encodable_char c -> 0 <= c < 1114112 /\ ~ (55296 <= c < 57344).
Proof.
  unfold encodable_char, utf8_encode_char. intros Hc.
  destruct (Z.leb_spec 0 c), (Z.ltb_spec c 128); cbn [andb] in Hc; try lia.
  - destruct (Z.leb_spec 128 c), (Z.ltb_spec c 2048); cbn [andb] in Hc;
      try lia.
    destruct (Z.leb_spec 2048 c), (Z.ltb_spec c 65536); cbn [andb] in Hc;
      try lia.
    + destruct (Z.leb_spec 55296 c), (Z.ltb_spec c 57344); cbn [andb] in Hc;
        try lia; contradiction.
    + destruct (Z.leb_spec 65536 c), (Z.ltb_spec c 1114112); cbn [andb] in Hc;
        try lia; contradiction.
  - destruct (Z.leb_spec 128 c), (Z.ltb_spec c 2048); cbn [andb] in Hc;
      try lia.
    destruct (Z.leb_spec 2048 c), (Z.ltb_spec c 65536); cbn [andb] in Hc;
      try lia.
    destruct (Z.leb_spec 65536 c), (Z.ltb_spec c 1114112); cbn [andb] in Hc;
      try lia; contradiction.
Qed.

Lemma scan_escape_char_ascii c tail :
  encodable_char c ->
  scan_string (json_escape_char_ascii c ++ tail) = push c (scan_string tail).
Proof.
  intros Hc. apply encodable_char_range in Hc as (Hrange & Hsurr).
  unfold json_escape_char_ascii.
  destruct (Z.eqb_spec c 34) as [->|H34]; [reflexivity|].
  destruct (Z.eqb_spec c 92) as [->|H92]; [reflexivity|].
  destruct (Z.eqb_spec c 8) as [->|H8]; [reflexivity|].
  destruct (Z.eqb_spec c 12) as [->|H12]; [reflexivity|].
  destruct (Z.eqb_spec c 10) as [->|H10]; [reflexivity|].
  destruct (Z.eqb_spec c 13) as [->|H13]; [reflexivity|].
  destruct (Z.eqb_spec c 9) as [->|H9]; [reflexivity|].
  destruct ((32 <=? c) && (c <=? 126)) eqn:Hprint.
  - apply andb_prop in Hprint as [Ha Hb].
    apply Z.leb_le in Ha. apply Z.leb_le in Hb.
    cbn [app scan_string].
    destruct (Z.eqb_spec c 34); [contradiction|].
    destruct (Z.eqb_spec c 92); [contradiction|].
    destruct (Z.leb_spec 0 c); [|lia].
    destruct (Z.ltb_spec c 32); [lia|]. reflexivity.
  - destruct (Z.ltb_spec c 65536) as [Hlow|Hhigh].
    + rewrite <- app_assoc. apply scan_u_escape; [lia|].
      unfold is_high_surrogate.
      destruct (Z.leb_spec 55296 c); [|reflexivity].
      destruct (Z.leb_spec c 56319); [lia|reflexivity].
    + cbv zeta.
      destruct (surrogates_of c ltac:(lia)) as [-> ->].
      pose proof (Z.div_mod (c - 65536) 1024 ltac:(lia)) as Hdm.
      pose proof (Z.mod_pos_bound (c - 65536) 1024 ltac:(lia)) as Hm.
      assert (Hq : 0 <= (c - 65536) / 1024 < 1024).
      { split; [apply Z.div_pos; lia|apply Z.div_lt_upper_bound; lia]. }
      rewrite <- !app_assoc.
      rewrite (scan_u_pair _ _ tail) by lia.
      f_equal. lia.
Qed.

Lemma scan_string_ascii s rest :
  encodable s ->
  scan_string (concat (map json_escape_char_ascii s) ++ 34 :: rest)
  = Some (s, rest).
Proof.
  induction 1 as [|c s Hc Hs IH]; [reflexivity|].
  cbn [map concat]. rewrite <- app_assoc, (scan_escape_char_ascii c _ Hc), IH.
  reflexivity.
Qed.

Lemma encode_string_with_cons esc s rest :
  encode_string_with esc s ++ rest = 34 :: concat (map esc s) ++ 34 :: rest.
Proof.
  unfold encode_string_with. cbn [app]. rewrite <- app_assoc. reflexivity.
Qed.

Lemma parse_value_ascii v rest :
  encodable_opt (jvalue_opt v) ->
  parse_value (json_value_with json_escape_char_ascii v ++ rest)
  = Some (v, rest).
Proof.
  destruct v as [|s]; [reflexivity|]. intros Hs.
  cbn [json_value_with]. rewrite encode_string_with_cons. cbn [parse_value].
  rewrite (scan_string_ascii s rest Hs). reflexivity.
Qed.

Lemma skip_ws_value_with esc v rest :
  skip_ws (json_value_with esc v ++ rest) = json_value_with esc v ++ rest.
Proof.
  destruct v as [|s]; reflexivity.
Qed.

Lemma json_items_with_more esc k v tl :
  concat (json_items_with esc false ((k, v) :: tl))
  = [44; 10; 32; 32] ++ encode_string_with esc k ++ [58; 32]
    ++ json_value_with esc v ++ concat (json_items_with esc false tl).
Proof.
  cbn [json_items_with app concat]. reflexivity.
Qed.

Lemma parse_members_ascii tl k v fuel rest :
  encodable_dict ((k, v) :: tl) ->
  (length tl < fuel)%nat ->
  parse_members fuel
    (encode_string_with json_escape_char_ascii k
     ++ 58 :: 32 :: json_value_with json_escape_char_ascii v
     ++ concat (json_items_with json_escape_char_ascii false tl)
     ++ 10 :: 125 :: rest)
  = Some ((k, v) :: tl, rest).
Proof.
  revert k v fuel.
  induction tl as [|[k' v'] tl IH]; intros k v fuel Hd Hfuel;
    (destruct fuel as [|fuel]; [simpl in Hfuel; lia|]);
    apply List.Forall_cons_iff in Hd as [[Hk Hv] Htl]; cbn [fst snd] in Hk, Hv;
    rewrite encode_string_with_cons; cbn [parse_members];
    rewrite (scan_string_ascii k _ Hk);
    cbn [app skip_ws is_ws Z.eqb orb Pos.eqb];
    rewrite skip_ws_value_with, (parse_value_ascii v _ Hv).
  - reflexivity.
  - rewrite json_items_with_more. rewrite <- !app_assoc.
    cbn [app skip_ws is_ws Z.eqb orb Pos.eqb].
    rewrite encode_string_with_cons.
    cbn [skip_ws is_ws Z.eqb orb Pos.eqb].
    rewrite <- encode_string_with_cons.
    rewrite (IH k' v' fuel Htl); [reflexivity|]. simpl in Hfuel. lia.
Qed.

Lemma json_items_with_length esc tl :
  (length tl <= length (concat (json_items_with esc false tl)))%nat.
Proof.
  induction tl as [|[k v] tl IH]; [simpl; lia|].
  rewrite json_items_with_more, !length_app. simpl. lia.
Qed.

Lemma json_dumps_ascii_members k v tl :
  json_dumps_ascii ((k, v) :: tl)
  = [123; 10; 32; 32]
    ++ (encode_string_with json_escape_char_ascii k
        ++ 58 :: 32 :: json_value_with json_escape_char_ascii v
        ++ concat (json_items_with json_escape_char_ascii false tl)
        ++ 10 :: 125 :: []).
Proof.
  unfold json_dumps_ascii, json_iterencode_with.
  cbn [json_items_with app concat]. rewrite !concat_app.
  cbn [concat app]. rewrite <- ?app_assoc. reflexivity.
Qed.

(** Parsing what [json.dumps] gave returns the dictionary. *)
Lemma json_loads_dumps_ascii d :
  encodable_dict d -> json_loads (json_dumps_ascii d) = Some d.
Proof.
  destruct d as [|[k v] tl]; [reflexivity|]. intros Hd.
  rewrite json_dumps_ascii_members. unfold json_loads.
  cbn [app skip_ws is_ws Z.eqb orb Pos.eqb].
  rewrite encode_string_with_cons.
  cbn [skip_ws is_ws Z.eqb orb Pos.eqb].
  rewrite <- encode_string_with_cons.
  rewrite (parse_members_ascii _ _ _ _ _ Hd); [reflexivity|].
  pose proof (json_items_with_length json_escape_char_ascii tl).
  repeat (rewrite length_app || cbn [length]). lia.
Qed.

Lemma hex_digit_plain n : plain_ascii (hex_digit (n mod 16)).
Proof.
  pose proof (Z.mod_pos_bound n 16 ltac:(lia)) as Hm.
  unfold plain_ascii, hex_digit.
  destruct (Z.ltb_spec (n mod 16) 10); lia.
Qed.

Lemma hex4_codes_plain n : Forall plain_ascii (hex4_codes n).
Proof.
  unfold hex4_codes. repeat (apply List.Forall_cons; [apply hex_digit_plain|]).
  apply List.Forall_nil.
Qed.

Ltac literal_plain :=
  match goal with
  | |- Forall plain_ascii ?l =>
      let l' := eval vm_compute in l in change (Forall plain_ascii l')
  end;
  repeat (apply List.Forall_cons; [unfold plain_ascii; lia|]);
  apply List.Forall_nil.

Lemma json_escape_char_ascii_plain c :
  Forall plain_ascii (json_escape_char_ascii c).
Proof.
  unfold json_escape_char_ascii.
  repeat match goal with
         | |- context [if ?a =? ?b then _ else _] =>
             destruct (Z.eqb_spec a b); [literal_plain|]
         end.
  destruct ((32 <=? c) && (c <=? 126)) eqn:Hprint.
  - apply andb_prop in Hprint as [Ha Hb].
    apply Z.leb_le in Ha. apply Z.leb_le in Hb. literal_plain.
  - destruct (c <? 65536); cbv zeta;
      repeat (apply Forall_app; split);
      first [apply hex4_codes_plain | literal_plain].
Qed.

Lemma encode_string_ascii_plain s :
  Forall plain_ascii (encode_string_with json_escape_char_ascii s).
Proof.
  unfold encode_string_with.
  apply Forall_app; split; [literal_plain|].
  apply Forall_app; split; [|literal_plain].
  induction s as [|c s IH]; [constructor|].
  cbn [map concat]. apply Forall_app; split;
    [apply json_escape_char_ascii_plain|exact IH].
Qed.

Lemma s2p_null_plain : Forall plain_ascii (s2p "null").
Proof. literal_plain. Qed.

Lemma json_items_ascii_plain first d :
  Forall plain_ascii (concat (json_items_with json_escape_char_ascii first d)).
Proof.
  revert first. induction d as [|[k v] d IH]; intros first; [constructor|].
  cbn [json_items_with]. rewrite !concat_app.
  apply Forall_app; split.
  { destruct first; [constructor|literal_plain]. }
  apply Forall_app; split; [|apply IH].
  cbn [concat]. apply Forall_app; split; [apply encode_string_ascii_plain|].
  apply Forall_app; split; [literal_plain|].
  rewrite app_nil_r.
  destruct v as [|s]; [apply s2p_null_plain|apply encode_string_ascii_plain].
Qed.

(** What [json.dumps] gives is plain ASCII, whatever the strings hold. *)
Lemma json_dumps_ascii_plain d : Forall plain_ascii (json_dumps_ascii d).
Proof.
  unfold json_dumps_ascii, json_iterencode_with.
  destruct d as [|kv d]; [literal_plain|].
  rewrite !concat_app.
  apply Forall_app; split; [literal_plain|].
  apply Forall_app; split; [apply json_items_ascii_plain|literal_plain].
Qed.

Lemma report_dict_encodable r :
  report_encodable r -> encodable_dict (report_dict r).
Proof.
  intros (Ht & Hv & Ha). unfold encodable_dict, report_dict.
  repeat (apply List.Forall_cons;
          [split; [apply s2p_encodable|cbn [snd]]|]);
    [exact Ht|destruct (video_analysis r); exact Hv
    |destruct (audio_analysis r); exact Ha|apply List.Forall_nil].
Qed.

(** ** A returned report can be encoded *)

Lemma encodable_app_inv a b : encodable (a ++ b) -> encodable a /\ encodable b.
Proof. intros H. apply Forall_app in H. exact H. Qed.

Lemma escaped_encodable_inv c :
  encodable (json_escape_char c) -> encodable_char c.
Proof.
  unfold json_escape_char.
  destruct (Z.eqb_spec c 34) as [->|_]; [intros _; apply small_encodable; lia|].
  destruct (Z.eqb_spec c 92) as [->|_]; [intros _; apply small_encodable; lia|].
  destruct (Z.eqb_spec c 8) as [->|_]; [intros _; apply small_encodable; lia|].
  destruct (Z.eqb_spec c 12) as [->|_]; [intros _; apply small_encodable; lia|].
  destruct (Z.eqb_spec c 10) as [->|_]; [intros _; apply small_encodable; lia|].
  destruct (Z.eqb_spec c 13) as [->|_]; [intros _; apply small_encodable; lia|].
  destruct (Z.eqb_spec c 9) as [->|_]; [intros _; apply small_encodable; lia|].
  destruct ((0 <=? c) && (c <? 32)) eqn:Hctl.
  - intros _. apply andb_prop in Hctl as [Ha Hb].
    apply Z.leb_le in Ha. apply Z.ltb_lt in Hb. apply small_encodable. lia.
  - intros H. apply List.Forall_cons_iff in H as [H _]. exact H.
Qed.

Lemma encode_basestring_encodable_inv s :
  encodable (encode_basestring s) -> encodable s.
Proof.
  unfold encode_basestring. intros H.
  apply encodable_app_inv in H as [_ H].
  apply encodable_app_inv in H as [H _].
  induction s as [|c s IH]; [constructor|].
  cbn [map concat] in H. apply encodable_app_inv in H as [Hc Hs].
  constructor; [apply escaped_encodable_inv, Hc|apply IH, Hs].
Qed.

Lemma encode_none_not_encodable s : utf8_encode s = None -> ~ encodable s.
Proof.
  intros Hnone Henc. exact (encodable_encode s Henc Hnone).
Qed.

Lemma utf8_encode_encodable s bytes : utf8_encode s = Some bytes -> encodable s.
Proof.
  revert bytes. induction s as [|c s IH]; intros bytes; [constructor|].
  cbn [utf8_encode].
  destruct (utf8_encode_char c) as [b|] eqn:Hc; [|discriminate].
  destruct (utf8_encode s) as [bs|]; [|discriminate]. intros _.
  constructor; [unfold encodable_char; rewrite Hc; discriminate|].
  exact (IH bs eq_refl).
Qed.

Lemma written_encodable E path acc chunks :
  (written E path acc chunks).2 = None -> Forall encodable chunks.
Proof.
  revert acc. induction chunks as [|c rest IH]; intros acc; [constructor|].
  cbn [written].
  destruct (utf8_encode c) as [b|] eqn:Hc; [|discriminate].
  destruct (env_out_write E path acc b) as [[n e]|]; [discriminate|].
  intros Hrest.
  constructor; [exact (utf8_encode_encodable c b Hc)|exact (IH _ Hrest)].
Qed.

Lemma json_value_encodable_inv o :
  encodable (json_value (jopt o)) -> encodable_opt o.
Proof.
  destruct o as [s|]; [apply encode_basestring_encodable_inv|intros _; exact I].
Qed.

(** A report whose chunks were all written is made of strings UTF-8 can
    encode. *)
Lemma written_report_encodable E path acc r :
  (written E path acc (json_iterencode (report_dict r))).2 = None ->
  report_encodable r.
Proof.
  intros Hok. apply written_encodable in Hok.
  unfold json_iterencode, report_dict in Hok. cbn [json_items app] in Hok.
  repeat match goal with
         | H : Forall encodable (_ :: _) |- _ =>
             apply List.Forall_cons_iff in H;
             let Hx := fresh "Hx" in destruct H as [Hx H]
         end.
  split; [apply encode_basestring_encodable_inv; assumption|].
  split; apply json_value_encodable_inv; assumption.
Qed.

Lemma saved_report_encodable E r w path w' :
  save_results E r w = (Ok path, w') -> report_encodable r.
Proof.
  rewrite save_results_run. cbv zeta.
  destruct (env_open_w E _); [discriminate|].
  destruct (env_out_close E _ _); [|discriminate].
  destruct (written E _ [] (json_iterencode (report_dict r))).2 eqn:Hok;
    [discriminate|].
  intros _. exact (written_report_encodable _ _ _ r Hok).
Qed.

Lemma returned_report_encodable E v a w r w' :
  analyze_content E v a w = (Ok (Results r), w') -> report_encodable r.
Proof.
  unfold analyze_content, try_except, bind at 1.
  destruct (run_branches E v a w) as [[r0|e] w1].
  - unfold bind at 1.
    destruct (save_results E r0 w1) as [[path|e] w2] eqn:Hsave.
    + unfold ret. intros [= <- <-].
      exact (saved_report_encodable _ _ _ _ _ Hsave).
    + unfold bind, log_error, modify, ret. discriminate.
  - unfold bind, log_error, modify, ret. discriminate.
Qed.

Lemma analyze_content_total E v a w :
  exists out w', analyze_content E v a w = (Ok out, w').
Proof.
  apply try_except_total. intros e w1. run_m. eauto.
Qed.

(** ** A run of the script *)

Ltac run_ui :=
  unfold ui_bind, ui_ret, draw, session_default, session_contains,
    session_set, session_get, st_text_input, st_file_uploader, st_button,
    in_world in *.

Lemma show_analysis_run heading analysis a :
  show_analysis heading analysis a
  = (Ok tt, mkApp (app_world a) (app_session a)
              (app_page a ++ analysis_elements heading analysis)).
Proof.
  unfold show_analysis, analysis_elements.
  destruct analysis as [text|]; [destruct (str_truthy text)|];
    run_ui; cbn [app_world app_session app_page];
    rewrite <- ?app_assoc, ?app_nil_r; destruct a; reflexivity.
Qed.

(** The results column, by what the session holds. *)
Lemma column2_run E a :
  column2 E a =
  match app_session a !! "results" with
  | None =>
      (Raise (Exn "AttributeError" "st.session_state has no attribute results"),
       mkApp (app_world a) (app_session a) (app_page a ++ [results_heading]))
  | Some (SDict (Results r)) =>
      (Ok tt,
       mkApp (set_clock (S (w_clock (app_world a))) (app_world a))
         (app_session a)
         (app_page a ++ results_heading
            :: report_elements r (env_now E (w_clock (app_world a)))))
  | Some _ =>
      (Ok tt,
       mkApp (app_world a) (app_session a) (app_page a ++ [results_heading]))
  end.
Proof.
  unfold column2. unfold ui_bind at 1. unfold draw at 1.
  unfold ui_bind at 1. unfold session_get at 1.
  cbn [app_world app_session app_page].
  destruct (app_session a !! "results") as [[|[r|msg]]|]; try reflexivity.
  unfold ui_bind at 1. unfold draw at 1.
  unfold ui_bind at 1. rewrite show_analysis_run.
  unfold ui_bind at 1. rewrite show_analysis_run.
  unfold ui_bind at 1. unfold in_world, now, draw.
  cbn [app_world app_session app_page].
  unfold report_elements. rewrite <- !app_assoc. reflexivity.
Qed.

Lemma session_default_run key a :
  session_default key a
  = (Ok tt, mkApp (app_world a) (with_default key (app_session a)) (app_page a)).
Proof.
  unfold session_default, with_default. run_ui.
  destruct (app_session a !! key); destruct a; reflexivity.
Qed.

(** A run up to the button. *)
Lemma main_run P E wg a :
  main P E wg a =
  ui_bind (if wg_pressed wg
           then on_press P E (wg_api_key wg) (wg_video wg) (wg_audio wg)
           else ui_ret tt)
          (fun _ => column2 E)
          (mkApp (app_world a) (session_init (app_session a))
             (app_page a ++ static_elements wg)).
Proof.
  unfold main. do 3 (unfold ui_bind at 1; unfold draw at 1).
  do 2 (unfold ui_bind at 1; rewrite session_default_run).
  cbv beta iota zeta delta [sidebar column1 ui_bind draw st_text_input
    st_file_uploader st_button ui_ret app_world app_session app_page].
  rewrite <- !app_assoc. reflexivity.
Qed.

Lemma session_init_results s :
  exists v, session_init s !! "results" = Some v
            /\ session_report (session_init s) = session_report s.
Proof.
  unfold session_init, session_report, with_default.
  destruct (s !! "results") as [v|] eqn:Hres.
  - destruct (s !! "results_file") eqn:Hfile.
    + exists v. rewrite Hres. split; reflexivity.
    + exists v. rewrite lookup_insert_ne by discriminate. rewrite Hres.
      split; reflexivity.
  - destruct (<[ "results" := SNone ]> s !! "results_file") eqn:Hfile.
    + exists SNone. rewrite lookup_insert_eq. split; reflexivity.
    + exists SNone. rewrite lookup_insert_ne by discriminate.
      rewrite lookup_insert_eq. split; reflexivity.
Qed.

(** The body of the button, by what the constructor and the analysis
    answer. *)
Lemma on_press_run P E key v au a :
  on_press P E key v au a =
  if str_truthy key then
    match __init__ P key (app_world a) with
    | (Raise e, w0) => (Raise e, mkApp w0 (app_session a) (app_page a))
    | (Ok _, w0) =>
        match analyze_content E v au w0 with
        | (Raise e, w1) => (Raise e, mkApp w1 (app_session a) (app_page a))
        | (Ok (Results r), w1) =>
            (Ok tt,
             mkApp w1 (<["results" := SDict (Results r)]> (app_session a))
               (app_page a
                ++ [(Column1, StSuccess (s2p "Analysis complete!"))]))
        | (Ok (ErrorResult msg), w1) =>
            (Ok tt,
             mkApp w1 (<["results" := SDict (ErrorResult msg)]> (app_session a))
               (app_page a
                ++ [(Column1, StError (s2p "Analysis failed: " ++ msg))]))
        end
    end
  else
    (Ok tt,
     mkApp (app_world a) (app_session a)
       (app_page a
        ++ [(Column1, StWarning (s2p "Please enter your Gemini API key"))])).
Proof.
  unfold on_press. destruct (str_truthy key); [|reflexivity].
  unfold ui_bind at 1. unfold in_world at 1.
  destruct (__init__ P key (app_world a)) as [[[]|e] w0]; [|reflexivity].
  unfold ui_bind at 1. unfold in_world at 1. cbn [app_world app_session app_page].
  destruct (analyze_content E v au w0) as [[[r|msg]|e] w1]; [| |reflexivity].
  - unfold ui_bind, session_set, session_get, draw.
    cbn [app_world app_session app_page]. rewrite lookup_insert_eq. reflexivity.
  - unfold ui_bind, session_set, session_get, draw.
    cbn [app_world app_session app_page]. rewrite lookup_insert_eq. reflexivity.
Qed.

(** The constructor leaves the world alone. *)
Lemma init_run P key w :
  __init__ P key w
  = (match pf_genai P key with
     | Some e => Raise e
     | None =>
         match pf_makedirs P output_dir with
         | Some e => Raise e
         | None => Ok tt
         end
     end, w).
Proof.
  unfold __init__, bind, check.
  destruct (pf_genai P key); [reflexivity|].
  destruct (pf_makedirs P output_dir); reflexivity.
Qed.

Lemma app_eta a : mkApp (app_world a) (app_session a) (app_page a) = a.
Proof. destruct a. reflexivity. Qed.

Lemma set_clock_same w : set_clock (w_clock w) w = w.
Proof. destruct w. reflexivity. Qed.

Lemma session_report_insert s d :
  session_report (<["results" := SDict d]> s)
  = match d with
    | Results r => Some r
    | ErrorResult _ => None
    end.
Proof.
  unfold session_report. rewrite lookup_insert_eq. destruct d; reflexivity.
Qed.

(** The results column on a session that holds the key: what is drawn is
    the heading, then the report the session holds, if any. *)
Lemma column2_shows E a v :
  app_session a !! "results" = Some v ->
  column2 E a
  = (Ok tt,
     match session_report (app_session a) with
     | Some r =>
         mkApp (set_clock (S (w_clock (app_world a))) (app_world a))
           (app_session a)
           (app_page a ++ results_heading
              :: report_elements r (env_now E (w_clock (app_world a))))
     | None =>
         mkApp (app_world a) (app_session a) (app_page a ++ [results_heading])
     end).
Proof.
  intros Hv. rewrite column2_run. unfold session_report. rewrite Hv.
  destruct v as [|[r|msg]]; reflexivity.
Qed.

(** An analysis runs only when the button reports a press and a key has
    been typed.  Otherwise the run ends normally and touches nothing of the
    world but the clock: no temporary file, no output file, no request, no
    log record; and the session holds the report it held. *)
Theorem analysis_needs_press_and_key (P : Platform) (E : Env) (wg : Widgets)
    (a : App) :
  wg_pressed wg = false \/ wg_api_key wg = [] ->
  exists a',
    main P E wg a = (Ok tt, a')
    /\ app_world a' = set_clock (w_clock (app_world a')) (app_world a)
    /\ session_report (app_session a') = session_report (app_session a).
Proof.
  intros Hidle. rewrite main_run.
  destruct (session_init_results (app_session a)) as (v & Hv & Hrep).
  assert (Hstep :
    exists extra,
      (if wg_pressed wg
       then on_press P E (wg_api_key wg) (wg_video wg) (wg_audio wg)
       else ui_ret tt)
        (mkApp (app_world a) (session_init (app_session a))
           (app_page a ++ static_elements wg))
      = (Ok tt, mkApp (app_world a) (session_init (app_session a))
                  ((app_page a ++ static_elements wg) ++ extra))).
  { destruct (wg_pressed wg).
    - destruct Hidle as [Hp|Hkey]; [discriminate|].
      rewrite on_press_run, Hkey. eexists. reflexivity.
    - exists []. rewrite app_nil_r. reflexivity. }
  destruct Hstep as (extra & Hstep).
  unfold ui_bind. rewrite Hstep.
  rewrite (column2_shows E (mkApp (app_world a) (session_init (app_session a)) _)
             v Hv).
  cbn [app_world app_session app_page].
  rewrite Hrep.
  destruct (session_report (app_session a)) as [r|];
    eexists; (split; [reflexivity|]); cbn [app_world app_session];
    (split; [|exact Hrep]).
  - reflexivity.
  - symmetry. apply set_clock_same.
Qed.

(** First run, nothing typed, nothing pressed. *)
Lemma analysis_needs_press_and_key_witness :
  exists a',
    main ready_platform calm_env idle_widgets initial_app = (Ok tt, a')
    /\ app_world a' = initial_world.
Proof.
  destruct (analysis_needs_press_and_key ready_platform calm_env idle_widgets
              initial_app (or_introl eq_refl)) as (a' & Hrun & Hworld & _).
  exists a'. split; [exact Hrun|].
  pose proof Hrun as Hval. vm_compute in Hval. injection Hval as <-.
  reflexivity.
Defined.

(** The four ways a run goes: no press; a press without a key; a press on
    which the constructor raises; a press on which the analysis runs. *)
Lemma main_outcomes P E wg a :
  (wg_pressed wg = false
   /\ main P E wg a
      = column2 E (mkApp (app_world a) (session_init (app_session a))
                     (app_page a ++ static_elements wg)))
  \/ (wg_pressed wg = true /\ wg_api_key wg = []
      /\ main P E wg a
         = column2 E
             (mkApp (app_world a) (session_init (app_session a))
                (app_page a ++ static_elements wg
                 ++ [(Column1,
                      StWarning (s2p "Please enter your Gemini API key"))])))
  \/ (wg_pressed wg = true /\ wg_api_key wg <> []
      /\ exists e,
           __init__ P (wg_api_key wg) (app_world a) = (Raise e, app_world a)
           /\ main P E wg a
              = (Raise e,
                 mkApp (app_world a) (session_init (app_session a))
                   (app_page a ++ static_elements wg)))
  \/ (wg_pressed wg = true /\ wg_api_key wg <> []
      /\ __init__ P (wg_api_key wg) (app_world a) = (Ok tt, app_world a)
      /\ exists d w1,
           analyze_content E (wg_video wg) (wg_audio wg) (app_world a)
           = (Ok d, w1)
           /\ main P E wg a
              = column2 E
                  (mkApp w1
                     (<["results" := SDict d]> (session_init (app_session a)))
                     (app_page a ++ static_elements wg
                      ++ [outcome_element d]))).
Proof.
  rewrite main_run. destruct (wg_pressed wg).
  - unfold ui_bind. rewrite on_press_run.
    destruct (wg_api_key wg) as [|c key] eqn:Hkey;
      cbn [str_truthy app_world app_session app_page].
    + right. left. rewrite <- app_assoc. repeat split.
    + right. right. rewrite init_run.
      destruct (match pf_genai P (c :: key) with
                | Some e => Raise e
                | None => match pf_makedirs P output_dir with
                          | Some e => Raise e
                          | None => Ok tt
                          end
                end) as [[]|e].
      * right. split; [reflexivity|]. split; [discriminate|].
        split; [reflexivity|].
        destruct (analyze_content_total E (wg_video wg) (wg_audio wg)
                    (app_world a)) as (d & w1 & Hrun).
        exists d, w1. split; [exact Hrun|]. rewrite Hrun.
        destruct d; rewrite <- app_assoc; reflexivity.
      * left. split; [reflexivity|]. split; [discriminate|].
        exists e. split; reflexivity.
  - left. split; reflexivity.
Qed.

Lemma static_elements_inert wg e :
  In e (static_elements wg) ->
  ~ is_warning e /\ forall data, ~ is_download e data.
Proof.
  unfold static_elements. cbn [In]. intros Hin.
  repeat (destruct Hin as [<-|Hin];
          [split; [intros (? & [=])|intros ? (? & ? & ? & [=])]|]).
  contradiction.
Qed.

Lemma analysis_elements_inert heading analysis e :
  In e (analysis_elements heading analysis) ->
  ~ is_warning e /\ forall data, ~ is_download e data.
Proof.
  unfold analysis_elements.
  destruct analysis as [text|]; [destruct (str_truthy text)|];
    cbn [In]; intros Hin;
    repeat (destruct Hin as [<-|Hin];
            [split; [intros (? & [=])|intros ? (? & ? & ? & [=])]|]);
    contradiction.
Qed.

Lemma report_elements_items r t e :
  In e (report_elements r t) ->
  ~ is_warning e
  /\ forall data, is_download e data -> data = json_dumps_ascii (report_dict r).
Proof.
  unfold report_elements. intros Hin.
  apply in_app_or in Hin as [Hin|Hin].
  { cbn [In] in Hin. destruct Hin as [<-|[]].
    split; [intros (? & [=])|intros ? (? & ? & ? & [=])]. }
  apply in_app_or in Hin as [Hin|Hin].
  { apply analysis_elements_inert in Hin as [Hw Hd].
    split; [exact Hw|]. intros data Hdl. destruct (Hd data Hdl). }
  apply in_app_or in Hin as [Hin|Hin].
  { apply analysis_elements_inert in Hin as [Hw Hd].
    split; [exact Hw|]. intros data Hdl. destruct (Hd data Hdl). }
  cbn [In] in Hin. destruct Hin as [<-|[]].
  split; [intros (? & [=])|].
  intros data (? & ? & ? & [= _ <- _ _]). reflexivity.
Qed.

Lemma outcome_element_inert d :
  ~ is_warning (outcome_element d)
  /\ forall data, ~ is_download (outcome_element d) data.
Proof.
  destruct d; (split; [intros (? & [=])|intros ? (? & ? & ? & [=])]).
Qed.

Lemma results_heading_inert :
  ~ is_warning results_heading /\ forall data, ~ is_download results_heading data.
Proof.
  split; [intros (? & [=])|intros ? (? & ? & ? & [=])].
Qed.

(** What the results column adds to the page. *)
Lemma column2_adds E a v :
  app_session a !! "results" = Some v ->
  exists a' shown,
    column2 E a = (Ok tt, a')
    /\ app_session a' = app_session a
    /\ app_world a' = set_clock (w_clock (app_world a')) (app_world a)
    /\ app_page a' = app_page a ++ results_heading :: shown
    /\ (forall e, In e shown ->
          ~ is_warning e
          /\ forall data, is_download e data ->
               exists r, session_report (app_session a) = Some r
                         /\ data = json_dumps_ascii (report_dict r)).
Proof.
  intros Hv. rewrite (column2_shows E a v Hv).
  destruct (session_report (app_session a)) as [r|].
  - eexists _, _. split; [reflexivity|]. cbn [app_world app_session app_page].
    split; [reflexivity|]. split; [reflexivity|]. split; [reflexivity|].
    intros e Hin. apply report_elements_items in Hin as [Hw Hd].
    split; [exact Hw|]. intros data Hdl. exists r.
    split; [reflexivity|exact (Hd data Hdl)].
  - exists (mkApp (app_world a) (app_session a)
              (app_page a ++ [results_heading])), [].
    split; [reflexivity|]. cbn [app_world app_session app_page].
    split; [reflexivity|]. split; [symmetry; apply set_clock_same|].
    split; [reflexivity|]. intros e [].
Qed.

Lemma button_disabled_without_key v au : button_disabled [] v au = true.
Proof. reflexivity. Qed.

Lemma button_disabled_without_files key : button_disabled key None None = true.
Proof. unfold button_disabled. apply orb_true_r. Qed.

(** The warning that asks for the key is dead code when the button reports
    a press only while it is enabled: the button is disabled as long as no
    key is typed.  For the same reason no analysis runs with both files
    missing: such a run ends normally and touches nothing of the world but
    the clock. *)
Theorem warning_never_drawn (P : Platform) (E : Env) (wg : Widgets) (a : App) :
  (wg_pressed wg = true ->
   button_disabled (wg_api_key wg) (wg_video wg) (wg_audio wg) = false) ->
  exists res a' new,
    main P E wg a = (res, a')
    /\ app_page a' = app_page a ++ new
    /\ (forall e, In e new -> ~ is_warning e)
    /\ (wg_video wg = None -> wg_audio wg = None ->
        res = Ok tt
        /\ app_world a' = set_clock (w_clock (app_world a')) (app_world a)).
Proof.
  intros Henabled.
  destruct (session_init_results (app_session a)) as (v & Hv & _).
  destruct (main_outcomes P E wg a)
    as [(Hp & Hrun)|[(Hp & Hkey & _)|[(Hp & Hkey & e & Hinit & Hrun)
        |(Hp & Hkey & Hinit & d & w1 & Hd & Hrun)]]].
  - destruct (column2_adds E (mkApp (app_world a) (session_init (app_session a))
                                (app_page a ++ static_elements wg)) v Hv)
      as (a' & shown & Hcol & _ & Hworld & Hpage & Hshown).
    exists (Ok tt), a', (static_elements wg ++ results_heading :: shown).
    split; [rewrite Hrun; exact Hcol|].
    split; [rewrite Hpage; cbn [app_page]; rewrite <- app_assoc; reflexivity|].
    split; [|intros _ _; split; [reflexivity|exact Hworld]].
    intros e Hin. apply in_app_or in Hin as [Hin|[<-|Hin]].
    + apply (static_elements_inert wg e Hin).
    + apply results_heading_inert.
    + apply (Hshown e Hin).
  - specialize (Henabled Hp). rewrite Hkey in Henabled. discriminate.
  - exists (Raise e), (mkApp (app_world a) (session_init (app_session a))
                         (app_page a ++ static_elements wg)),
      (static_elements wg).
    split; [exact Hrun|]. split; [reflexivity|].
    split; [intros x Hin; apply (static_elements_inert wg x Hin)|].
    intros Hvid Haud. specialize (Henabled Hp).
    rewrite Hvid, Haud, button_disabled_without_files in Henabled.
    discriminate.
  - destruct (column2_adds E
                (mkApp w1 (<["results" := SDict d]> (session_init (app_session a)))
                   (app_page a ++ static_elements wg ++ [outcome_element d]))
                (SDict d) (lookup_insert_eq _ _ _))
      as (a' & shown & Hcol & _ & _ & Hpage & Hshown).
    exists (Ok tt), a',
      (static_elements wg ++ [outcome_element d] ++ results_heading :: shown).
    split; [rewrite Hrun; exact Hcol|].
    split; [rewrite Hpage; cbn [app_page]; rewrite <- !app_assoc; reflexivity|].
    split.
    + intros x Hin. apply in_app_or in Hin as [Hin|[<-|[<-|Hin]]].
      * apply (static_elements_inert wg x Hin).
      * apply outcome_element_inert.
      * apply results_heading_inert.
      * apply (Hshown x Hin).
    + intros Hvid Haud. specialize (Henabled Hp).
      rewrite Hvid, Haud, button_disabled_without_files in Henabled.
      discriminate.
Qed.

(** A key typed, both files uploaded: the button is enabled, and
    pressed. *)
Lemma warning_never_drawn_witness :
  exists res a' new,
    main ready_platform calm_env pressed_widgets initial_app = (res, a')
    /\ app_page a' = new
    /\ (forall e, In e new -> ~ is_warning e).
Proof.
  destruct (warning_never_drawn ready_platform calm_env pressed_widgets
              initial_app)
    as (res & a' & new & Hrun & Hpage & Hnone & _).
  - intros _. reflexivity.
  - exists res, a', new. split; [exact Hrun|]. split; [exact Hpage|exact Hnone].
Defined.

(** A press with a key on which the constructor succeeds: the analysis
    runs on the files uploaded, its outcome replaces whatever the session
    held, and the page shows it.  After a report: the success box, then the
    results column with the report.  After the error dictionary: the error
    box with its text, and a results column that is empty, even when a
    report was on display before. *)
Theorem page_shows_outcome (P : Platform) (E : Env) (wg : Widgets) (a : App) :
  wg_pressed wg = true ->
  wg_api_key wg <> [] ->
  pf_genai P (wg_api_key wg) = None ->
  pf_makedirs P output_dir = None ->
  exists d w1 a',
    analyze_content E (wg_video wg) (wg_audio wg) (app_world a) = (Ok d, w1)
    /\ main P E wg a = (Ok tt, a')
    /\ app_session a' !! "results" = Some (SDict d)
    /\ app_page a'
       = app_page a ++ static_elements wg
         ++ outcome_element d :: results_heading
         :: match d with
            | Results r => report_elements r (env_now E (w_clock w1))
            | ErrorResult _ => []
            end.
Proof.
  intros Hp Hkey Hgenai Hdirs.
  destruct (main_outcomes P E wg a)
    as [(Hp' & _)|[(_ & Hkey' & _)|[(_ & _ & e & Hinit & _)
        |(_ & _ & _ & d & w1 & Hd & Hrun)]]].
  - rewrite Hp in Hp'. discriminate.
  - contradiction.
  - rewrite init_run, Hgenai, Hdirs in Hinit. discriminate.
  - exists d, w1. rewrite Hrun.
    rewrite (column2_shows E _ (SDict d) (lookup_insert_eq _ _ _)).
    cbn [app_world app_session app_page]. rewrite session_report_insert.
    destruct d as [r|msg]; eexists; (split; [exact Hd|]);
      (split; [reflexivity|]); cbn [app_session app_page];
      (split; [apply lookup_insert_eq|]);
      rewrite <- !app_assoc; reflexivity.
Qed.

(** A disk that refuses the video's temporary file: the error box, and
    nothing in the results column. *)
Lemma page_shows_outcome_witness :
  exists a',
    main ready_platform video_write_fails_env pressed_widgets initial_app
    = (Ok tt, a')
    /\ app_page a'
       = static_elements pressed_widgets
         ++ [ (Column1,
               StError (s2p "Analysis failed: [Errno 28] No space left on device"));
              results_heading ].
Proof.
  destruct (page_shows_outcome ready_platform video_write_fails_env
              pressed_widgets initial_app)
    as (d & w1 & a' & Hd & Hrun & _ & Hpage).
  - reflexivity.
  - discriminate.
  - reflexivity.
  - reflexivity.
  - exists a'. split; [exact Hrun|].
    vm_compute in Hd. injection Hd as <- _. exact Hpage.
Defined.

(** The only exception a run can end with is the constructor's.  Then
    nothing has been analysed: the world and the report of the session are
    as before, and the page stops after the button, without a results
    column. *)
Theorem only_the_constructor_escapes (P : Platform) (E : Env) (wg : Widgets)
    (a a' : App) (e : exn) :
  main P E wg a = (Raise e, a') ->
  wg_pressed wg = true
  /\ wg_api_key wg <> []
  /\ __init__ P (wg_api_key wg) (app_world a) = (Raise e, app_world a)
  /\ app_world a' = app_world a
  /\ session_report (app_session a') = session_report (app_session a)
  /\ app_page a' = app_page a ++ static_elements wg.
Proof.
  intros Hraise.
  destruct (session_init_results (app_session a)) as (v & Hv & Hrep).
  destruct (main_outcomes P E wg a)
    as [(Hp & Hrun)|[(Hp & Hkey & Hrun)|[(Hp & Hkey & e' & Hinit & Hrun)
        |(Hp & Hkey & Hinit & d & w1 & Hd & Hrun)]]];
    rewrite Hrun in Hraise.
  - rewrite (column2_shows E (mkApp _ (session_init (app_session a)) _) v Hv)
      in Hraise. discriminate.
  - rewrite (column2_shows E (mkApp _ (session_init (app_session a)) _) v Hv)
      in Hraise. discriminate.
  - injection Hraise as <- <-. cbn [app_world app_session app_page].
    repeat split; assumption.
  - rewrite (column2_shows E _ (SDict d) (lookup_insert_eq _ _ _)) in Hraise.
    discriminate.
Qed.

(** An output directory that cannot be created. *)
Lemma only_the_constructor_escapes_witness :
  exists a',
    main readonly_platform calm_env pressed_widgets initial_app
    = (Raise (Exn "PermissionError" "[Errno 13] Permission denied"), a')
    /\ app_world a' = initial_world
    /\ app_page a' = static_elements pressed_widgets.
Proof.
  destruct (main readonly_platform calm_env pressed_widgets initial_app)
    as [res a'] eqn:Hrun.
  assert (Hres : res = Raise (Exn "PermissionError" "[Errno 13] Permission denied")).
  { pose proof Hrun as Hval. vm_compute in Hval. injection Hval as <- _.
    reflexivity. }
  subst res. exists a'. split; [reflexivity|].
  destruct (only_the_constructor_escapes _ _ _ _ _ _ Hrun)
    as (_ & _ & _ & Hworld & _ & Hpage).
  split; [exact Hworld|exact Hpage].
Defined.

Lemma utf8_decode_plain s : Forall plain_ascii s -> utf8_decode s = Some s.
Proof.
  induction 1 as [|c s Hc Hs IH]; [reflexivity|].
  cbn [utf8_decode]. rewrite IH. unfold plain_ascii in Hc.
  destruct (Z.leb_spec 0 c); [|lia].
  destruct (Z.ltb_spec c 128); [|lia]. reflexivity.
Qed.

(** What a download holds reads back as the report. *)
Lemma download_loads r :
  report_encodable r ->
  load_report (json_dumps_ascii (report_dict r)) = Some r.
Proof.
  intros Hr. unfold load_report.
  rewrite (utf8_decode_plain _ (json_dumps_ascii_plain _)).
  rewrite (json_loads_dumps_ascii _ (report_dict_encodable r Hr)).
  apply report_of_dict_report.
Qed.

(** Whatever a run does, a download button it draws offers the report the
    session holds after the run: the data is plain ASCII, every character
    outside it escaped, and reading it back as the saved files are read
    gives that report.  The reports the session holds are always such that
    they can be read back: a report enters the session only after it has
    been saved. *)
Theorem download_reads_back (P : Platform) (E : Env) (wg : Widgets)
    (a a' : App) (res : result unit) :
  session_encodable (app_session a) ->
  main P E wg a = (res, a') ->
  session_encodable (app_session a')
  /\ exists new,
       app_page a' = app_page a ++ new
       /\ forall e data,
            In e new -> is_download e data ->
            Forall plain_ascii data
            /\ exists r,
                 session_report (app_session a') = Some r
                 /\ load_report data = Some r.
Proof.
  intros Henc Hmain.
  destruct (session_init_results (app_session a)) as (v & Hv & Hrep).
  assert (Hcol : forall a0 v0 extra,
            app_session a0 !! "results" = Some v0 ->
            session_encodable (app_session a0) ->
            app_page a0 = app_page a ++ static_elements wg ++ extra ->
            (forall e, In e extra -> forall data, ~ is_download e data) ->
            main P E wg a = column2 E a0 ->
            session_encodable (app_session a')
            /\ exists new,
                 app_page a' = app_page a ++ new
                 /\ forall e data,
                      In e new -> is_download e data ->
                      Forall plain_ascii data
                      /\ exists r,
                           session_report (app_session a') = Some r
                           /\ load_report data = Some r).
  { intros a0 v0 extra Hv0 Henc0 Hpage0 Hextra Hrun.
    destruct (column2_adds E a0 v0 Hv0)
      as (a1 & shown & Hcol & Hsess & _ & Hpage & Hshown).
    rewrite Hrun, Hcol in Hmain. injection Hmain as _ <-.
    rewrite Hsess. split; [exact Henc0|].
    exists (static_elements wg ++ extra ++ results_heading :: shown).
    split; [rewrite Hpage, Hpage0, <- !app_assoc; reflexivity|].
    intros e data Hin Hdl.
    apply in_app_or in Hin as [Hin|Hin];
      [destruct (proj2 (static_elements_inert wg e Hin) data Hdl)|].
    apply in_app_or in Hin as [Hin|[<-|Hin]];
      [destruct (Hextra e Hin data Hdl)
      |destruct (proj2 results_heading_inert data Hdl)|].
    destruct (proj2 (Hshown e Hin) data Hdl) as (r & Hr & ->).
    split; [apply json_dumps_ascii_plain|].
    exists r. split; [exact Hr|]. apply download_loads, Henc0, Hr. }
  assert (Henc_init : session_encodable (session_init (app_session a))).
  { intros r Hr. apply Henc. rewrite <- Hrep. exact Hr. }
  destruct (main_outcomes P E wg a)
    as [(Hp & Hrun)|[(Hp & Hkey & Hrun)|[(Hp & Hkey & e' & Hinit & Hrun)
        |(Hp & Hkey & Hinit & d & w1 & Hd & Hrun)]]].
  - apply (Hcol (mkApp (app_world a) (session_init (app_session a))
                    (app_page a ++ static_elements wg)) v [] Hv Henc_init);
      [cbn [app_page]; rewrite app_nil_r; reflexivity| |exact Hrun].
    intros e [].
  - apply (Hcol (mkApp (app_world a) (session_init (app_session a))
                    (app_page a ++ static_elements wg
                     ++ [(Column1,
                          StWarning (s2p "Please enter your Gemini API key"))]))
             v _ Hv Henc_init eq_refl); [|exact Hrun].
    intros e [<-|[]] data (? & ? & ? & [=]).
  - rewrite Hrun in Hmain. injection Hmain as _ <-.
    split; [exact Henc_init|]. exists (static_elements wg).
    split; [reflexivity|]. intros e data Hin Hdl.
    destruct (proj2 (static_elements_inert wg e Hin) data Hdl).
  - apply (Hcol (mkApp w1
                    (<["results" := SDict d]> (session_init (app_session a)))
                    (app_page a ++ static_elements wg ++ [outcome_element d]))
             (SDict d) [outcome_element d] (lookup_insert_eq _ _ _));
      [|reflexivity| |exact Hrun].
    + intros r. cbn [app_session]. rewrite session_report_insert.
      destruct d as [r0|msg]; [|discriminate]. intros [= <-].
      exact (returned_report_encodable _ _ _ _ _ _ Hd).
    + intros e [<-|[]] data. apply outcome_element_inert.
Qed.

(** A press with every collaborator succeeding: the download offers the
    Bengali verdicts, escaped. *)
Lemma download_reads_back_witness :
  exists res a',
    main ready_platform calm_env pressed_widgets initial_app = (res, a')
    /\ session_encodable (app_session a').
Proof.
  destruct (main ready_platform calm_env pressed_widgets initial_app)
    as [res a'] eqn:Hrun.
  exists res, a'. split; [reflexivity|].
  apply (download_reads_back ready_platform calm_env pressed_widgets
           initial_app a' res); [|exact Hrun].
  intros r. unfold session_report. cbn [initial_app app_session].
  rewrite lookup_empty. discriminate.
Defined.

(** ** From the sampler to the request *)

Lemma to_pil_frames_swapped frames :
  Forall (fun f : frame => f <> []) frames ->
  to_pil_frames frames
  = Ok (map (fun f => Image (map (map (fun p => Pixel (ch2 p) (ch1 p) (ch0 p)))
                               f)) frames).
Proof.
  induction 1 as [|f rest Hf Hrest IH]; [reflexivity|].
  cbn [to_pil_frames map]. destruct f as [|row f]; [contradiction|].
  cbn [cvtColor_BGR2RGB rbind]. rewrite IH. reflexivity.
Qed.

(** The second cap never drops a frame.  When no seek or read raises and
    no frame decoded is an empty array, [analyze_video] sends one request
    that holds, after the prompt, every frame the sampler kept, in the
    order of the video, each with its first and third channel swapped. *)
Theorem every_sampled_frame_is_sent (E : Env) (path : nat) (w : World) :
  never_raises (source_at E w path) ->
  (forall i, vs_read (source_at E w path) i <> Decoded []) ->
  exists frames v w',
    Forall2 (fun i f => vs_read (source_at E w path) i = Decoded f)
            (kept_indices (source_at E w path) 10) frames
    /\ analyze_video E path w = (Ok v, w')
    /\ w_calls w'
       = w_calls w
         ++ [PText video_prompt
             :: map (fun f =>
                       PImage (Image (map (map (fun p =>
                                                  Pixel (ch2 p) (ch1 p) (ch0 p)))
                                          f))) frames].
Proof.
  intros Hnr Hfull.
  destruct (sample_frames_kept (source_at E w path) 10 ltac:(lia) Hnr)
    as (frames & Hrun & Hkept).
  assert (Hlen : (length frames <= 10)%nat).
  { apply Forall2_length in Hkept. rewrite <- Hkept.
    unfold kept_indices. change (Z.to_nat 10) with 10%nat.
    rewrite length_take. apply Nat.le_min_l. }
  assert (Hne : Forall (fun f : frame => f <> []) frames).
  { clear Hrun Hlen. induction Hkept as [|i f idxs fs Hi _ IH]; constructor.
    - intros ->. exact (Hfull i Hi).
    - exact IH. }
  exists frames. rewrite analyze_video_run, Hrun.
  rewrite (to_pil_frames_swapped frames Hne). cbv zeta.
  rewrite take_ge by (rewrite length_map; exact Hlen). rewrite map_map.
  destruct (env_generate E _); eexists _, _;
    (split; [exact Hkept|]); split; reflexivity.
Qed.

(** The clip of 100 frames: ten images, of the frames 0, 10, ..., 90. *)
Lemma every_sampled_frame_is_sent_witness :
  exists v w',
    analyze_video calm_env 0 world_with_clip = (Ok v, w')
    /\ w_calls w'
       = [PText video_prompt
          :: map (fun i => PImage (Image [[Pixel i i i]]))
               [0; 10; 20; 30; 40; 50; 60; 70; 80; 90]].
Proof.
  destruct (every_sampled_frame_is_sent calm_env 0%nat world_with_clip)
    as (frames & v & w' & Hkept & Hrun & Hcalls).
  - intros i e. discriminate.
  - intros i. discriminate.
  - exists v, w'. split; [exact Hrun|].
    pose proof Hrun as Hval. vm_compute in Hval. injection Hval as _ <-.
    vm_compute. reflexivity.
Defined.

(** ** A failure on the audio's temporary file *)

(** The audio branch when writing its temporary file raises. *)
Lemma audio_branch_write_raises E af results w adata n e :
  env_mktemp E (w_tmp_next w) = None ->
  up_read af = Ok adata ->
  env_tmp_write E (w_tmp_next w) adata = WriteRaises n e ->
  exists w1,
    audio_branch E (Some af) results w
    = (Raise match env_tmp_close E (w_tmp_next w) [] with
             | Closed => e
             | CloseRaises _ e' => e'
             end, w1)
    /\ w_calls w1 = w_calls w
    /\ w_out w1 = w_out w
    /\ w_tmp w1 !! w_tmp_next w = Some (s2p ".wav", take n adata).
Proof.
  intros Hmk Hread Hwr.
  set (w0 := set_log (w_log w ++ [LogInfo (s2p "Analyzing audio...")]) w).
  assert (Hfile : forall bytes,
            w_tmp (tmp_closed (w_tmp_next w) bytes
                     (tmp_truncated (w_tmp_next w) n adata
                        (tmp_created (s2p ".wav") w0))) !! w_tmp_next w
            = Some (s2p ".wav", take n adata ++ bytes)).
  { intros bytes. unfold tmp_closed, tmp_truncated, tmp_created, to_disk.
    cbn -[alter insert take].
    rewrite !lookup_alter_eq, lookup_insert_eq. reflexivity. }
  unfold audio_branch. unfold bind at 1, log_info, modify. fold w0.
  unfold bind at 1. rewrite (with_named_tmp_run E _ _ w0 Hmk).
  unfold bind at 1, lift. rewrite Hread.
  unfold bind at 1. rewrite tmp_write_fresh.
  change (w_tmp_next w0) with (w_tmp_next w).
  rewrite Hwr, pending_truncated.
  destruct (env_tmp_close E _ _) as [|k e'];
    (eexists; split; [reflexivity|]; split; [reflexivity|];
     split; [reflexivity|]);
    rewrite Hfile, ?take_nil, app_nil_r; reflexivity.
Qed.

(** When writing the audio's temporary file raises after the video branch
    has run, the invocation ends with the error dictionary: it carries the
    text of that exception or, when closing the file raises too, of that
    one.  Whatever the video branch answered, on what its own file held
    past the buffer, is discarded, although its request was sent; no report
    is saved, and the audio's temporary file is still on disk, holding what
    went through before the write raised. *)
Theorem audio_write_failure_discards_video (E : Env) (w : World)
    (vf af : Upload) (vdata adata : list Z) (nv na : nat) (e : exn) :
  env_mktemp E (w_tmp_next w) = None ->
  up_read vf = Ok vdata ->
  env_tmp_write E (w_tmp_next w) vdata = Written nv ->
  env_tmp_close E (w_tmp_next w) (drop nv vdata) = Closed ->
  env_unlink E (w_tmp_next w) = None ->
  env_mktemp E (S (w_tmp_next w)) = None ->
  up_read af = Ok adata ->
  env_tmp_write E (S (w_tmp_next w)) adata = WriteRaises na e ->
  exists v w1 w',
    analyze_video E (w_tmp_next w)
      (branch_ready (s2p "Analyzing video...") (s2p ".mp4") nv vdata
         (set_clock (S (w_clock w)) w))
    = (Ok v, w1)
    /\ analyze_content E (Some vf) (Some af) w
       = (Ok (ErrorResult
                (s2p (exn_str match env_tmp_close E (S (w_tmp_next w)) [] with
                              | Closed => e
                              | CloseRaises _ e' => e'
                              end))), w')
    /\ w_calls w' = w_calls w1
    /\ w_out w' = w_out w
    /\ w_tmp w' !! S (w_tmp_next w) = Some (s2p ".wav", take na adata).
Proof.
  intros Hmk Hvread Hvwr Hcl Hun Hmk' Haread Hawr.
  set (w0 := set_clock (S (w_clock w)) w).
  set (r0 := {| timestamp := isoformat (env_now E (w_clock w));
                video_analysis := None; audio_analysis := None |}).
  destruct (video_branch_run E vf vdata nv r0 w0 Hmk Hvread Hvwr)
    as (v & w1 & Hv & Hnext & Hvb).
  change (w_tmp_next w0) with (w_tmp_next w) in Hvb.
  rewrite Hcl, Hun in Hvb.
  destruct (analyze_video_outcome E (w_tmp_next w0)
              (branch_ready (s2p "Analyzing video...") (s2p ".mp4") nv vdata
                 w0))
    as (v' & w1' & Hv' & _ & _ & _ & Hout).
  rewrite Hv in Hv'. injection Hv' as <- <-.
  set (w2 := tmp_removed (w_tmp_next w) w1) in Hvb.
  assert (Hnext2 : w_tmp_next w2 = S (w_tmp_next w)) by exact Hnext.
  rewrite <- Hnext2 in Hmk', Hawr.
  destruct (audio_branch_write_raises E af (set_video_analysis v r0) w2
              adata na e Hmk' Haread Hawr)
    as (w3 & Ha & Hcalls & Hout3 & Hfile).
  rewrite Hnext2 in Ha, Hfile.
  exists v, w1. eexists.
  split; [exact Hv|].
  unfold analyze_content, try_except, bind at 1, run_branches, bind at 1, now.
  fold w0 r0. unfold bind at 1. rewrite Hvb. unfold bind at 1. rewrite Ha.
  unfold bind, log_error, modify, ret.
  split; [reflexivity|]. split; [exact Hcalls|].
  split; [|exact Hfile].
  cbn [w_out set_log]. rewrite Hout3. exact Hout.
Qed.

(** A disk that fills up after the video's temporary file: the video
    request was sent, the error dictionary is all that comes back. *)
Lemma audio_write_failure_discards_video_witness :
  exists w',
    analyze_content audio_write_fails_env (Some some_video) (Some some_audio)
      initial_world
    = (Ok (ErrorResult (s2p "[Errno 28] No space left on device")), w')
    /\ length (w_calls w') = 1%nat
    /\ w_out w' = ∅.
Proof.
  destruct (audio_write_failure_discards_video audio_write_fails_env
              initial_world some_video some_audio
              [0; 0; 0; 24; 102; 116; 121; 112] [82; 73; 70; 70] 8 0
              (Exn "OSError" "[Errno 28] No space left on device")
              eq_refl eq_refl eq_refl eq_refl eq_refl eq_refl eq_refl eq_refl)
    as (v & w1 & w' & Hv & Hrun & Hcalls & Hout & _).
  exists w'. split; [exact Hrun|]. split; [|exact Hout].
  rewrite Hcalls. vm_compute in Hv. injection Hv as _ <-. reflexivity.
Defined.
